(** * Dataset automations: change events, trigger dispatch and webhook forms

    A shallow embedding of

    - [datasetsTableCols] / [datasetActionFilterOptions]
      (column definitions for dataset filters),
    - [datasetVersionProcessor] / [enqueueAutomationAction]
      (the change event processor),
    - [datasetChangeEventSourcing] (the change publisher),
    - [WebhookActionHandler.parseHeaders] / [getDefaultValues] /
      [validateFormData] (the webhook action form),

    together with the properties the specification states about them.

    Conventions.  A JavaScript string is a [string], the bytes of its
    text; the code compares, concatenates and tests strings for
    emptiness, and calls the engine's [trim] and [toLowerCase], which
    are parameters of the embedding ([Js.Strings]).  An object literal
    whose key set matters is an association list in property order
    ([JObj]).
    Asynchronous code is sequential state passing over a [World] that
    records, in order, every observable effect; external services are
    oracles of an environment [Env] and may fail. *)

From Stdlib Require Import Ascii String DecimalString DecimalNat.
From stdpp Require Import base decidable option list strings gmap.

Local Open Scope string_scope.
Local Open Scope list_scope.

(* ================================================================== *)
(** ** JavaScript strings *)
(* ================================================================== *)

Module Js.

(** A string in a boolean position: [""] is falsy, all others truthy. *)
Definition truthy (s : string) : bool :=
  match s with
  | EmptyString => false
  | String _ _ => true
  end.

(** [String.prototype.trim] and [String.prototype.toLowerCase] belong to
    the engine: the first strips the white space and line terminators of
    ECMAScript (among them U+00A0, U+FEFF and the Unicode space
    separators), the second applies the lower-case mappings of the
    Unicode character database.  The code is embedded over any such pair
    of functions, and every property of it is proved for all of them. *)
Class Strings : Type := {
  trim : string -> string;
  toLowerCase : string -> string;
}.

(** [`${n}`] for a non-negative integer: its decimal digits. *)
Definition show_nat (n : nat) : string :=
  NilEmpty.string_of_uint (Nat.to_uint n).

(** [Array.prototype.includes] on strings. *)
Definition includes (l : list string) (x : string) : bool :=
  bool_decide (x ∈ l).

(** [new Set(l).size]. *)
Definition set_size (l : list string) : nat :=
  size (list_to_set l : gset string).

End Js.

(* ================================================================== *)
(** ** The webhook action form (WebhookActionHandler) *)
(* ================================================================== *)

(** type HeaderPair *)
Module HeaderPair.
Record t : Type := mk {
  name : string;
  value : string;
  displayValue : string;
  isSecret : bool;
  wasSecret : bool;
}.
End HeaderPair.

(** An entry of [displayHeaders]: [{ secret, value }]. *)
Module HeaderObj.
Record t : Type := mk {
  secret : bool;
  value : string;
}.
End HeaderObj.

(** The members of the TriggerEventSource enum, where the code names
    one.  An event source read from the store is a string. *)
Inductive TriggerEventSource : Type :=
| EventSourcePrompt
| EventSourceDataset.

(** The part of an action's safe configuration the handler reads.  Only
    the WEBHOOK variant carries [displayHeaders]; a property that is
    absent or falsy is [None].  [displayHeaders] is listed in the order
    [Object.entries] enumerates it. *)
Inductive ActionConfig : Type :=
| WebhookConfig (url : option string)
                (displayHeaders : option (list (string * HeaderObj.t)))
                (apiVersion : option (list (string * string)))
| OtherConfig.

Inductive ActionType : Type :=
| WEBHOOK
| SLACK
| GITHUB_DISPATCH.

(** ActionDomain, as far as the code reads it. *)
Module ActionDomain.
Record t : Type := mk {
  id : string;
  type : ActionType;
  config : option ActionConfig;
}.
End ActionDomain.

(** AutomationDomain, as far as the code reads it: [id], [action] and
    [trigger?.eventSource], the string the store holds ([None] when the
    trigger or the property is missing). *)
Module AutomationDomain.
Record t : Type := mk {
  id : string;
  action : option ActionDomain.t;
  triggerEventSource : option string;
}.
End AutomationDomain.

Module WebhookForm.
Record t : Type := mk {
  url : string;
  headers : option (list HeaderPair.t);
  apiVersion : list (string * string);
}.
End WebhookForm.

(** WebhookActionFormData.  The code guards every access with [?.], so
    [webhook] may be missing. *)
Module FormData.
Record t : Type := mk {
  webhook : option WebhookForm.t;
  eventSource : option string;
}.
End FormData.

Module ValidationResult.
Record t : Type := mk {
  isValid : bool;
  errors : option (list string);
}.
End ValidationResult.

Module WebhookActionHandler.

(** One entry of [Object.entries(displayHeaders).map(...)]. *)
Definition parseHeader (entry : string * HeaderObj.t) : HeaderPair.t :=
  let (name, headerObj) := entry in
  {| HeaderPair.name := name;
     HeaderPair.value :=
       if HeaderObj.secret headerObj then "" else HeaderObj.value headerObj;
     HeaderPair.displayValue := HeaderObj.value headerObj;
     HeaderPair.isSecret := HeaderObj.secret headerObj;
     HeaderPair.wasSecret := HeaderObj.secret headerObj |}.

(** The [catch] of [parseHeaders] is unreachable on well-typed entries
    (the callback reads two properties of an object) and is left out. *)
Definition parseHeaders (automation : option AutomationDomain.t)
  : list HeaderPair.t :=
  match automation ≫= AutomationDomain.action with
  | Some action =>
      match ActionDomain.type action, ActionDomain.config action with
      | WEBHOOK, Some (WebhookConfig _ (Some displayHeaders) _) =>
          map parseHeader displayHeaders
      | _, _ => []
      end
  | None => []
  end.

(** The double quote character of the template strings. *)
Definition dquote : ascii := "034"%char.

Definition msgUrlRequired : string := "Webhook URL is required".

Definition msgNameEmpty (index : nat) : string :=
  "Header " +:+ Js.show_nat (index + 1) +:+ ": Name cannot be empty".

Definition msgValueEmpty (index : nat) : string :=
  "Header " +:+ Js.show_nat (index + 1) +:+ ": Value cannot be empty".

Definition msgValueRequired (index : nat) (wasSecret : bool) : string :=
  "Header " +:+ Js.show_nat (index + 1)
    +:+ ": A value must be provided when making a header "
    +:+ (if wasSecret then "public" else "secret").

Definition msgReserved (index : nat) (name : string) : string :=
  "Header " +:+ Js.show_nat (index + 1) +:+ ": " +:+ String dquote name
    +:+ String dquote
          " is automatically added by Langfuse and cannot be customized".

Definition msgDuplicate : string :=
  "Duplicate header names are not allowed (case-insensitive)".

Section Validate.

Context {engine : Js.Strings}.

(** [Object.keys(WebhookDefaultHeaders)]; the table itself lives in
    the shared package. *)
Variable defaultHeaderKeys : list string.

(** [push] appends to the error array. *)
Definition push (errors : list string) (e : string) : list string :=
  errors ++ [e].

(** The body of the [forEach] callback, threading the [errors] array. *)
Definition checkHeader (errors : list string)
           (header : HeaderPair.t) (index : nat) : list string :=
  let name := Js.trim (HeaderPair.name header) in
  let value := Js.trim (HeaderPair.value header) in
  if Js.truthy name || Js.truthy value then
    let errors :=
      if negb (Js.truthy name)
      then push errors (msgNameEmpty index) else errors in
    let errors :=
      if negb (Js.truthy value) && negb (HeaderPair.isSecret header)
      then push errors (msgValueEmpty index) else errors in
    let errors :=
      if negb (Bool.eqb (HeaderPair.wasSecret header) (HeaderPair.isSecret header))
         && negb (Js.truthy value)
      then push errors (msgValueRequired index (HeaderPair.wasSecret header))
      else errors in
    let errors :=
      if Js.truthy name && Js.includes defaultHeaderKeys (Js.toLowerCase name)
      then push errors (msgReserved index (HeaderPair.name header))
      else errors in
    errors
  else errors.

(** [headers.forEach((header, index) => ...)], starting at [index]. *)
Fixpoint forEachHeader (errors : list string) (index : nat)
         (headers : list HeaderPair.t) : list string :=
  match headers with
  | [] => errors
  | header :: rest =>
      forEachHeader (checkHeader errors header index) (S index) rest
  end.

Definition headerNames (headers : list HeaderPair.t) : list string :=
  map (fun h => Js.toLowerCase (Js.trim (HeaderPair.name h)))
      (filter (fun h => Is_true (Js.truthy (Js.trim (HeaderPair.name h))))
              headers).

(** The error array at the end of [validateFormData]. *)
Definition collectErrors (formData : FormData.t) : list string :=
  let errors := [] in
  let errors :=
    match FormData.webhook formData with
    | Some w =>
        if Js.truthy (WebhookForm.url w) then errors
        else push errors msgUrlRequired
    | None => push errors msgUrlRequired
    end in
  match FormData.webhook formData with
  | Some w =>
      match WebhookForm.headers w with
      | Some headers =>
          let errors := forEachHeader errors 0 headers in
          let names := headerNames headers in
          if (Js.set_size names <? length names)%nat
          then push errors msgDuplicate
          else errors
      | None => errors
      end
  | None => errors
  end.

Definition validateFormData (formData : FormData.t) : ValidationResult.t :=
  let errors := collectErrors formData in
  {| ValidationResult.isValid := (length errors =? 0)%nat;
     ValidationResult.errors :=
       if (0 <? length errors)%nat then Some errors else None |}.

End Validate.

End WebhookActionHandler.

(* ================================================================== *)
(** ** Values, domain objects and column definitions *)
(* ================================================================== *)

(** Points in time ([Date]), as milliseconds. *)
Definition Date : Type := Z.

#[local] Set Warnings "-register-all".

(** JSON-like values; an object is its property list in property order. *)
Inductive JValue : Type :=
| JNull
| JBool (b : bool)
| JNum (n : Z)
| JStr (s : string)
| JDate (d : Date)
| JArr (items : list JValue)
| JObj (fields : list (string * JValue)).

Module Obj.

(** [o[key]] on a property list. *)
Fixpoint lookup (key : string) (fields : list (string * JValue))
  : option JValue :=
  match fields with
  | [] => None
  | (k, v) :: rest => if String.eqb k key then Some v else lookup key rest
  end.

(** [value.key]; [None] when the value is no object or lacks the key. *)
Definition get (key : string) (v : JValue) : option JValue :=
  match v with
  | JObj fields => lookup key fields
  | _ => None
  end.

Definition keys (v : JValue) : list string :=
  match v with
  | JObj fields => map fst fields
  | _ => []
  end.

(** A property written after a spread: it replaces an existing property
    in place and is appended otherwise. *)
Fixpoint set (key : string) (v : JValue) (fields : list (string * JValue))
  : list (string * JValue) :=
  match fields with
  | [] => [(key, v)]
  | (k, v0) :: rest =>
      if String.eqb k key then (k, v) :: rest
      else (k, v0) :: set key v rest
  end.

Definition ofOption {A} (f : A -> JValue) (o : option A) : JValue :=
  match o with
  | Some a => f a
  | None => JNull
  end.

End Obj.

(** DatasetDomainSchema *)
Module DatasetDomain.
Record t : Type := mk {
  id : string;
  name : string;
  projectId : string;
  description : option string;
  metadata : JValue;
  remoteExperimentUrl : option string;
  remoteExperimentPayload : JValue;
  inputSchema : JValue;
  expectedOutputSchema : JValue;
  itemsUpdatedAt : option Date;
  createdAt : Date;
  updatedAt : Date;
}.

(** The properties a spread [...datasetData] copies. *)
Definition entries (d : t) : list (string * JValue) :=
  [ ("id", JStr (id d));
    ("name", JStr (name d));
    ("projectId", JStr (projectId d));
    ("description", Obj.ofOption JStr (description d));
    ("metadata", metadata d);
    ("remoteExperimentUrl", Obj.ofOption JStr (remoteExperimentUrl d));
    ("remoteExperimentPayload", remoteExperimentPayload d);
    ("inputSchema", inputSchema d);
    ("expectedOutputSchema", expectedOutputSchema d);
    ("itemsUpdatedAt", Obj.ofOption JDate (itemsUpdatedAt d));
    ("createdAt", JDate (createdAt d));
    ("updatedAt", JDate (updatedAt d)) ].
End DatasetDomain.

(** ColumnDefinition *)
Module ColumnDefinition.
Record t : Type := mk {
  id : string;
  name : string;
  type : string;
  internal : string;
}.
End ColumnDefinition.

Definition datasetsTableCols : list ColumnDefinition.t :=
  [ {| ColumnDefinition.id := "name";
       ColumnDefinition.name := "Name";
       ColumnDefinition.type := "string";
       ColumnDefinition.internal :=
         "d." +:+ String WebhookActionHandler.dquote
                    ("name" +:+ String WebhookActionHandler.dquote "") |} ].

Definition datasetActionFilterOptions : list ColumnDefinition.t :=
  List.filter (fun col => String.eqb (ColumnDefinition.id col) "name")
              datasetsTableCols.

Inductive TriggerEventAction : Type :=
| created
| updated
| deleted.

Definition TriggerEventAction_str (a : TriggerEventAction) : string :=
  match a with
  | created => "created"
  | updated => "updated"
  | deleted => "deleted"
  end.

Inductive JobConfigState : Type :=
| ACTIVE
| INACTIVE.

Inductive ActionExecutionStatus : Type :=
| PENDING
| COMPLETED
| ERROR
| CANCELLED.

Inductive FilterOperator : Type :=
| OpEquals
| OpNotEquals
| OpContains.

(** Modelled from the spec: the filter predicate type of the shared
    package, which is not part of these sources.  "A list of conditions,
    each naming a logical column, a comparison operator, and a comparison
    value." *)
Module FilterCondition.
Record t : Type := mk {
  column : string;
  operator : FilterOperator;
  value : string;
}.
End FilterCondition.

Module TriggerConfiguration.
Record t : Type := mk {
  id : string;
  projectId : string;
  (** the string the store holds *)
  eventSource : string;
  status : JobConfigState;
  filter : list FilterCondition.t;
  actionIds : list string;
}.
End TriggerConfiguration.

(** The [entityType: "dataset"] member of EntityChangeEventType. *)
Module DatasetChangeEvent.
Record t : Type := mk {
  projectId : string;
  datasetId : string;
  action : TriggerEventAction;
  dataset : DatasetDomain.t;
}.
End DatasetChangeEvent.

(** [{ ...event.dataset, action: event.action }] *)
Module EventData.
Record t : Type := mk {
  dataset : DatasetDomain.t;
  action : string;
}.
Definition name (data : t) : string := DatasetDomain.name (dataset data).
End EventData.

Definition FieldMapper : Type := EventData.t -> string -> option string.

(** The data of a [prisma.automationExecution.create] call. *)
Module AutomationExecution.
Record t : Type := mk {
  id : string;
  projectId : string;
  automationId : string;
  triggerId : string;
  actionId : string;
  status : ActionExecutionStatus;
  sourceId : string;
  input : JValue;
}.
End AutomationExecution.

(** Thrown values. *)
Module Error.
Record t : Type := mk {
  name : string;
  message : string;
}.

(** [`${error}`], that is [Error.prototype.toString]: the name alone
    when the message is empty, the message alone when the name is. *)
Definition toString (e : t) : string :=
  if negb (Js.truthy (name e)) then message e
  else if negb (Js.truthy (message e)) then name e
  else name e +:+ ": " +:+ message e.
End Error.

Definition InternalServerError (message : string) : Error.t :=
  {| Error.name := "InternalServerError"; Error.message := message |}.

(* ================================================================== *)
(** ** Effects: the world, the environment and the monad *)
(* ================================================================== *)

Inductive LogLevel : Type :=
| LevelDebug
| LevelInfo
| LevelError.

(** Reads of the persistent store. *)
Inductive Query : Type :=
| QTriggerConfigurations (projectId : string)
                         (eventSource : TriggerEventSource)
                         (status : JobConfigState)
| QActionById (projectId actionId : string)
| QAutomations (projectId actionId : string)
| QDatasetVersions (projectId datasetId : string).

(** What a run leaves behind, in the order it happens. *)
Inductive Effect : Type :=
| Logged (level : LogLevel) (message : string)
| Queried (q : Query)
| ExecutionCreated (data : AutomationExecution.t)
| WebhookJobAdded (job : JValue)
| EntityChangeJobAdded (job : JValue).

Module World.
Record t : Type := mk {
  effects : list Effect;
  (** how many identifiers [v4()] has handed out *)
  uuids : nat;
}.

Definition emit (e : Effect) (w : t) : t :=
  {| effects := effects w ++ [e]; uuids := uuids w |}.

Definition initial : t := {| effects := []; uuids := 0 |}.
End World.

Inductive result (A : Type) : Type :=
| Ok (a : A)
| Throw (e : Error.t).
Arguments Ok {A} a.
Arguments Throw {A} e.

(** The collaborators of the two functions.  Each may answer differently
    depending on everything that happened before, and each call that can
    reject returns a [result]. *)
Module Env.
Record t : Type := mk {
  getTriggerConfigurations :
    World.t -> string -> TriggerEventSource -> JobConfigState ->
    result (list TriggerConfiguration.t);
  getActionById : World.t -> string -> string -> result (option ActionDomain.t);
  getAutomations : World.t -> string -> string -> result (list AutomationDomain.t);
  listDatasetVersions : World.t -> string -> string -> result (list Date);
  (** InMemoryFilterService.evaluateFilter *)
  evaluateFilter :
    EventData.t -> list FilterCondition.t -> FieldMapper -> result bool;
  (** jsonSchemaNullable.parse *)
  parseJsonNullable : JValue -> result JValue;
  (** prisma.automationExecution.create *)
  createAutomationExecution : World.t -> AutomationExecution.t -> result unit;
  (** whether WebhookQueue.getInstance() is an instance (not null) *)
  webhookQueueInstance : World.t -> bool;
  webhookQueueAdd : World.t -> JValue -> result unit;
  entityChangeQueueInstance : World.t -> bool;
  entityChangeQueueAdd : World.t -> JValue -> result unit;
  (** the n-th identifier [v4()] hands out *)
  v4 : nat -> string;
  (** [new Date()] *)
  now : World.t -> Date;
  (** QueueJobs.WebhookJob and QueueJobs.EntityChangeJob *)
  webhookJobName : string;
  entityChangeJobName : string;
}.
End Env.

(** A computation: from a world to an outcome and the world after it.  A
    thrown error keeps the effects made before it. *)
Definition M (A : Type) : Type := World.t -> result A * World.t.

Definition ret {A} (a : A) : M A := fun w => (Ok a, w).

Definition throw {A} (e : Error.t) : M A := fun w => (Throw e, w).

Definition bind {A B} (m : M A) (k : A -> M B) : M B :=
  fun w =>
    match m w with
    | (Ok a, w') => k a w'
    | (Throw e, w') => (Throw e, w')
    end.

(** [try { m } catch (error) { handler error }] *)
Definition tryCatch {A} (m : M A) (handler : Error.t -> M A) : M A :=
  fun w =>
    match m w with
    | (Ok a, w') => (Ok a, w')
    | (Throw e, w') => handler e w'
    end.

Declare Scope js_scope.
Delimit Scope js_scope with js.
Notation "'do' x <- m ;; k" := (bind m (fun x => k))
  (at level 10, x name, m at level 99, k at level 200) : js_scope.

Definition liftResult {A} (r : result A) : M A := fun w => (r, w).

Definition logger (level : LogLevel) (message : string) : M unit :=
  fun w => (Ok tt, World.emit (Logged level message) w).

(** A read of the store: the read is recorded, then answered. *)
Definition query {A} (q : Query) (answer : World.t -> result A) : M A :=
  fun w => (answer w, World.emit (Queried q) w).

(** [await Promise.all(ms)]: every promise runs to its end; the first
    rejection, if any, is the rejection of the whole.  Interleaving is
    not represented; the one caller passes a singleton. *)
Fixpoint promiseAll (ms : list (M unit)) : M unit :=
  match ms with
  | [] => ret tt
  | m :: rest =>
      fun w =>
        match m w with
        | (Ok _, w') => promiseAll rest w'
        | (Throw e, w') => (Throw e, snd (promiseAll rest w'))
        end
  end.

(* ================================================================== *)
(** ** The change event processor and the change publisher *)
(* ================================================================== *)

(** The field mapper [datasetVersionProcessor] hands to the filter service. *)
Definition fieldMapper : FieldMapper :=
  fun data column =>
    if String.eqb column "action" then Some (EventData.action data)
    else if String.eqb column "Name" then Some (EventData.name data)
    else None.

Section Processor.

Variable env : Env.t.

Local Open Scope js_scope.

Definition v4 : M string :=
  fun w =>
    (Ok (Env.v4 env (World.uuids w)),
     {| World.effects := World.effects w; World.uuids := S (World.uuids w) |}).

Definition newDate : M Date := fun w => (Ok (Env.now env w), w).

Definition parse (v : JValue) : M JValue :=
  liftResult (Env.parseJsonNullable env v).

(** [{ ...datasetData, metadata: .., inputSchema: .., expectedOutputSchema: .. }] *)
Definition normalizedSnapshot (datasetData : DatasetDomain.t)
           (metadata inputSchema expectedOutputSchema : JValue)
  : list (string * JValue) :=
  Obj.set "expectedOutputSchema" expectedOutputSchema
    (Obj.set "inputSchema" inputSchema
       (Obj.set "metadata" metadata (DatasetDomain.entries datasetData))).

(** The argument of [WebhookQueue.add]. *)
Definition webhookJob (timestamp : Date) (id projectId automationId
                       executionId : string) (action : string)
           (dataset : list (string * JValue)) : JValue :=
  JObj [ ("timestamp", JDate timestamp);
         ("id", JStr id);
         ("payload",
           JObj [ ("projectId", JStr projectId);
                  ("automationId", JStr automationId);
                  ("executionId", JStr executionId);
                  ("payload",
                    JObj [ ("action", JStr action);
                           ("type", JStr "dataset");
                           ("dataset", JObj dataset) ]) ]);
         ("name", JStr (Env.webhookJobName env)) ].

(** [await prisma.automationExecution.create({ data })] *)
Definition createExecution (data : AutomationExecution.t) : M unit :=
  fun w =>
    match Env.createAutomationExecution env w data with
    | Ok _ => (Ok tt, World.emit (ExecutionCreated data) w)
    | Throw e => (Throw e, w)
    end.

(** [WebhookQueue.getInstance()], as "is it an instance". *)
Definition webhookQueueGetInstance : M bool :=
  fun w => (Ok (Env.webhookQueueInstance env w), w).

(** [await queue.add(QueueName.WebhookQueue, job)] *)
Definition webhookQueueAdd (job : JValue) : M unit :=
  fun w =>
    match Env.webhookQueueAdd env w job with
    | Ok _ => (Ok tt, World.emit (WebhookJobAdded job) w)
    | Throw e => (Throw e, w)
    end.

Definition entityChangeQueueGetInstance : M bool :=
  fun w => (Ok (Env.entityChangeQueueInstance env w), w).

(** [await queue.add(QueueName.EntityChangeQueue, event)] *)
Definition entityChangeQueueAdd (event : JValue) : M unit :=
  fun w =>
    match Env.entityChangeQueueAdd env w event with
    | Ok _ => (Ok tt, World.emit (EntityChangeJobAdded event) w)
    | Throw e => (Throw e, w)
    end.

Definition executionData (datasetData : DatasetDomain.t)
           (automation : AutomationDomain.t)
           (executionId triggerId actionId projectId : string)
  : AutomationExecution.t :=
  {| AutomationExecution.id := executionId;
     AutomationExecution.projectId := projectId;
     AutomationExecution.automationId := AutomationDomain.id automation;
     AutomationExecution.triggerId := triggerId;
     AutomationExecution.actionId := actionId;
     AutomationExecution.status := PENDING;
     AutomationExecution.sourceId := DatasetDomain.id datasetData;
     AutomationExecution.input :=
       JObj [ ("datasetName", JStr (DatasetDomain.name datasetData));
              ("datasetId", JStr (DatasetDomain.id datasetData));
              ("automationId", JStr (AutomationDomain.id automation));
              ("type", JStr "dataset") ] |}.

(** Everything after [getAutomations] has answered with exactly one
    automation.  With no queue instance the optional call [?.add(...)]
    evaluates none of its arguments. *)
Definition recordAndEnqueue (datasetData : DatasetDomain.t)
           (automation : AutomationDomain.t)
           (action : string) (triggerId actionId projectId : string)
  : M unit :=
  do executionId <- v4 ;;
  do _ <- createExecution
            (executionData datasetData automation executionId triggerId
               actionId projectId) ;;
  do _ <- logger LevelDebug
            ("Created automation execution " +:+ executionId
               +:+ " for project " +:+ projectId
               +:+ " and action " +:+ actionId) ;;
  do instance <- webhookQueueGetInstance ;;
  if instance then
    do timestamp <- newDate ;;
    do id <- v4 ;;
    do metadata <- parse (DatasetDomain.metadata datasetData) ;;
    do inputSchema <- parse (DatasetDomain.inputSchema datasetData) ;;
    do expectedOutputSchema <-
      parse (DatasetDomain.expectedOutputSchema datasetData) ;;
    webhookQueueAdd
      (webhookJob timestamp id projectId (AutomationDomain.id automation)
         executionId action
         (normalizedSnapshot datasetData metadata inputSchema
            expectedOutputSchema))
  else ret tt.

Definition enqueueAutomationAction (datasetData : DatasetDomain.t)
           (action : string) (triggerId actionId projectId : string)
  : M unit :=
  do automations <- query (QAutomations projectId actionId)
                          (fun w => Env.getAutomations env w projectId actionId) ;;
  match automations with
  | [automation] =>
      recordAndEnqueue datasetData automation action triggerId actionId
        projectId
  | _ =>
      throw (InternalServerError
               ("Expected 1 automation for action " +:+ actionId +:+ ", got "
                  +:+ Js.show_nat (length automations)))
  end.

(** The callback of [trigger.actionIds.map]. *)
Definition runAction (event : DatasetChangeEvent.t)
           (trigger : TriggerConfiguration.t) (actionId : string) : M unit :=
  do actionConfig <- query (QActionById (DatasetChangeEvent.projectId event) actionId)
                        (fun w => Env.getActionById env w
                                    (DatasetChangeEvent.projectId event) actionId) ;;
  match actionConfig with
  | None => logger LevelError ("Action " +:+ actionId +:+ " not found")
  | Some _ =>
      enqueueAutomationAction (DatasetChangeEvent.dataset event)
        (TriggerEventAction_str (DatasetChangeEvent.action event))
        (TriggerConfiguration.id trigger) actionId
        (DatasetChangeEvent.projectId event)
  end.

Definition msgMultipleOrNoActions (trigger : TriggerConfiguration.t) : string :=
  "Trigger " +:+ TriggerConfiguration.id trigger +:+ " for project "
    +:+ TriggerConfiguration.projectId trigger
    +:+ " has multiple or no actions. This is not expected".

(** [{ ...event.dataset, action: event.action }] *)
Definition eventData (event : DatasetChangeEvent.t) : EventData.t :=
  {| EventData.dataset := DatasetChangeEvent.dataset event;
     EventData.action :=
       TriggerEventAction_str (DatasetChangeEvent.action event) |}.

Definition msgNoMatch (trigger : TriggerConfiguration.t) : string :=
  "Event doesn't match trigger " +:+ TriggerConfiguration.id trigger
    +:+ " filters".

Definition msgMatches (trigger : TriggerConfiguration.t) : string :=
  "Trigger " +:+ TriggerConfiguration.id trigger
    +:+ " matches, executing actions".

(** The body of the inner [try] of the trigger loop. *)
Definition processTrigger (event : DatasetChangeEvent.t)
           (trigger : TriggerConfiguration.t) : M unit :=
  do eventMatches <- liftResult (Env.evaluateFilter env (eventData event)
                                   (TriggerConfiguration.filter trigger)
                                   fieldMapper) ;;
  if negb eventMatches then
    logger LevelDebug (msgNoMatch trigger)
  else
    do _ <- logger LevelDebug (msgMatches trigger) ;;
    do _ <- (if negb (length (TriggerConfiguration.actionIds trigger) =? 1)%nat
             then
               do _ <- logger LevelDebug (msgMultipleOrNoActions trigger) ;;
               throw (InternalServerError (msgMultipleOrNoActions trigger))
             else ret tt) ;;
    promiseAll (map (runAction event trigger)
                    (TriggerConfiguration.actionIds trigger)).

Definition msgErrorProcessingTrigger (event : DatasetChangeEvent.t)
           (trigger : TriggerConfiguration.t) (error : Error.t) : string :=
  "Error processing trigger " +:+ TriggerConfiguration.id trigger
    +:+ " for dataset " +:+ DatasetChangeEvent.datasetId event
    +:+ " for project " +:+ DatasetChangeEvent.projectId event
    +:+ ": " +:+ Error.toString error.

(** One iteration of [for (const trigger of triggers)]. *)
Definition triggerIteration (event : DatasetChangeEvent.t)
           (trigger : TriggerConfiguration.t) : M unit :=
  tryCatch (processTrigger event trigger)
           (fun error =>
              logger LevelError (msgErrorProcessingTrigger event trigger error)).

Fixpoint forTriggers (event : DatasetChangeEvent.t)
         (triggers : list TriggerConfiguration.t) : M unit :=
  match triggers with
  | [] => ret tt
  | trigger :: rest =>
      do _ <- triggerIteration event trigger ;;
      forTriggers event rest
  end.

Definition msgFailedToProcess (event : DatasetChangeEvent.t)
           (error : Error.t) : string :=
  "Failed to process dataset change event for dataset "
    +:+ DatasetChangeEvent.datasetId event
    +:+ " for project " +:+ DatasetChangeEvent.projectId event
    +:+ ": " +:+ Error.toString error.

Definition msgProcessing (event : DatasetChangeEvent.t) : string :=
  "Processing dataset change event for dataset "
    +:+ DatasetChangeEvent.datasetId event
    +:+ " for project " +:+ DatasetChangeEvent.projectId event.

(** The metadata arguments of the logger calls (among them
    [JSON.stringify(event)]) are not represented. *)
Definition datasetVersionProcessor (event : DatasetChangeEvent.t) : M unit :=
  tryCatch
    (do _ <- logger LevelInfo (msgProcessing event) ;;
     do triggers <- query (QTriggerConfigurations
                          (DatasetChangeEvent.projectId event)
                          EventSourceDataset ACTIVE)
                       (fun w => Env.getTriggerConfigurations env w
                                   (DatasetChangeEvent.projectId event)
                                   EventSourceDataset ACTIVE) ;;
     do _ <- logger LevelDebug
            ("Found " +:+ Js.show_nat (length triggers)
               +:+ " active dataset triggers") ;;
     forTriggers event triggers)
    (fun error =>
       do _ <- logger LevelError (msgFailedToProcess event error) ;;
       throw error).

(** The event [datasetChangeEventSourcing] queues. *)
Definition entityChangeJob (timestamp : Date) (id : string)
           (datasetData : DatasetDomain.t) (action : TriggerEventAction)
           (dataset : list (string * JValue)) : JValue :=
  JObj [ ("timestamp", JDate timestamp);
         ("id", JStr id);
         ("name", JStr (Env.entityChangeJobName env));
         ("payload",
           JObj [ ("entityType", JStr "dataset");
                  ("projectId", JStr (DatasetDomain.projectId datasetData));
                  ("datasetId", JStr (DatasetDomain.id datasetData));
                  ("action", JStr (TriggerEventAction_str action));
                  ("dataset", JObj dataset) ]) ].

Definition msgFailedToQueue (datasetData : DatasetDomain.t)
           (error : Error.t) : string :=
  "Failed to queue entity change event for dataset "
    +:+ DatasetDomain.id datasetData
    +:+ " for project " +:+ DatasetDomain.projectId datasetData
    +:+ ": " +:+ Error.toString error.

Definition msgQueued (datasetData : DatasetDomain.t)
           (action : TriggerEventAction) : string :=
  "Queued entity change event for dataset "
    +:+ DatasetDomain.id datasetData
    +:+ " in project " +:+ DatasetDomain.projectId datasetData
    +:+ " with action " +:+ TriggerEventAction_str action.

(** The statements of [datasetChangeEventSourcing] before its [try]:
    read the dataset versions and assemble the event. *)
Definition buildChangeEvent (datasetData : DatasetDomain.t)
           (action : TriggerEventAction) : M JValue :=
  do datasetVersions <-
    query (QDatasetVersions (DatasetDomain.projectId datasetData)
                            (DatasetDomain.id datasetData))
          (fun w => Env.listDatasetVersions env w
                      (DatasetDomain.projectId datasetData)
                      (DatasetDomain.id datasetData)) ;;
  let itemsUpdatedAt :=
    match datasetVersions with
    | latest :: _ => JDate latest
    | [] => JNull
    end in
  do timestamp <- newDate ;;
  do id <- v4 ;;
  do metadata <- parse (DatasetDomain.metadata datasetData) ;;
  do inputSchema <- parse (DatasetDomain.inputSchema datasetData) ;;
  do expectedOutputSchema <-
    parse (DatasetDomain.expectedOutputSchema datasetData) ;;
  ret (entityChangeJob timestamp id datasetData action
         (Obj.set "expectedOutputSchema" expectedOutputSchema
            (Obj.set "inputSchema" inputSchema
               (Obj.set "metadata" metadata
                  (Obj.set "itemsUpdatedAt" itemsUpdatedAt
                     (DatasetDomain.entries datasetData)))))).

(** The [try] / [catch] of [datasetChangeEventSourcing]. *)
Definition queueChangeEvent (datasetData : DatasetDomain.t)
           (action : TriggerEventAction) (event : JValue) : M unit :=
  tryCatch
    (do instance <- entityChangeQueueGetInstance ;;
     do _ <- (if instance then entityChangeQueueAdd event else ret tt) ;;
     logger LevelInfo (msgQueued datasetData action))
    (fun error =>
       do _ <- logger LevelError (msgFailedToQueue datasetData error) ;;
       throw error).

Definition datasetChangeEventSourcing (datasetData : option DatasetDomain.t)
           (action : TriggerEventAction) : M unit :=
  match datasetData with
  | None => ret tt
  | Some datasetData =>
      do event <- buildChangeEvent datasetData action ;;
      queueChangeEvent datasetData action event
  end.

End Processor.

(** Modelled from the spec: InMemoryFilterService.evaluateFilter, which is
    not part of these sources.  "For each condition in the predicate,
    resolve its column via the field mapper; if the mapper returns
    undefined, the condition evaluates to false rather than raising.
    Supported operators at minimum: equality, inequality, contains
    (case-sensitive substring).  All conditions in a predicate must hold;
    an empty condition list matches everything." *)
Module InMemoryFilterService.

Fixpoint contains (needle s : string) : bool :=
  String.prefix needle s
  || match s with
     | EmptyString => false
     | String _ rest => contains needle rest
     end.

Definition evaluateCondition (data : EventData.t) (mapper : FieldMapper)
           (c : FilterCondition.t) : bool :=
  match mapper data (FilterCondition.column c) with
  | None => false
  | Some v =>
      match FilterCondition.operator c with
      | OpEquals => String.eqb v (FilterCondition.value c)
      | OpNotEquals => negb (String.eqb v (FilterCondition.value c))
      | OpContains => contains (FilterCondition.value c) v
      end
  end.

Definition evaluateFilter (data : EventData.t)
           (filter : list FilterCondition.t) (mapper : FieldMapper) : bool :=
  forallb (evaluateCondition data mapper) filter.

End InMemoryFilterService.

(* ================================================================== *)
(** ** Vocabulary of the properties *)
(* ================================================================== *)

Module Digits.

Definition is_digit (c : ascii) : bool :=
  match Ascii.is_nat c with
  | Some _ => true
  | None => false
  end.

Fixpoint all_digits (s : string) : bool :=
  match s with
  | EmptyString => true
  | String c rest => is_digit c && all_digits rest
  end.

End Digits.

Module Violation.

Import WebhookActionHandler.

(** The error list a caller of [validateFormData] receives
    ([undefined] standing for no error). *)
Definition reported (r : ValidationResult.t) : list string :=
  default [] (ValidationResult.errors r).

(** [e] is the "a value must be provided" violation of the header at
    position [index], in either direction of the transition. *)
Definition valueRequired (index : nat) (e : string) : Prop :=
  e = msgValueRequired index true ∨ e = msgValueRequired index false.

(** [e] is the duplicate-header violation. *)
Definition duplicate (e : string) : Prop := e = msgDuplicate.

Definition count (P : string -> Prop) `{!∀ e, Decision (P e)}
           (errors : list string) : nat :=
  length (filter P errors).

(** Every message the per-header checks can produce. *)
Definition headerMsg (index : nat) (text : string) : string :=
  "Header " +:+ Js.show_nat (index + 1) +:+ ": " +:+ text.

End Violation.

(** The engine's [trim] and [toLowerCase] on ASCII text, in which the
    samples below are written.  On a string of ASCII characters
    [String.prototype.trim] strips tab, line feed, vertical tab, form
    feed, carriage return and space from both ends, and
    [String.prototype.toLowerCase] maps [A]-[Z] to [a]-[z]. *)
Module AsciiText.

Fixpoint trimStart (s : string) : string :=
  match s with
  | EmptyString => EmptyString
  | String c rest => if Ascii.is_space c then trimStart rest else s
  end.

Definition trimEnd (s : string) : string :=
  String.rev (trimStart (String.rev s)).

Definition trim (s : string) : string := trimEnd (trimStart s).

Definition lower_char (c : ascii) : ascii :=
  let n := nat_of_ascii c in
  if (65 <=? n)%nat && (n <=? 90)%nat then ascii_of_nat (n + 32) else c.

Fixpoint toLowerCase (s : string) : string :=
  match s with
  | EmptyString => EmptyString
  | String c rest => String (lower_char c) (toLowerCase rest)
  end.

Definition engine : Js.Strings :=
  {| Js.trim := trim; Js.toLowerCase := toLowerCase |}.

End AsciiText.

(** Sample form submissions. *)
Module FormSamples.

Definition form (url : string) (headers : list HeaderPair.t) : FormData.t :=
  {| FormData.webhook :=
       Some {| WebhookForm.url := url;
               WebhookForm.headers := Some headers;
               WebhookForm.apiVersion := [("dataset", "v1")] |};
     FormData.eventSource := Some "dataset" |}.

(** A saved public header switched to secret, every field left blank. *)
Definition blankRow : HeaderPair.t :=
  {| HeaderPair.name := ""; HeaderPair.value := "";
     HeaderPair.displayValue := "";
     HeaderPair.isSecret := true; HeaderPair.wasSecret := false |}.

(** A saved secret header made public without a new value. *)
Definition madePublic : HeaderPair.t :=
  {| HeaderPair.name := "X-Api-Key"; HeaderPair.value := "  ";
     HeaderPair.displayValue := "sk-****";
     HeaderPair.isSecret := false; HeaderPair.wasSecret := true |}.

Definition upper : HeaderPair.t :=
  {| HeaderPair.name := "X-Trace "; HeaderPair.value := "1";
     HeaderPair.displayValue := "1";
     HeaderPair.isSecret := false; HeaderPair.wasSecret := false |}.

Definition lower : HeaderPair.t :=
  {| HeaderPair.name := " x-trace"; HeaderPair.value := "2";
     HeaderPair.displayValue := "2";
     HeaderPair.isSecret := false; HeaderPair.wasSecret := false |}.

Definition defaultHeaderKeys : list string :=
  ["content-type"; "user-agent"].

Definition storedHeaders : list (string * HeaderObj.t) :=
  [ ("X-Trace", {| HeaderObj.secret := false; HeaderObj.value := "1" |});
    ("Authorization",
      {| HeaderObj.secret := true; HeaderObj.value := "Bear...oken" |}) ].

Definition automation : AutomationDomain.t :=
  {| AutomationDomain.id := "automation-1";
     AutomationDomain.action :=
       Some {| ActionDomain.id := "action-1";
               ActionDomain.type := WEBHOOK;
               ActionDomain.config :=
                 Some (WebhookConfig (Some "https://example.com/hook")
                                     (Some storedHeaders)
                                     (Some [("dataset", "v1")])) |};
     AutomationDomain.triggerEventSource := Some "dataset" |}.

End FormSamples.

(** Runs of the processor and the publisher. *)
Module Run.

Definition outcome {A} (m : M A) (w : World.t) : result A := fst (m w).

Definition after {A} (m : M A) (w : World.t) : World.t := snd (m w).

(** Effects that neither create an execution nor queue a job. *)
Definition silent (e : Effect) : Prop :=
  match e with
  | Logged _ _ | Queried _ => True
  | _ => False
  end.

Definition isLog (e : Effect) : Prop :=
  match e with
  | Logged _ _ => True
  | _ => False
  end.

(** [m] only appends effects, only draws new identifiers, and what it
    appends satisfies [I] relative to the identifiers it drew. *)
Definition appends (I : nat -> list Effect -> nat -> Prop)
           {A} (m : M A) : Prop :=
  forall w, exists delta,
    World.effects (after m w) = World.effects w ++ delta
    /\ World.uuids w <= World.uuids (after m w)
    /\ I (World.uuids w) delta (World.uuids (after m w)).

(** No condition on what is appended. *)
Definition anything (_ : nat) (_ : list Effect) (_ : nat) : Prop := True.

(** [message] is one of the log lines an iteration of the trigger loop
    writes about [trigger]: no match, match, or the caught error. *)
Definition iterationLog (event : DatasetChangeEvent.t)
           (trigger : TriggerConfiguration.t) (message : string) : Prop :=
  message = msgNoMatch trigger
  \/ message = msgMatches trigger
  \/ exists e, message = msgErrorProcessingTrigger event trigger e.

(** [job.payload.executionId] *)
Definition jobExecutionId (job : JValue) : option JValue :=
  Obj.get "payload" job ≫= Obj.get "executionId".

(** [job.payload.payload] *)
Definition jobInnerPayload (job : JValue) : option JValue :=
  Obj.get "payload" job ≫= Obj.get "payload".

Definition createdId (e : Effect) : option string :=
  match e with
  | ExecutionCreated data => Some (AutomationExecution.id data)
  | _ => None
  end.

(** The identifiers of the execution records created, in order. *)
Definition createdIds (delta : list Effect) : list string :=
  omap createdId delta.

(** Every queued webhook job comes after the creation of the pending
    execution record it refers to. *)
Definition recordedFirst (delta : list Effect) : Prop :=
  forall n job,
    delta !! n = Some (WebhookJobAdded job) ->
    exists m data,
      m < n
      /\ delta !! m = Some (ExecutionCreated data)
      /\ jobExecutionId job = Some (JStr (AutomationExecution.id data))
      /\ AutomationExecution.status data = PENDING.

(** The execution records created carry identifiers number [lo] to
    [hi - 1] of the generator, none of them twice. *)
Definition freshIds (v4 : nat -> string) (lo : nat)
           (delta : list Effect) (hi : nat) : Prop :=
  exists ks,
    createdIds delta = map v4 ks
    /\ NoDup ks
    /\ Forall (fun k => lo <= k < hi) ks.

Definition recorded (v4 : nat -> string) (lo : nat)
           (delta : list Effect) (hi : nat) : Prop :=
  recordedFirst delta /\ freshIds v4 lo delta hi.

(** The jobs [enqueueAutomationAction] builds for an event. *)
Definition jobShape (env : Env.t) (event : DatasetChangeEvent.t)
           (job : JValue) : Prop :=
  exists timestamp id automationId executionId
         metadata inputSchema expectedOutputSchema,
    job = webhookJob env timestamp id
            (DatasetChangeEvent.projectId event) automationId executionId
            (TriggerEventAction_str (DatasetChangeEvent.action event))
            (normalizedSnapshot (DatasetChangeEvent.dataset event)
               metadata inputSchema expectedOutputSchema).

Definition jobsShaped (env : Env.t) (event : DatasetChangeEvent.t)
           (_ : nat) (delta : list Effect) (_ : nat) : Prop :=
  forall job, WebhookJobAdded job ∈ delta -> jobShape env event job.

End Run.

(** A sample project: one dataset, two triggers, one automation. *)
Module Scenario.

Definition dataset : DatasetDomain.t :=
  {| DatasetDomain.id := "dataset-1";
     DatasetDomain.name := "eval-set";
     DatasetDomain.projectId := "project-1";
     DatasetDomain.description := None;
     DatasetDomain.metadata := JNull;
     DatasetDomain.remoteExperimentUrl := None;
     DatasetDomain.remoteExperimentPayload := JNull;
     DatasetDomain.inputSchema := JNull;
     DatasetDomain.expectedOutputSchema := JNull;
     DatasetDomain.itemsUpdatedAt := None;
     DatasetDomain.createdAt := 1000%Z;
     DatasetDomain.updatedAt := 2000%Z |}.

Definition event : DatasetChangeEvent.t :=
  {| DatasetChangeEvent.projectId := "project-1";
     DatasetChangeEvent.datasetId := "dataset-1";
     DatasetChangeEvent.action := updated;
     DatasetChangeEvent.dataset := dataset |}.

(** Fires on [action = "updated"], one action. *)
Definition onUpdate : TriggerConfiguration.t :=
  {| TriggerConfiguration.id := "trigger-1";
     TriggerConfiguration.projectId := "project-1";
     TriggerConfiguration.eventSource := "dataset";
     TriggerConfiguration.status := ACTIVE;
     TriggerConfiguration.filter :=
       [ {| FilterCondition.column := "action";
            FilterCondition.operator := OpEquals;
            FilterCondition.value := "updated" |} ];
     TriggerConfiguration.actionIds := ["action-1"] |}.

(** No filter, two actions attached. *)
Definition twoActions : TriggerConfiguration.t :=
  {| TriggerConfiguration.id := "trigger-2";
     TriggerConfiguration.projectId := "project-1";
     TriggerConfiguration.eventSource := "dataset";
     TriggerConfiguration.status := ACTIVE;
     TriggerConfiguration.filter := [];
     TriggerConfiguration.actionIds := ["action-1"; "action-2"] |}.

(** Filters on the column id the filter options advertise. *)
Definition onName : TriggerConfiguration.t :=
  {| TriggerConfiguration.id := "trigger-3";
     TriggerConfiguration.projectId := "project-1";
     TriggerConfiguration.eventSource := "dataset";
     TriggerConfiguration.status := ACTIVE;
     TriggerConfiguration.filter :=
       [ {| FilterCondition.column := "name";
            FilterCondition.operator := OpEquals;
            FilterCondition.value := "eval-set" |} ];
     TriggerConfiguration.actionIds := ["action-1"] |}.

Definition unavailable : Error.t :=
  {| Error.name := "Error"; Error.message := "connection refused" |}.

(** An environment in which everything succeeds except what the three
    arguments say: the trigger lookup, the dataset version lookup and
    the two queues' [add]. *)
Definition env (triggers : result (list TriggerConfiguration.t))
           (versions : result (list Date)) (added : result unit) : Env.t :=
  {| Env.getTriggerConfigurations := fun _ _ _ _ => triggers;
     Env.getActionById :=
       fun _ _ actionId =>
         Ok (Some {| ActionDomain.id := actionId;
                     ActionDomain.type := WEBHOOK;
                     ActionDomain.config := None |});
     Env.getAutomations := fun _ _ _ => Ok [FormSamples.automation];
     Env.listDatasetVersions := fun _ _ _ => versions;
     Env.evaluateFilter :=
       fun data filter mapper =>
         Ok (InMemoryFilterService.evaluateFilter data filter mapper);
     Env.parseJsonNullable := fun v => Ok v;
     Env.createAutomationExecution := fun _ _ => Ok tt;
     Env.webhookQueueInstance := fun _ => true;
     Env.webhookQueueAdd := fun _ _ => added;
     Env.entityChangeQueueInstance := fun _ => true;
     Env.entityChangeQueueAdd := fun _ _ => added;
     Env.v4 := fun n => "uuid-" +:+ Js.show_nat n;
     Env.now := fun _ => 3000%Z;
     Env.webhookJobName := "webhook-job";
     Env.entityChangeJobName := "entity-change-job" |}.

Definition healthy : Env.t :=
  env (Ok [twoActions; onUpdate]) (Ok [2500%Z]) (Ok tt).

(** The store answers the dataset version lookup with an error. *)
Definition versionsDown : Env.t :=
  env (Ok [twoActions; onUpdate]) (Throw unavailable) (Ok tt).

(** The store answers the trigger lookup with an error. *)
Definition triggersDown : Env.t :=
  env (Throw unavailable) (Ok [2500%Z]) (Ok tt).

(** The queues reject every [add]. *)
Definition queuesDown : Env.t :=
  env (Ok [twoActions; onUpdate]) (Ok [2500%Z]) (Throw unavailable).

(** The job the healthy run queues for [onUpdate]. *)
Definition queuedJob : JValue :=
  webhookJob healthy 3000%Z "uuid-1" "project-1" "automation-1" "uuid-0"
    "updated" (normalizedSnapshot dataset JNull JNull JNull).

End Scenario.

(* ================================================================== *)
(** ** The default values of the webhook action form *)
(* ================================================================== *)

Module WebhookActionDefaults.

(** What a lookup [object[key]] on an object literal answers. *)
Inductive Property : Type :=
| Own (value : string)
| Inherited (key : string)
| Undefined.

(** A looked-up property in a boolean position: a member inherited from
    [Object.prototype] is a function or an object. *)
Definition truthy (p : Property) : bool :=
  match p with
  | Own value => Js.truthy value
  | Inherited _ => true
  | Undefined => false
  end.

(** A looked-up property as a computed property key. *)
Definition toPropertyKey (p : Property) : string :=
  match p with
  | Own value => value
  | Inherited key => key
  | Undefined => "undefined"
  end.

Section Defaults.

(** The string behind each member of the TriggerEventSource enum of the
    shared package. *)
Variable eventSourceValue : TriggerEventSource -> string.

(** What every object inherits from [Object.prototype]: for the name of
    an inherited member ([constructor], [toString], ...) the text that
    member has as a property key, and [None] for every other name. *)
Variable inheritedKey : string -> option string.

(** [EVENT_SOURCE_TO_API_VERSION_KEY[eventSource]].  The literal has the
    two computed keys [TriggerEventSource.Dataset] and
    [TriggerEventSource.Prompt], the later one winning should they
    coincide; a key it does not have is looked up on [Object.prototype]. *)
Definition EVENT_SOURCE_TO_API_VERSION_KEY (eventSource : string)
  : Property :=
  if String.eqb eventSource (eventSourceValue EventSourcePrompt)
  then Own "prompt"
  else if String.eqb eventSource (eventSourceValue EventSourceDataset)
  then Own "dataset"
  else match inheritedKey eventSource with
       | Some key => Inherited key
       | None => Undefined
       end.

(** A stored event source that is no key of the map and names nothing
    an object inherits. *)
Definition unmapped (source : string) : Prop :=
  source <> ""
  /\ source <> eventSourceValue EventSourcePrompt
  /\ source <> eventSourceValue EventSourceDataset
  /\ inheritedKey source = None.

(** [action.type === "WEBHOOK" && config && "apiVersion" in config
     && config.apiVersion] *)
Definition storedApiVersion (automation : option AutomationDomain.t)
  : option (list (string * string)) :=
  match automation ≫= AutomationDomain.action with
  | Some action =>
      match ActionDomain.type action, ActionDomain.config action with
      | WEBHOOK, Some (WebhookConfig _ _ (Some apiVersion)) => Some apiVersion
      | _, _ => None
      end
  | None => None
  end.

(** [(action.type === "WEBHOOK" && config && "url" in config && config.url)
     || ""] *)
Definition storedUrl (automation : option AutomationDomain.t) : string :=
  match automation ≫= AutomationDomain.action with
  | Some action =>
      match ActionDomain.type action, ActionDomain.config action with
      | WEBHOOK, Some (WebhookConfig (Some url) _ _) => url
      | _, _ => ""
      end
  | None => ""
  end.

(** [automation?.trigger?.eventSource || TriggerEventSource.Prompt] *)
Definition eventSourceOrPrompt (automation : option AutomationDomain.t)
  : string :=
  match automation ≫= AutomationDomain.triggerEventSource with
  | Some eventSource =>
      if Js.truthy eventSource then eventSource
      else eventSourceValue EventSourcePrompt
  | None => eventSourceValue EventSourcePrompt
  end.

Definition msgNoMapping (eventSource : string) : string :=
  "No apiVersion mapping found for eventSource: " +:+ eventSource.

Definition getDefaultValues (automation : option AutomationDomain.t)
  : result FormData.t :=
  let apiVersion :=
    match storedApiVersion automation with
    | Some apiVersion => Ok apiVersion
    | None =>
        let eventSource := eventSourceOrPrompt automation in
        let apiVersionKey := EVENT_SOURCE_TO_API_VERSION_KEY eventSource in
        if negb (truthy apiVersionKey) then
          Throw {| Error.name := "Error";
                   Error.message := msgNoMapping eventSource |}
        else Ok [(toPropertyKey apiVersionKey, "v1")]
    end in
  match apiVersion with
  | Ok apiVersion =>
      Ok {| FormData.webhook :=
              Some {| WebhookForm.url := storedUrl automation;
                      WebhookForm.headers :=
                        Some (WebhookActionHandler.parseHeaders automation);
                      WebhookForm.apiVersion := apiVersion |};
            FormData.eventSource := None |}
  | Throw e => Throw e
  end.

End Defaults.

End WebhookActionDefaults.

(* ================================================================== *)
(** ** Further vocabulary *)
(* ================================================================== *)

Module Validity.

Section Rows.

Context {engine : Js.Strings}.

(** A row with a name or a value (after trimming) is in use. *)
Definition inUse (h : HeaderPair.t) : Prop :=
  Js.trim (HeaderPair.name h) <> "" \/ Js.trim (HeaderPair.value h) <> "".

(** A header none of the per-header checks objects to. *)
Definition headerOk (keys : list string) (h : HeaderPair.t) : Prop :=
  Js.trim (HeaderPair.name h) <> ""
  /\ (Js.trim (HeaderPair.value h) <> ""
      \/ (HeaderPair.isSecret h = true /\ HeaderPair.wasSecret h = true))
  /\ Js.toLowerCase (Js.trim (HeaderPair.name h)) ∉ keys.

End Rows.

(** What the validator reads of a header: everything but [displayValue]. *)
Definition essential (h : HeaderPair.t) : string * string * bool * bool :=
  (HeaderPair.name h, HeaderPair.value h,
   HeaderPair.isSecret h, HeaderPair.wasSecret h).

(** Occurrences of one message. *)
Definition occurrences (message : string) (errors : list string) : nat :=
  length (filter (fun e => e = message) errors).

(** Stored header entries that agree on everything but the values of
    the secret ones. *)
Definition sameUpToSecrets (e1 e2 : string * HeaderObj.t) : Prop :=
  fst e1 = fst e2
  /\ HeaderObj.secret (snd e1) = HeaderObj.secret (snd e2)
  /\ (HeaderObj.secret (snd e1) = false ->
      HeaderObj.value (snd e1) = HeaderObj.value (snd e2)).

End Validity.

Module Trace.



Definition asEntityChangeJob (e : Effect) : option JValue :=
  match e with
  | EntityChangeJobAdded job => Some job
  | _ => None
  end.



Definition entityChangeJobs (delta : list Effect) : list JValue :=
  omap asEntityChangeJob delta.

(** [job.payload.<key>] *)
Definition payloadField (key : string) (job : JValue) : option JValue :=
  Obj.get "payload" job ≫= Obj.get key.

(** [job.payload.dataset.<key>] of an entity change job and
    [job.payload.payload.dataset.<key>] of a webhook job. *)
Definition entitySnapshotField (key : string) (job : JValue) : option JValue :=
  (Obj.get "payload" job ≫= Obj.get "dataset") ≫= Obj.get key.

Definition webhookSnapshotField (key : string) (job : JValue) : option JValue :=
  (Run.jobInnerPayload job ≫= Obj.get "dataset") ≫= Obj.get key.

(** The debug line after the creation of a record. *)
Definition createdLine (projectId actionId executionId : string) : string :=
  "Created automation execution " +:+ executionId
    +:+ " for project " +:+ projectId +:+ " and action " +:+ actionId.

(** What one iteration leaves up to and including the creation of the
    record, when started in [w]: the match, the two lookups, the record
    under the next identifier, and the line about it. *)
Definition recordedPrefix (env : Env.t) (event : DatasetChangeEvent.t)
           (trigger : TriggerConfiguration.t) (actionId : string)
           (automation : AutomationDomain.t) (w : World.t) : list Effect :=
  [ Logged LevelDebug (msgMatches trigger);
    Queried (QActionById (DatasetChangeEvent.projectId event) actionId);
    Queried (QAutomations (DatasetChangeEvent.projectId event) actionId);
    ExecutionCreated
      (executionData (DatasetChangeEvent.dataset event) automation
         (Env.v4 env (World.uuids w)) (TriggerConfiguration.id trigger)
         actionId (DatasetChangeEvent.projectId event));
    Logged LevelDebug
      (createdLine (DatasetChangeEvent.projectId event) actionId
         (Env.v4 env (World.uuids w))) ].

(** The job an iteration started in [w] builds at time [timestamp] from
    the parsed schema fields. *)
Definition builtJob (env : Env.t) (event : DatasetChangeEvent.t)
           (automation : AutomationDomain.t)
           (metadata inputSchema expectedOutputSchema : JValue)
           (w : World.t) (timestamp : Date) : JValue :=
  webhookJob env timestamp (Env.v4 env (S (World.uuids w)))
    (DatasetChangeEvent.projectId event) (AutomationDomain.id automation)
    (Env.v4 env (World.uuids w))
    (TriggerEventAction_str (DatasetChangeEvent.action event))
    (normalizedSnapshot (DatasetChangeEvent.dataset event)
       metadata inputSchema expectedOutputSchema).

(** [trigger] leads to a dispatch of [actionId] for [automation]: it
    matches the event and has this one action, the action exists, exactly
    this automation refers to it, and the store accepts the record. *)
Definition dispatches (env : Env.t) (event : DatasetChangeEvent.t)
           (trigger : TriggerConfiguration.t) (actionId : string)
           (automation : AutomationDomain.t) : Prop :=
  Env.evaluateFilter env (eventData event)
    (TriggerConfiguration.filter trigger) fieldMapper = Ok true
  /\ TriggerConfiguration.actionIds trigger = [actionId]
  /\ (forall w, exists actionConfig,
         Env.getActionById env w (DatasetChangeEvent.projectId event) actionId
         = Ok (Some actionConfig))
  /\ (forall w,
         Env.getAutomations env w (DatasetChangeEvent.projectId event) actionId
         = Ok [automation])
  /\ (forall w data, Env.createAutomationExecution env w data = Ok tt).

(** The webhook queue takes the job of a dispatch: there is a queue
    instance, the three schema fields of the dataset parse, and [add]
    resolves. *)
Definition queueAccepts (env : Env.t) (event : DatasetChangeEvent.t) : Prop :=
  (forall w, Env.webhookQueueInstance env w = true)
  /\ (exists v, Env.parseJsonNullable env
                  (DatasetDomain.metadata (DatasetChangeEvent.dataset event))
                = Ok v)
  /\ (exists v, Env.parseJsonNullable env
                  (DatasetDomain.inputSchema (DatasetChangeEvent.dataset event))
                = Ok v)
  /\ (exists v, Env.parseJsonNullable env
                  (DatasetDomain.expectedOutputSchema
                     (DatasetChangeEvent.dataset event))
                = Ok v)
  /\ (forall w job, Env.webhookQueueAdd env w job = Ok tt).

(** The properties of a snapshot that normalisation rewrites. *)
Definition normalized (key : string) : bool :=
  String.eqb key "metadata" || String.eqb key "inputSchema"
  || String.eqb key "expectedOutputSchema".

(** What [recordAndEnqueue] can leave behind when the next identifier is
    number [lo]: nothing (the creation failed), the record and the line
    about it, or these followed by the job built from the parsed schema
    fields. *)
Definition recordOutcome (env : Env.t) (datasetData : DatasetDomain.t)
           (automation : AutomationDomain.t) (action : string)
           (triggerId actionId projectId : string)
           (lo : nat) (delta : list Effect) (_ : nat) : Prop :=
  let data := executionData datasetData automation (Env.v4 env lo)
                triggerId actionId projectId in
  let line := Logged LevelDebug
                (createdLine projectId actionId (Env.v4 env lo)) in
  delta = []
  \/ delta = [ExecutionCreated data; line]
  \/ exists timestamp metadata inputSchema expectedOutputSchema,
       Env.parseJsonNullable env (DatasetDomain.metadata datasetData)
       = Ok metadata
       /\ Env.parseJsonNullable env (DatasetDomain.inputSchema datasetData)
          = Ok inputSchema
       /\ Env.parseJsonNullable env
            (DatasetDomain.expectedOutputSchema datasetData)
          = Ok expectedOutputSchema
       /\ delta
          = [ ExecutionCreated data; line;
              WebhookJobAdded
                (webhookJob env timestamp (Env.v4 env (S lo)) projectId
                   (AutomationDomain.id automation) (Env.v4 env lo) action
                   (normalizedSnapshot datasetData metadata inputSchema
                      expectedOutputSchema)) ].

(** The execution records of an event: pending, of the event's project
    and dataset, with the audit input of the dataset. *)
Definition recordShape (event : DatasetChangeEvent.t)
           (data : AutomationExecution.t) : Prop :=
  AutomationExecution.status data = PENDING
  /\ AutomationExecution.projectId data = DatasetChangeEvent.projectId event
  /\ AutomationExecution.sourceId data
     = DatasetDomain.id (DatasetChangeEvent.dataset event)
  /\ AutomationExecution.input data
     = JObj [ ("datasetName",
                JStr (DatasetDomain.name (DatasetChangeEvent.dataset event)));
              ("datasetId",
                JStr (DatasetDomain.id (DatasetChangeEvent.dataset event)));
              ("automationId", JStr (AutomationExecution.automationId data));
              ("type", JStr "dataset") ].

Definition recordsShaped (event : DatasetChangeEvent.t)
           (_ : nat) (delta : list Effect) (_ : nat) : Prop :=
  forall data, ExecutionCreated data ∈ delta -> recordShape event data.



(** The snapshot of a job is the event's dataset with the three schema
    fields replaced by what the parser made of them. *)
Definition snapshotFaithful (env : Env.t) (event : DatasetChangeEvent.t)
           (job : JValue) : Prop :=
  let datasetData := DatasetChangeEvent.dataset event in
  (forall key,
      normalized key = false ->
      webhookSnapshotField key job
      = Obj.lookup key (DatasetDomain.entries datasetData))
  /\ (exists v, webhookSnapshotField "metadata" job = Some v
                /\ Env.parseJsonNullable env (DatasetDomain.metadata datasetData)
                   = Ok v)
  /\ (exists v, webhookSnapshotField "inputSchema" job = Some v
                /\ Env.parseJsonNullable env
                     (DatasetDomain.inputSchema datasetData) = Ok v)
  /\ (exists v, webhookSnapshotField "expectedOutputSchema" job = Some v
                /\ Env.parseJsonNullable env
                     (DatasetDomain.expectedOutputSchema datasetData) = Ok v).

Definition snapshotsFaithful (env : Env.t) (event : DatasetChangeEvent.t)
           (_ : nat) (delta : list Effect) (_ : nat) : Prop :=
  forall job, WebhookJobAdded job ∈ delta -> snapshotFaithful env event job.

Definition noEntityChangeJobs (_ : nat) (delta : list Effect) (_ : nat)
  : Prop :=
  entityChangeJobs delta = [].


End Trace.

(** Further sample values. *)
Module MoreSamples.

(** A header named like a default header, up to case and white space. *)
Definition reservedRow : HeaderPair.t :=
  {| HeaderPair.name := " Content-Type"; HeaderPair.value := "text/plain";
     HeaderPair.displayValue := "";
     HeaderPair.isSecret := false; HeaderPair.wasSecret := false |}.

(** [FormSamples.madePublic] submitted alone, with another display
    value, API version and event source. *)
Definition unmaskedForm : FormData.t :=
  {| FormData.webhook :=
       Some {| WebhookForm.url := "";
               WebhookForm.headers :=
                 Some [ {| HeaderPair.name := "X-Api-Key";
                           HeaderPair.value := "  ";
                           HeaderPair.displayValue := "";
                           HeaderPair.isSecret := false;
                           HeaderPair.wasSecret := true |} ];
               WebhookForm.apiVersion := [("prompt", "v1")] |};
     FormData.eventSource := None |}.

(** The enum strings of the shared package, as the sources suggest them. *)
Definition eventSourceValue (s : TriggerEventSource) : string :=
  match s with
  | EventSourcePrompt => "prompt"
  | EventSourceDataset => "dataset"
  end.

(** The members of [Object.prototype] and their text as a property key,
    as V8 prints them. *)
Definition inheritedKey (name : string) : option string :=
  if String.eqb name "__proto__" then Some "[object Object]"
  else if String.eqb name "constructor"
  then Some "function Object() { [native code] }"
  else if Js.includes
            [ "__defineGetter__"; "__defineSetter__"; "__lookupGetter__";
              "__lookupSetter__"; "hasOwnProperty"; "isPrototypeOf";
              "propertyIsEnumerable"; "toLocaleString"; "toString";
              "valueOf" ] name
  then Some ("function " +:+ name +:+ "() { [native code] }")
  else None.

(** A saved webhook automation without a stored API version, on a
    trigger with the given event source. *)
Definition withSource (source : string) : AutomationDomain.t :=
  {| AutomationDomain.id := "automation-4";
     AutomationDomain.action :=
       Some {| ActionDomain.id := "action-4";
               ActionDomain.type := WEBHOOK;
               ActionDomain.config :=
                 Some (WebhookConfig (Some "https://example.com/trace")
                                     None None) |};
     AutomationDomain.triggerEventSource := Some source |}.

(** An event source of another release. *)
Definition traceAutomation : AutomationDomain.t := withSource "trace".

(** A saved automation of another action type. *)
Definition slackAutomation : AutomationDomain.t :=
  {| AutomationDomain.id := "automation-2";
     AutomationDomain.action :=
       Some {| ActionDomain.id := "action-2";
               ActionDomain.type := SLACK;
               ActionDomain.config := Some OtherConfig |};
     AutomationDomain.triggerEventSource := Some "dataset" |}.

(** The stored headers of [FormSamples.automation] with another secret. *)
Definition otherSecret : list (string * HeaderObj.t) :=
  [ ("X-Trace", {| HeaderObj.secret := false; HeaderObj.value := "1" |});
    ("Authorization",
      {| HeaderObj.secret := true; HeaderObj.value := "Basi...word" |}) ].

Definition otherAutomation : AutomationDomain.t :=
  {| AutomationDomain.id := "automation-3";
     AutomationDomain.action :=
       Some {| ActionDomain.id := "action-3";
               ActionDomain.type := WEBHOOK;
               ActionDomain.config :=
                 Some (WebhookConfig (Some "https://example.com/other")
                                     (Some otherSecret) None) |};
     AutomationDomain.triggerEventSource := Some "dataset" |}.

(** [Scenario.healthy] with other answers for the action lookup, the
    automation lookup and the webhook queue instance. *)
Definition env (actionAnswer : option ActionDomain.t)
           (automations : list AutomationDomain.t) (instance : bool) : Env.t :=
  {| Env.getTriggerConfigurations :=
       Env.getTriggerConfigurations Scenario.healthy;
     Env.getActionById := fun _ _ _ => Ok actionAnswer;
     Env.getAutomations := fun _ _ _ => Ok automations;
     Env.listDatasetVersions := Env.listDatasetVersions Scenario.healthy;
     Env.evaluateFilter := Env.evaluateFilter Scenario.healthy;
     Env.parseJsonNullable := Env.parseJsonNullable Scenario.healthy;
     Env.createAutomationExecution :=
       Env.createAutomationExecution Scenario.healthy;
     Env.webhookQueueInstance := fun _ => instance;
     Env.webhookQueueAdd := Env.webhookQueueAdd Scenario.healthy;
     Env.entityChangeQueueInstance := fun _ => instance;
     Env.entityChangeQueueAdd := Env.entityChangeQueueAdd Scenario.healthy;
     Env.v4 := Env.v4 Scenario.healthy;
     Env.now := Env.now Scenario.healthy;
     Env.webhookJobName := Env.webhookJobName Scenario.healthy;
     Env.entityChangeJobName := Env.entityChangeJobName Scenario.healthy |}.

Definition someAction : ActionDomain.t :=
  {| ActionDomain.id := "action-1";
     ActionDomain.type := WEBHOOK;
     ActionDomain.config := None |}.

(** The action of every trigger has been deleted. *)
Definition actionsGone : Env.t := env None [FormSamples.automation] true.

(** No automation refers to the action. *)
Definition noAutomation : Env.t := env (Some someAction) [] true.

(** No queue instance is available. *)
Definition noQueue : Env.t :=
  env (Some someAction) [FormSamples.automation] false.

(** A deleted dataset event on which no sample trigger with a filter fires. *)
Definition deletedEvent : DatasetChangeEvent.t :=
  {| DatasetChangeEvent.projectId := "project-1";
     DatasetChangeEvent.datasetId := "dataset-1";
     DatasetChangeEvent.action := deleted;
     DatasetChangeEvent.dataset := Scenario.dataset |}.

(** Only triggers with a filter are active. *)
Definition filtered : Env.t :=
  Scenario.env (Ok [Scenario.onUpdate; Scenario.onName]) (Ok []) (Ok tt).

End MoreSamples.

(** Unfold the monad and the effectful primitives. *)
Ltac unfold_run :=
  unfold Run.after, Run.outcome, bind, ret, throw, tryCatch, liftResult,
    logger, query, v4, newDate, parse, createExecution,
    webhookQueueGetInstance, webhookQueueAdd,
    entityChangeQueueGetInstance, entityChangeQueueAdd, World.emit in *.

(** Split on the answer of the next collaborator in the goal. *)
Ltac case_answer :=
  match goal with
  | |- context [match ?x with _ => _ end] =>
      lazymatch x with
      | context [match _ with _ => _ end] => fail
      | _ => destruct x eqn:?
      end
  end; cbn.

(* ================================================================== *)
(** ** Facts about strings *)
(* ================================================================== *)

Section StringFacts.

Import Digits.

Lemma app_String c s t : String c s +:+ t = String c (s +:+ t).
Proof. reflexivity. Qed.

Lemma app_Empty t : "" +:+ t = t.
Proof. reflexivity. Qed.

Lemma string_of_uint_digits d :
  all_digits (NilEmpty.string_of_uint d) = true.
Proof. induction d; simpl; auto. Qed.

Lemma show_nat_digits n : all_digits (Js.show_nat n) = true.
Proof. apply string_of_uint_digits. Qed.

Lemma show_nat_inj n m : Js.show_nat n = Js.show_nat m -> n = m.
Proof.
  unfold Js.show_nat. intros H.
  apply DecimalNat.Unsigned.to_uint_inj.
  apply (f_equal NilEmpty.uint_of_string) in H.
  rewrite !NilEmpty.usu in H. congruence.
Qed.

(** Two digit strings, each followed by a non-digit, split the same way. *)
Lemma digits_then_other a : forall b c1 r1 c2 r2,
  all_digits a = true -> all_digits b = true ->
  is_digit c1 = false -> is_digit c2 = false ->
  a +:+ String c1 r1 = b +:+ String c2 r2 ->
  a = b /\ String c1 r1 = String c2 r2.
Proof.
  induction a as [|x a IH]; intros [|y b] c1 r1 c2 r2 Ha Hb H1 H2 E;
    rewrite ?app_String, ?app_Empty in E; simpl in Ha, Hb.
  - auto.
  - injection E as -> _. apply andb_prop in Hb as [Hb _]. congruence.
  - injection E as -> _. apply andb_prop in Ha as [Ha _]. congruence.
  - injection E as -> E.
    apply andb_prop in Ha as [_ Ha]. apply andb_prop in Hb as [_ Hb].
    destruct (IH _ _ _ _ _ Ha Hb H1 H2 E) as [-> ?]. auto.
Qed.

Lemma headerMsg_inj i j s t :
  Violation.headerMsg i s = Violation.headerMsg j t -> i = j /\ s = t.
Proof.
  unfold Violation.headerMsg. intros E.
  rewrite !app_String, !app_Empty in E.
  repeat (injection E as E).
  apply digits_then_other in E as [Hn Hr];
    [| apply show_nat_digits | apply show_nat_digits | reflexivity..].
  apply show_nat_inj in Hn. injection Hr as Hr. split; [lia | exact Hr].
Qed.

End StringFacts.

(* ================================================================== *)
(** ** The webhook action form: reading and validating headers *)
(* ================================================================== *)

Section ValidateFacts.

Context {engine : Js.Strings}.

Import WebhookActionHandler Violation.

Variable keys : list string.

Lemma count_app P `{!∀ e, Decision (P e)} l1 l2 :
  count P (l1 ++ l2) = count P l1 + count P l2.
Proof. unfold count. by rewrite filter_app, length_app. Qed.

Lemma count_none P `{!∀ e, Decision (P e)} l :
  (forall e, e ∈ l -> ~ P e) -> count P l = 0.
Proof.
  unfold count. induction l as [|x l IH]; intros Hno; [done|].
  rewrite filter_cons_False by (apply Hno; left).
  apply IH. intros e He. apply Hno. by right.
Qed.

Lemma count_one P `{!∀ e, Decision (P e)} e : P e -> count P [e] = 1.
Proof. intros HP. unfold count. by rewrite filter_cons_True. Qed.

Lemma msgNameEmpty_header i :
  msgNameEmpty i = headerMsg i "Name cannot be empty".
Proof. reflexivity. Qed.

Lemma msgValueEmpty_header i :
  msgValueEmpty i = headerMsg i "Value cannot be empty".
Proof. reflexivity. Qed.

Lemma msgValueRequired_header i b :
  msgValueRequired i b =
  headerMsg i ("A value must be provided when making a header "
                 +:+ (if b then "public" else "secret")).
Proof. reflexivity. Qed.

Lemma msgReserved_header i name :
  msgReserved i name =
  headerMsg i (String dquote name +:+ String dquote
                 " is automatically added by Langfuse and cannot be customized").
Proof. reflexivity. Qed.

(** A message of one header is the value-required violation of another
    header only if the positions agree and the text is that violation's. *)
Lemma valueRequired_headerMsg i j text :
  valueRequired i (headerMsg j text) ->
  i = j /\ exists b : bool,
              text = "A value must be provided when making a header "
                       +:+ (if b then "public" else "secret").
Proof.
  intros [E|E]; rewrite msgValueRequired_header in E;
    apply headerMsg_inj in E as [-> ->]; (split; [reflexivity|]).
  - by exists true.
  - by exists false.
Qed.

Lemma headerMsg_not_duplicate j text : ~ duplicate (headerMsg j text).
Proof. unfold duplicate, headerMsg, msgDuplicate. discriminate. Qed.

Lemma urlRequired_not_valueRequired i : ~ valueRequired i msgUrlRequired.
Proof. intros [E|E]; discriminate E. Qed.

Lemma duplicate_not_valueRequired i : ~ valueRequired i msgDuplicate.
Proof. intros [E|E]; discriminate E. Qed.

Lemma urlRequired_not_duplicate : ~ duplicate msgUrlRequired.
Proof. discriminate. Qed.

(** The checks of one header only append to the array. *)
Lemma checkHeader_app errors h i :
  checkHeader keys errors h i = errors ++ checkHeader keys [] h i.
Proof.
  unfold checkHeader, push.
  repeat match goal with
         | |- context [if ?b then _ else _] => destruct b
         end; simpl; rewrite <- ?app_assoc, ?app_nil_r; reflexivity.
Qed.

Lemma forEachHeader_app errors k headers :
  forEachHeader keys errors k headers =
  errors ++ forEachHeader keys [] k headers.
Proof.
  revert errors k. induction headers as [|h rest IH]; intros errors k; simpl.
  - by rewrite app_nil_r.
  - rewrite IH, (IH (checkHeader keys [] h k)), checkHeader_app.
    by rewrite app_assoc.
Qed.

Lemma forEachHeader_cons k h rest :
  forEachHeader keys [] k (h :: rest) =
  checkHeader keys [] h k ++ forEachHeader keys [] (S k) rest.
Proof. simpl. apply forEachHeader_app. Qed.

(** Every message of a header's checks carries that header's position. *)
Lemma checkHeader_elems h i e :
  e ∈ checkHeader keys [] h i -> exists text, e = headerMsg i text.
Proof.
  unfold checkHeader, push.
  repeat match goal with
         | |- context [if ?b then _ else _] => destruct b
         end; simpl; intros He;
    repeat match goal with
           | H : _ ∈ _ :: _ |- _ => apply elem_of_cons in H as [->|H]
           | H : _ ∈ [] |- _ => by apply elem_of_nil in H
           end;
    (eexists; first [ apply msgNameEmpty_header | apply msgValueEmpty_header
                    | apply msgValueRequired_header | apply msgReserved_header ]).
Qed.

Lemma forEachHeader_elems headers : forall k e,
  e ∈ forEachHeader keys [] k headers ->
  exists j text, k <= j /\ e = headerMsg j text.
Proof.
  induction headers as [|h rest IH]; intros k e He.
  - by apply elem_of_nil in He.
  - rewrite forEachHeader_cons in He. apply elem_of_app in He as [He|He].
    + apply checkHeader_elems in He as [text ->]. eauto.
    + apply IH in He as (j & text & Hj & ->). exists j, text. split; [lia|done].
Qed.

(** What the checks of a header in transition with no value append. *)
Lemma checkHeader_transition h i :
  HeaderPair.wasSecret h <> HeaderPair.isSecret h ->
  Js.trim (HeaderPair.value h) = "" ->
  Js.trim (HeaderPair.name h) <> "" ->
  count (valueRequired i) (checkHeader keys [] h i) = 1
  /\ msgValueRequired i (HeaderPair.wasSecret h) ∈ checkHeader keys [] h i.
Proof.
  intros Hflag Hval Hname. unfold checkHeader, push.
  rewrite Hval.
  destruct (Js.trim (HeaderPair.name h)) as [|c n] eqn:En; [done|].
  assert (Bool.eqb (HeaderPair.wasSecret h) (HeaderPair.isSecret h) = false)
    as -> by (by apply Bool.eqb_false_iff).
  assert (~ valueRequired i (msgValueEmpty i)) as NV.
  { rewrite msgValueEmpty_header.
    intros [_ [b Hb]]%valueRequired_headerMsg. by destruct b. }
  assert (forall n, ~ valueRequired i (msgReserved i n)) as NR.
  { intros n0. rewrite msgReserved_header.
    intros [_ [b Hb]]%valueRequired_headerMsg. by destruct b. }
  assert (valueRequired i (msgValueRequired i (HeaderPair.wasSecret h))) as YV.
  { unfold valueRequired. destruct (HeaderPair.wasSecret h); auto. }
  simpl.
  destruct (HeaderPair.isSecret h), (Js.includes keys _); simpl;
    (split; [| set_solver]);
    unfold count;
    repeat first [ rewrite filter_cons_True by assumption
                 | rewrite filter_cons_False by (first [apply NV | apply NR]) ];
    reflexivity.
Qed.

Lemma count_checkHeader_other h i j :
  i <> j -> count (valueRequired i) (checkHeader keys [] h j) = 0.
Proof.
  intros Hij. apply count_none. intros e [text ->]%checkHeader_elems.
  by intros [? _]%valueRequired_headerMsg.
Qed.

Lemma count_forEachHeader_later headers k i :
  i < k -> count (valueRequired i) (forEachHeader keys [] k headers) = 0.
Proof.
  intros Hik. apply count_none.
  intros e (j & text & Hj & ->)%forEachHeader_elems.
  intros [? _]%valueRequired_headerMsg. lia.
Qed.

Lemma forEachHeader_transition headers : forall k n h,
  headers !! n = Some h ->
  HeaderPair.wasSecret h <> HeaderPair.isSecret h ->
  Js.trim (HeaderPair.value h) = "" ->
  Js.trim (HeaderPair.name h) <> "" ->
  count (valueRequired (k + n)) (forEachHeader keys [] k headers) = 1
  /\ msgValueRequired (k + n) (HeaderPair.wasSecret h)
       ∈ forEachHeader keys [] k headers.
Proof.
  induction headers as [|h0 rest IH]; intros k n h Hn Hflag Hval Hname;
    [done|].
  rewrite forEachHeader_cons, count_app, elem_of_app.
  destruct n as [|n]; simpl in Hn.
  - injection Hn as ->. rewrite Nat.add_0_r.
    destruct (checkHeader_transition h k Hflag Hval Hname) as [-> ?].
    rewrite count_forEachHeader_later by lia. auto.
  - destruct (IH (S k) n h Hn Hflag Hval Hname) as [Hc Hin].
    replace (S k + n) with (k + S n) in Hc, Hin by lia.
    rewrite count_checkHeader_other by lia. rewrite Hc. auto.
Qed.

Lemma reported_validateFormData formData :
  reported (validateFormData keys formData) = collectErrors keys formData.
Proof.
  unfold reported, validateFormData. simpl.
  by destruct (collectErrors keys formData).
Qed.

(** The error array, as its three parts. *)
Lemma collectErrors_headers formData w headers :
  FormData.webhook formData = Some w ->
  WebhookForm.headers w = Some headers ->
  collectErrors keys formData
  = (if Js.truthy (WebhookForm.url w) then [] else [msgUrlRequired])
      ++ forEachHeader keys [] 0 headers
      ++ (if (Js.set_size (headerNames headers)
              <? length (headerNames headers))%nat
          then [msgDuplicate] else []).
Proof.
  intros Hw Hh. unfold collectErrors, push. rewrite Hw, Hh.
  rewrite forEachHeader_app.
  repeat match goal with
         | |- context [if ?b then _ else _] => destruct b
         end; simpl; rewrite <- ?app_assoc, ?app_nil_r; reflexivity.
Qed.

End ValidateFacts.

Section SetSize.

(** [new Set(l).size] never exceeds [l.length]. *)
Lemma set_size_le (l : list string) : Js.set_size l <= length l.
Proof.
  unfold Js.set_size. induction l as [|x l IH];
    [by rewrite list_to_set_nil, size_empty|].
  rewrite list_to_set_cons, length_cons.
  destruct (decide (x ∈ l)) as [Hx|Hx].
  - rewrite (subseteq_union_1_L {[x]} (list_to_set l))
      by (by apply singleton_subseteq_l, elem_of_list_to_set).
    lia.
  - rewrite size_union
      by (by apply disjoint_singleton_l; rewrite elem_of_list_to_set).
    rewrite size_singleton. lia.
Qed.

(** It is smaller exactly when some element repeats. *)
Lemma set_size_lt (l : list string) :
  ~ NoDup l -> Js.set_size l < length l.
Proof.
  unfold Js.set_size. induction l as [|x l IH]; intros Hdup;
    [destruct Hdup; constructor|].
  rewrite list_to_set_cons, length_cons.
  destruct (decide (x ∈ l)) as [Hx|Hx].
  - rewrite (subseteq_union_1_L {[x]} (list_to_set l))
      by (by apply singleton_subseteq_l, elem_of_list_to_set).
    pose proof (set_size_le l). unfold Js.set_size in *. lia.
  - rewrite size_union
      by (by apply disjoint_singleton_l; rewrite elem_of_list_to_set).
    rewrite size_singleton.
    assert (~ NoDup l) as Hl by (intros ?; apply Hdup; by constructor).
    specialize (IH Hl). lia.
Qed.

Lemma set_size_NoDup (l : list string) :
  NoDup l -> Js.set_size l = length l.
Proof. apply size_list_to_set. Qed.

(** Two positions of a list give a two-element sublist. *)
Lemma sublist_of_two {A} (l : list A) i j x y :
  i < j -> l !! i = Some x -> l !! j = Some y -> [x; y] `sublist_of` l.
Proof.
  revert i j. induction l as [|a l IH]; intros i j Hij Hi Hj; [done|].
  destruct i as [|i], j as [|j]; simpl in *; try lia.
  - injection Hi as ->. apply sublist_skip.
    apply singleton_sublist_l. by eapply list_elem_of_lookup_2.
  - apply sublist_cons. apply (IH i j); [lia|done..].
Qed.

End SetSize.

(* ------------------------------------------------------------------ *)
(** *** Secret headers on the read path *)

Section ParseHeaders.

Import WebhookActionHandler.

Lemma parseHeader_secret name obj :
  HeaderObj.secret obj = true ->
  parseHeader (name, obj)
  = {| HeaderPair.name := name; HeaderPair.value := "";
       HeaderPair.displayValue := HeaderObj.value obj;
       HeaderPair.isSecret := true; HeaderPair.wasSecret := true |}.
Proof. intros Hs. unfold parseHeader. by rewrite Hs. Qed.

Lemma parseHeaders_webhook a action url displayHeaders apiVersion :
  AutomationDomain.action a = Some action ->
  ActionDomain.type action = WEBHOOK ->
  ActionDomain.config action
    = Some (WebhookConfig url (Some displayHeaders) apiVersion) ->
  parseHeaders (Some a) = map parseHeader displayHeaders.
Proof. intros Ha Ht Hc. unfold parseHeaders. simpl. by rewrite Ha, Ht, Hc. Qed.

(** Whatever [parseHeaders] returns is an image of [parseHeader]. *)
Lemma parseHeaders_elems automation h :
  h ∈ parseHeaders automation -> exists entry, h = parseHeader entry.
Proof.
  unfold parseHeaders.
  destruct (automation ≫= AutomationDomain.action) as [action|];
    [|by intros ?%elem_of_nil].
  destruct (ActionDomain.type action), (ActionDomain.config action)
    as [[? [dh|] ?|]|]; try by intros ?%elem_of_nil.
  intros (entry & -> & _)%list_elem_of_fmap. eauto.
Qed.

(** C7.  In what [parseHeaders] returns for a stored webhook
    configuration, the entry of a header stored with secret flag true
    has the empty string as its [value], whatever value is stored: the
    result for that header is its name, an empty [value], the stored
    display value as [displayValue], and both secret flags set.  And no
    header pair [parseHeaders] ever returns is secret with a non-empty
    [value]. *)
Theorem parseHeaders_hides_secret_values :
  (forall a action url displayHeaders apiVersion i name obj,
      AutomationDomain.action a = Some action ->
      ActionDomain.type action = WEBHOOK ->
      ActionDomain.config action
        = Some (WebhookConfig url (Some displayHeaders) apiVersion) ->
      displayHeaders !! i = Some (name, obj) ->
      HeaderObj.secret obj = true ->
      parseHeaders (Some a) !! i
      = Some {| HeaderPair.name := name; HeaderPair.value := "";
                HeaderPair.displayValue := HeaderObj.value obj;
                HeaderPair.isSecret := true; HeaderPair.wasSecret := true |})
  /\ (forall automation h,
        h ∈ parseHeaders automation ->
        HeaderPair.isSecret h = true -> HeaderPair.value h = "").
Proof.
  split.
  - intros a action url dh api i name obj Ha Ht Hc Hi Hs.
    rewrite (parseHeaders_webhook _ _ _ _ _ Ha Ht Hc).
    rewrite list_lookup_fmap, Hi. simpl. f_equal.
    by apply parseHeader_secret.
  - intros automation h [[name obj] ->]%parseHeaders_elems. simpl.
    by intros ->.
Qed.

Lemma parseHeaders_hides_secret_values_witness :
  parseHeaders (Some FormSamples.automation) !! 1
  = Some {| HeaderPair.name := "Authorization"; HeaderPair.value := "";
            HeaderPair.displayValue := "Bear...oken";
            HeaderPair.isSecret := true; HeaderPair.wasSecret := true |}.
Proof.
  exact (proj1 parseHeaders_hides_secret_values FormSamples.automation
           _ _ _ _ 1 "Authorization" _
           eq_refl eq_refl eq_refl eq_refl eq_refl).
Defined.

End ParseHeaders.

(* ------------------------------------------------------------------ *)
(** *** Validation of a submitted header set *)

Section ValidateTheorems.

Context {engine : Js.Strings}.

Import WebhookActionHandler Violation.

Lemma filter_sublist_mono {A} (P : A -> Prop) `{!∀ x, Decision (P x)}
      (l1 l2 : list A) :
  l1 `sublist_of` l2 -> filter P l1 `sublist_of` filter P l2.
Proof.
  induction 1 as [|x l1 l2 _ IH|x l1 l2 _ IH]; [constructor|..].
  - rewrite !filter_cons. destruct (decide (P x)); [by constructor|done].
  - rewrite filter_cons. destruct (decide (P x)); [by constructor|done].
Qed.

(** Two in-use headers with the same folded name make the name list
    repeat an element. *)
Lemma headerNames_repeat headers i j hi hj :
  i < j ->
  headers !! i = Some hi -> headers !! j = Some hj ->
  Js.trim (HeaderPair.name hi) <> "" ->
  Js.trim (HeaderPair.name hj) <> "" ->
  Js.toLowerCase (Js.trim (HeaderPair.name hi))
    = Js.toLowerCase (Js.trim (HeaderPair.name hj)) ->
  ~ NoDup (headerNames headers).
Proof.
  intros Hij Hi Hj Ni Nj E Hnd.
  pose proof (sublist_of_two headers i j hi hj Hij Hi Hj) as Hsub.
  apply (filter_sublist_mono
           (fun h => Is_true (Js.truthy (Js.trim (HeaderPair.name h)))))
    in Hsub.
  apply (fmap_sublist
           (fun h => Js.toLowerCase (Js.trim (HeaderPair.name h)))) in Hsub.
  apply (sublist_NoDup _ _ Hnd) in Hsub.
  assert (forall h, Js.trim (HeaderPair.name h) <> "" ->
                    Is_true (Js.truthy (Js.trim (HeaderPair.name h)))) as T.
  { intros h Hh. by destruct (Js.trim (HeaderPair.name h)). }
  rewrite filter_cons_True, filter_cons_True in Hsub by auto.
  rewrite filter_nil in Hsub. simpl in Hsub. rewrite E in Hsub.
  apply NoDup_cons in Hsub as [Hin _]. apply Hin. by left.
Qed.

(** C5, amended.  For every submitted header that is in use by its name
    (non-empty after trimming), whose [wasSecret] flag differs from its
    [isSecret] flag and whose value is empty after trimming,
    [validateFormData] reports exactly one "a value must be provided"
    violation for that header, worded for the direction of the
    transition. *)
Theorem validateFormData_transition_needs_value
        keys formData w headers i h :
  FormData.webhook formData = Some w ->
  WebhookForm.headers w = Some headers ->
  headers !! i = Some h ->
  HeaderPair.wasSecret h <> HeaderPair.isSecret h ->
  Js.trim (HeaderPair.value h) = "" ->
  Js.trim (HeaderPair.name h) <> "" ->
  count (valueRequired i) (reported (validateFormData keys formData)) = 1
  /\ msgValueRequired i (HeaderPair.wasSecret h)
       ∈ reported (validateFormData keys formData).
Proof.
  intros Hw Hh Hi Hflag Hval Hname.
  rewrite reported_validateFormData, (collectErrors_headers _ _ _ _ Hw Hh).
  destruct (forEachHeader_transition keys headers 0 i h Hi Hflag Hval Hname)
    as [Hc Hin]. simpl in Hc, Hin.
  split.
  - rewrite !count_app, Hc.
    rewrite (count_none _ (if Js.truthy _ then _ else _)).
    + rewrite (count_none _ (if (_ <? _)%nat then _ else _)); [done|].
      intros e He. destruct (_ <? _)%nat; [|by apply elem_of_nil in He].
      apply list_elem_of_singleton in He as ->.
      apply duplicate_not_valueRequired.
    + intros e He. destruct (Js.truthy _); [by apply elem_of_nil in He|].
      apply list_elem_of_singleton in He as ->.
      apply urlRequired_not_valueRequired.
  - rewrite !elem_of_app. auto.
Qed.

(** C6.  When two headers of a submitted set have names that are
    non-empty after trimming and equal after trimming and lower-casing,
    the error list [validateFormData] returns contains the
    duplicate-header violation exactly once, however many names or pairs
    repeat. *)
Theorem validateFormData_duplicate_reported_once
        keys formData w headers i j hi hj :
  FormData.webhook formData = Some w ->
  WebhookForm.headers w = Some headers ->
  i <> j ->
  headers !! i = Some hi -> headers !! j = Some hj ->
  Js.trim (HeaderPair.name hi) <> "" ->
  Js.trim (HeaderPair.name hj) <> "" ->
  Js.toLowerCase (Js.trim (HeaderPair.name hi))
    = Js.toLowerCase (Js.trim (HeaderPair.name hj)) ->
  count duplicate (reported (validateFormData keys formData)) = 1.
Proof.
  intros Hw Hh Hij Hi Hj Ni Nj E.
  assert (~ NoDup (headerNames headers)) as Hdup.
  { destruct (decide (i < j)).
    - by eapply (headerNames_repeat headers i j hi hj).
    - eapply (headerNames_repeat headers j i hj hi); eauto with lia. }
  apply set_size_lt in Hdup.
  rewrite reported_validateFormData, (collectErrors_headers _ _ _ _ Hw Hh).
  apply Nat.ltb_lt in Hdup. rewrite Hdup.
  rewrite !count_app.
  rewrite (count_none _ (if Js.truthy _ then _ else _)).
  - rewrite (count_none _ (forEachHeader _ _ _ _)).
    + by rewrite count_one.
    + intros e (k & text & _ & ->)%forEachHeader_elems.
      apply headerMsg_not_duplicate.
  - intros e He. destruct (Js.truthy _); [by apply elem_of_nil in He|].
    apply list_elem_of_singleton in He as ->.
    apply urlRequired_not_duplicate.
Qed.

(** Without a repeated name the duplicate violation is absent. *)
Lemma validateFormData_no_duplicate keys formData w headers :
  FormData.webhook formData = Some w ->
  WebhookForm.headers w = Some headers ->
  NoDup (headerNames headers) ->
  count duplicate (reported (validateFormData keys formData)) = 0.
Proof.
  intros Hw Hh Hnd.
  rewrite reported_validateFormData, (collectErrors_headers _ _ _ _ Hw Hh).
  rewrite (set_size_NoDup _ Hnd), Nat.ltb_irrefl.
  apply count_none. intros e He.
  rewrite app_nil_r in He. apply elem_of_app in He as [He|He].
  - destruct (Js.truthy _); [by apply elem_of_nil in He|].
    apply list_elem_of_singleton in He as ->.
    apply urlRequired_not_duplicate.
  - apply forEachHeader_elems in He as (k & text & _ & ->).
    apply headerMsg_not_duplicate.
Qed.

End ValidateTheorems.

Section ValidateSamples.

Import WebhookActionHandler Violation.

#[local] Existing Instance AsciiText.engine.

Lemma validateFormData_transition_needs_value_witness :
  count (valueRequired 1)
        (reported (validateFormData FormSamples.defaultHeaderKeys
                     (FormSamples.form ""
                        [FormSamples.upper; FormSamples.madePublic]))) = 1
  /\ msgValueRequired 1 true
       ∈ reported (validateFormData FormSamples.defaultHeaderKeys
                     (FormSamples.form ""
                        [FormSamples.upper; FormSamples.madePublic])).
Proof.
  apply (validateFormData_transition_needs_value
           FormSamples.defaultHeaderKeys
           (FormSamples.form "" [FormSamples.upper; FormSamples.madePublic])
           _ _ 1 FormSamples.madePublic eq_refl eq_refl eq_refl).
  - simpl. discriminate.
  - reflexivity.
  - vm_compute. discriminate.
Defined.

(** C5 as stated fails on a row left entirely blank: its flags differ
    and its value is empty, yet the row is skipped as a placeholder and
    no violation is reported for it. *)
Lemma blank_transition_row_reports_nothing :
  let formData := FormSamples.form "https://example.com/hook"
                                   [FormSamples.blankRow] in
  HeaderPair.wasSecret FormSamples.blankRow
    <> HeaderPair.isSecret FormSamples.blankRow
  /\ Js.trim (HeaderPair.value FormSamples.blankRow) = ""
  /\ validateFormData FormSamples.defaultHeaderKeys formData
     = {| ValidationResult.isValid := true;
          ValidationResult.errors := None |}
  /\ count (valueRequired 0)
           (reported (validateFormData FormSamples.defaultHeaderKeys formData))
     = 0.
Proof. repeat split. simpl. discriminate. Qed.

Lemma validateFormData_duplicate_reported_once_witness :
  count duplicate
        (reported (validateFormData FormSamples.defaultHeaderKeys
                     (FormSamples.form "https://example.com/hook"
                        [FormSamples.upper; FormSamples.madePublic;
                         FormSamples.lower; FormSamples.upper]))) = 1.
Proof.
  apply (validateFormData_duplicate_reported_once
           FormSamples.defaultHeaderKeys
           (FormSamples.form "https://example.com/hook"
              [FormSamples.upper; FormSamples.madePublic;
               FormSamples.lower; FormSamples.upper])
           _ _ 0 2 FormSamples.upper FormSamples.lower
           eq_refl eq_refl).
  - lia.
  - reflexivity.
  - reflexivity.
  - vm_compute. discriminate.
  - vm_compute. discriminate.
  - reflexivity.
Defined.

End ValidateSamples.

(* ================================================================== *)
(** ** Runs: what a computation appends *)
(* ================================================================== *)

Lemma appends_weaken (I J : nat -> list Effect -> nat -> Prop)
      {A} (m : M A) :
  Run.appends I m ->
  (forall lo delta hi, I lo delta hi -> J lo delta hi) ->
  Run.appends J m.
Proof.
  intros Hm HIJ w. destruct (Hm w) as (delta & E & L & HI).
  exists delta. auto.
Qed.

Section Appends.

Import Run.

Variable env : Env.t.
Variable I : nat -> list Effect -> nat -> Prop.

Hypothesis I_nil : forall lo hi, lo <= hi -> I lo [] hi.
Hypothesis I_app : forall lo mid hi d1 d2,
    lo <= mid -> mid <= hi ->
    I lo d1 mid -> I mid d2 hi -> I lo (d1 ++ d2) hi.
Hypothesis I_silent : forall lo e, silent e -> I lo [e] lo.

Lemma appends_ret {A} (a : A) : appends I (ret a).
Proof. intros w. exists []. unfold_run. simpl. rewrite app_nil_r. auto. Qed.

Lemma appends_throw {A} e : appends I (throw (A:=A) e).
Proof. intros w. exists []. unfold_run. simpl. rewrite app_nil_r. auto. Qed.

Lemma appends_liftResult {A} (r : result A) : appends I (liftResult r).
Proof. intros w. exists []. unfold_run. simpl. rewrite app_nil_r. auto. Qed.

Lemma appends_logger level message : appends I (logger level message).
Proof.
  intros w. exists [Logged level message]. unfold_run. simpl.
  repeat split; [lia | by apply I_silent].
Qed.

Lemma appends_query {A} q (answer : World.t -> result A) :
  appends I (query q answer).
Proof.
  intros w. exists [Queried q]. unfold_run. simpl.
  repeat split; [lia | by apply I_silent].
Qed.

Lemma appends_bind {A B} (m : M A) (k : A -> M B) :
  appends I m -> (forall a, appends I (k a)) -> appends I (bind m k).
Proof.
  intros Hm Hk w. destruct (Hm w) as (d1 & E1 & L1 & I1).
  unfold after, bind in *. destruct (m w) as [[a|e] w1]; simpl in *.
  - destruct (Hk a w1) as (d2 & E2 & L2 & I2). unfold after in *.
    exists (d1 ++ d2). rewrite E2, E1, app_assoc.
    split; [done|]. split; [lia|]. by eapply I_app.
  - by exists d1.
Qed.

Lemma appends_tryCatch {A} (m : M A) handler :
  appends I m -> (forall e, appends I (handler e)) ->
  appends I (tryCatch m handler).
Proof.
  intros Hm Hh w. destruct (Hm w) as (d1 & E1 & L1 & I1).
  unfold after, tryCatch in *. destruct (m w) as [[a|e] w1]; simpl in *.
  - by exists d1.
  - destruct (Hh e w1) as (d2 & E2 & L2 & I2). unfold after in *.
    exists (d1 ++ d2). rewrite E2, E1, app_assoc.
    split; [done|]. split; [lia|]. by eapply I_app.
Qed.

Lemma appends_promiseAll ms :
  Forall (appends I) ms -> appends I (promiseAll ms).
Proof.
  induction 1 as [|m ms Hm _ IH]; [apply appends_ret|].
  intros w. destruct (Hm w) as (d1 & E1 & L1 & I1).
  unfold after in *. simpl. destruct (m w) as [[a|e] w1]; simpl in *;
    destruct (IH w1) as (d2 & E2 & L2 & I2); unfold after in *;
    (exists (d1 ++ d2); rewrite E2, E1, app_assoc;
     split; [done|]; split; [lia|]; by eapply I_app).
Qed.

Section ForEvent.

Variable event : DatasetChangeEvent.t.

(** The one place that creates records and queues jobs. *)
Hypothesis I_record : forall automation triggerId actionId,
    appends I (recordAndEnqueue env (DatasetChangeEvent.dataset event)
                 automation
                 (TriggerEventAction_str (DatasetChangeEvent.action event))
                 triggerId actionId (DatasetChangeEvent.projectId event)).

Lemma appends_enqueueAutomationAction triggerId actionId :
  appends I (enqueueAutomationAction env (DatasetChangeEvent.dataset event)
               (TriggerEventAction_str (DatasetChangeEvent.action event))
               triggerId actionId (DatasetChangeEvent.projectId event)).
Proof.
  apply appends_bind; [apply appends_query|].
  intros [|a [|b rest]]; auto using appends_throw.
Qed.

Lemma appends_runAction trigger actionId :
  appends I (runAction env event trigger actionId).
Proof.
  apply appends_bind; [apply appends_query|].
  intros [action|];
    [apply appends_enqueueAutomationAction | apply appends_logger].
Qed.

(** What [processTrigger] does once the match is logged. *)
Lemma appends_dispatch trigger :
  appends I
    (bind (if negb (length (TriggerConfiguration.actionIds trigger) =? 1)%nat
           then
             bind (logger LevelDebug (msgMultipleOrNoActions trigger))
                  (fun _ =>
                     throw (InternalServerError
                              (msgMultipleOrNoActions trigger)))
           else ret tt)
          (fun _ =>
             promiseAll (map (runAction env event trigger)
                             (TriggerConfiguration.actionIds trigger)))).
Proof.
  apply appends_bind.
  - destruct (negb _); [|apply appends_ret].
    apply appends_bind; [apply appends_logger|].
    intros _. apply appends_throw.
  - intros _. apply appends_promiseAll, Forall_fmap, Forall_forall.
    intros actionId _. apply appends_runAction.
Qed.

Lemma appends_processTrigger trigger :
  appends I (processTrigger env event trigger).
Proof.
  apply appends_bind; [apply appends_liftResult|].
  intros [|]; simpl; [|apply appends_logger].
  apply appends_bind; [apply appends_logger|]. intros _.
  apply appends_dispatch.
Qed.

Lemma appends_triggerIteration trigger :
  appends I (triggerIteration env event trigger).
Proof.
  apply appends_tryCatch; [apply appends_processTrigger|].
  intros e. apply appends_logger.
Qed.

Lemma appends_forTriggers triggers :
  appends I (forTriggers env event triggers).
Proof.
  induction triggers as [|t rest IH]; [apply appends_ret|].
  simpl. apply appends_bind; [apply appends_triggerIteration|].
  intros _. exact IH.
Qed.

Lemma appends_datasetVersionProcessor :
  appends I (datasetVersionProcessor env event).
Proof.
  apply appends_tryCatch.
  - apply appends_bind; [apply appends_logger|]. intros _.
    apply appends_bind; [apply appends_query|]. intros triggers.
    apply appends_bind; [apply appends_logger|]. intros _.
    apply appends_forTriggers.
  - intros e. apply appends_bind; [apply appends_logger|].
    intros _. apply appends_throw.
Qed.

End ForEvent.

End Appends.

(* ================================================================== *)
(** ** The execution record precedes the webhook job *)
(* ================================================================== *)

Section Recorded.

Import Run.

Variable env : Env.t.

Lemma createdIds_app d1 d2 :
  createdIds (d1 ++ d2) = createdIds d1 ++ createdIds d2.
Proof. apply omap_app. Qed.

Lemma recorded_nil lo hi : lo <= hi -> recorded (Env.v4 env) lo [] hi.
Proof.
  intros _. split.
  - intros n job Hn. by rewrite lookup_nil in Hn.
  - exists []. repeat split; constructor.
Qed.

Lemma recorded_silent lo e : silent e -> recorded (Env.v4 env) lo [e] lo.
Proof.
  intros He. split.
  - intros [|n] job Hn; simpl in Hn; [|by rewrite lookup_nil in Hn].
    injection Hn as ->. destruct He.
  - exists []. repeat split; try constructor. by destruct e.
Qed.

Lemma recordedFirst_app d1 d2 :
  recordedFirst d1 -> recordedFirst d2 -> recordedFirst (d1 ++ d2).
Proof.
  intros H1 H2 n job Hn.
  apply lookup_app_Some in Hn as [Hn|[Hlen Hn]].
  - destruct (H1 n job Hn) as (m & data & Hm & Hd & Hid & Hst).
    exists m, data. repeat split; try done.
    by apply lookup_app_l_Some.
  - destruct (H2 _ job Hn) as (m & data & Hm & Hd & Hid & Hst).
    exists (length d1 + m), data. repeat split; try done; [lia|].
    rewrite lookup_app_r by lia.
    by replace (length d1 + m - length d1) with m by lia.
Qed.

Lemma freshIds_app lo mid hi d1 d2 :
  lo <= mid -> mid <= hi ->
  freshIds (Env.v4 env) lo d1 mid -> freshIds (Env.v4 env) mid d2 hi ->
  freshIds (Env.v4 env) lo (d1 ++ d2) hi.
Proof.
  intros L1 L2 (ks1 & E1 & N1 & R1) (ks2 & E2 & N2 & R2).
  exists (ks1 ++ ks2). rewrite createdIds_app, E1, E2, map_app.
  split; [done|]. split.
  - apply NoDup_app. repeat split; try done.
    intros k Hk1 Hk2.
    rewrite Forall_forall in R1, R2.
    specialize (R1 k Hk1). specialize (R2 k Hk2). lia.
  - apply Forall_app. split.
    + eapply Forall_impl; [exact R1|]. simpl. lia.
    + eapply Forall_impl; [exact R2|]. simpl. lia.
Qed.

Lemma recorded_app lo mid hi d1 d2 :
  lo <= mid -> mid <= hi ->
  recorded (Env.v4 env) lo d1 mid -> recorded (Env.v4 env) mid d2 hi ->
  recorded (Env.v4 env) lo (d1 ++ d2) hi.
Proof.
  intros L1 L2 [F1 I1] [F2 I2]. split.
  - by apply recordedFirst_app.
  - by eapply freshIds_app.
Qed.

(** A record alone, and a record followed by its job. *)
Lemma recorded_record_only lo hi data message :
  lo < hi ->
  AutomationExecution.id data = Env.v4 env lo ->
  recorded (Env.v4 env) lo [ExecutionCreated data; Logged LevelDebug message] hi.
Proof.
  intros Hlt Hid. split.
  - intros [|[|n]] job Hn; simpl in Hn; discriminate.
  - exists [lo]. simpl. rewrite Hid. repeat split.
    + apply NoDup_singleton.
    + constructor; [lia|constructor].
Qed.

Lemma recorded_record_then_job lo hi data message job :
  lo < hi ->
  AutomationExecution.id data = Env.v4 env lo ->
  AutomationExecution.status data = PENDING ->
  jobExecutionId job = Some (JStr (AutomationExecution.id data)) ->
  recorded (Env.v4 env) lo
           [ExecutionCreated data; Logged LevelDebug message;
            WebhookJobAdded job] hi.
Proof.
  intros Hlt Hid Hst Hjob. split.
  - intros [|[|[|n]]] job' Hn; simpl in Hn; try discriminate.
    injection Hn as <-. exists 0, data. repeat split; [lia|done..].
  - exists [lo]. simpl. rewrite Hid. repeat split.
    + apply NoDup_singleton.
    + constructor; [lia|constructor].
Qed.

(** [recordAndEnqueue] creates the pending record under a new
    identifier and only then, if at all, queues the job that names it. *)
Lemma recorded_recordAndEnqueue datasetData automation action
      triggerId actionId projectId :
  appends (recorded (Env.v4 env))
          (recordAndEnqueue env datasetData automation action
             triggerId actionId projectId).
Proof.
  intros [effects n]. unfold recordAndEnqueue. unfold_run. cbn.
  case_answer.
  2:{ exists []. rewrite app_nil_r.
      split; [done|]. split; [lia|]. apply recorded_nil. lia. }
  repeat case_answer;
    try (eexists [_; _];
         split; [by rewrite <- app_assoc|];
         split; [lia|];
         apply recorded_record_only; [lia|reflexivity]).
  eexists [_; _; _].
  split; [by rewrite <- !app_assoc|].
  split; [lia|].
  apply recorded_record_then_job; [lia|reflexivity..].
Qed.

Lemma recorded_datasetVersionProcessor event :
  appends (recorded (Env.v4 env)) (datasetVersionProcessor env event).
Proof.
  apply appends_datasetVersionProcessor.
  - apply recorded_nil.
  - apply recorded_app.
  - apply recorded_silent.
  - intros. apply recorded_recordAndEnqueue.
Qed.

End Recorded.

Lemma Scenario_v4_inj triggers versions added j k :
  Env.v4 (Scenario.env triggers versions added) j
    = Env.v4 (Scenario.env triggers versions added) k -> j = k.
Proof.
  simpl. rewrite !app_String, !app_Empty.
  intros E. repeat (injection E as E). by apply show_nat_inj.
Qed.

(* ================================================================== *)
(** ** Failure isolation in the trigger loop *)
(* ================================================================== *)

Section TriggerLoop.

Import Run.

Variable env : Env.t.
Variable event : DatasetChangeEvent.t.

(** An iteration of the loop never throws. *)
Lemma triggerIteration_ok trigger w :
  outcome (triggerIteration env event trigger) w = Ok tt.
Proof.
  unfold outcome, triggerIteration, tryCatch.
  destruct (processTrigger env event trigger w) as [[[]|e] w']; reflexivity.
Qed.

Lemma triggerIteration_caught trigger w e w' :
  processTrigger env event trigger w = (Throw e, w') ->
  triggerIteration env event trigger w
  = (Ok tt,
     World.emit (Logged LevelError (msgErrorProcessingTrigger event trigger e))
                w').
Proof. intros H. unfold triggerIteration, tryCatch. by rewrite H. Qed.

Lemma forTriggers_cons trigger rest w :
  forTriggers env event (trigger :: rest) w
  = forTriggers env event rest (after (triggerIteration env event trigger) w).
Proof.
  pose proof (triggerIteration_ok trigger w) as Hok.
  unfold outcome, after in *. simpl. unfold bind.
  destruct (triggerIteration env event trigger w) as [r w']. simpl in *.
  by rewrite Hok.
Qed.

Lemma forTriggers_app before rest w :
  forTriggers env event (before ++ rest) w
  = forTriggers env event rest (after (forTriggers env event before) w).
Proof.
  revert w. induction before as [|t before IH]; intros w; [done|].
  unfold after in *. rewrite <- app_comm_cons, !forTriggers_cons. apply IH.
Qed.

Lemma forTriggers_ok triggers w :
  outcome (forTriggers env event triggers) w = Ok tt.
Proof.
  revert w. induction triggers as [|t rest IH]; intros w; [done|].
  unfold outcome in *. rewrite forTriggers_cons. apply IH.
Qed.

Lemma anything_record automation triggerId actionId :
  appends anything
          (recordAndEnqueue env (DatasetChangeEvent.dataset event) automation
             (TriggerEventAction_str (DatasetChangeEvent.action event))
             triggerId actionId (DatasetChangeEvent.projectId event)).
Proof.
  eapply appends_weaken; [apply (recorded_recordAndEnqueue env)|done].
Qed.

(** Every iteration leaves a log line about its trigger. *)
Lemma triggerIteration_leaves_log trigger w :
  exists delta,
    World.effects (after (triggerIteration env event trigger) w)
      = World.effects w ++ delta
    /\ exists level message,
         iterationLog event trigger message
         /\ Logged level message ∈ delta.
Proof.
  unfold after, triggerIteration, tryCatch, processTrigger.
  unfold bind at 1. unfold liftResult.
  destruct (Env.evaluateFilter env (eventData event)
              (TriggerConfiguration.filter trigger) fieldMapper)
    as [[|]|e]; cbn [negb].
  - unfold bind at 1. unfold logger at 1.
    match goal with
    | |- context [bind ?m ?k (World.emit ?l w)] =>
        destruct (appends_dispatch env anything
                    ltac:(done) ltac:(done) ltac:(done)
                    event anything_record trigger (World.emit l w))
          as (d & E & _ & _);
        unfold after in E;
        destruct (bind m k (World.emit l w)) as [[[]|e] w1]
    end; simpl in *.
    + eexists. split; [by rewrite E, <- app_assoc|].
      exists LevelDebug, (msgMatches trigger).
      split; [right; by left | by left].
    + eexists. split; [by rewrite E, <- !app_assoc|].
      exists LevelDebug, (msgMatches trigger).
      split; [right; by left | by left].
  - exists [Logged LevelDebug (msgNoMatch trigger)]. split; [done|].
    exists LevelDebug, (msgNoMatch trigger). split; [by left | by left].
  - exists [Logged LevelError (msgErrorProcessingTrigger event trigger e)].
    split; [done|].
    exists LevelError, (msgErrorProcessingTrigger event trigger e).
    split; [right; right; by exists e | by left].
Qed.

Lemma forTriggers_visits_all triggers : forall w,
  exists delta,
    World.effects (after (forTriggers env event triggers) w)
      = World.effects w ++ delta
    /\ forall trigger,
         trigger ∈ triggers ->
         exists level message,
           iterationLog event trigger message
           /\ Logged level message ∈ delta.
Proof.
  induction triggers as [|t rest IH]; intros w.
  - exists []. split; [by rewrite app_nil_r|]. by intros ? ?%elem_of_nil.
  - destruct (triggerIteration_leaves_log t w) as (d1 & E1 & l1 & m1 & H1 & In1).
    destruct (IH (after (triggerIteration env event t) w)) as (d2 & E2 & H2).
    exists (d1 ++ d2). split.
    + unfold after in *. rewrite forTriggers_cons. unfold after.
      by rewrite E2, E1, app_assoc.
    + intros trigger [->|Hin]%elem_of_cons.
      * exists l1, m1. split; [done|]. apply elem_of_app. by left.
      * destruct (H2 trigger Hin) as (l & m & ? & ?).
        exists l, m. split; [done|]. apply elem_of_app. by right.
Qed.

(** What a matched trigger with a wrong number of actions does. *)
Lemma processTrigger_misconfigured trigger w :
  Env.evaluateFilter env (eventData event)
    (TriggerConfiguration.filter trigger) fieldMapper = Ok true ->
  length (TriggerConfiguration.actionIds trigger) <> 1 ->
  processTrigger env event trigger w
  = (Throw (InternalServerError (msgMultipleOrNoActions trigger)),
     {| World.effects :=
          World.effects w
            ++ [ Logged LevelDebug (msgMatches trigger);
                 Logged LevelDebug (msgMultipleOrNoActions trigger) ];
        World.uuids := World.uuids w |}).
Proof.
  intros Hmatch Hlen. unfold processTrigger. unfold_run. rewrite Hmatch.
  cbn. apply Nat.eqb_neq in Hlen. rewrite Hlen. cbn.
  by rewrite <- app_assoc.
Qed.

(** C2.  A matched trigger whose list of action ids has a length other
    than one is a configuration error of that trigger alone: its
    iteration returns normally, appends three log entries (the match,
    the misconfiguration at debug level and again, caught, at error
    level), creates no execution record and queues no webhook job, and
    the loop goes on with the remaining triggers of the event. *)
Theorem misconfigured_trigger_is_logged_and_skipped trigger rest w :
  Env.evaluateFilter env (eventData event)
    (TriggerConfiguration.filter trigger) fieldMapper = Ok true ->
  length (TriggerConfiguration.actionIds trigger) <> 1 ->
  let logs :=
    [ Logged LevelDebug (msgMatches trigger);
      Logged LevelDebug (msgMultipleOrNoActions trigger);
      Logged LevelError
        (msgErrorProcessingTrigger event trigger
           (InternalServerError (msgMultipleOrNoActions trigger))) ] in
  let w' := {| World.effects := World.effects w ++ logs;
               World.uuids := World.uuids w |} in
  triggerIteration env event trigger w = (Ok tt, w')
  /\ Forall silent logs
  /\ forTriggers env event (trigger :: rest) w
     = forTriggers env event rest w'.
Proof.
  intros Hmatch Hlen logs w'.
  assert (triggerIteration env event trigger w = (Ok tt, w')) as Hit.
  { rewrite (triggerIteration_caught _ _ _ _
               (processTrigger_misconfigured trigger w Hmatch Hlen)).
    unfold World.emit, w', logs. simpl. by rewrite <- app_assoc. }
  split; [exact Hit|]. split.
  - repeat constructor.
  - rewrite forTriggers_cons. unfold after. by rewrite Hit.
Qed.

(** C3.  Whatever happens inside one trigger's iteration, the loop
    evaluates and dispatches the remaining triggers: an exception thrown
    by the iteration's body is caught and logged at error level, the
    iteration returns normally, the rest of the list is processed from
    the world the iteration left, the loop as a whole never throws and
    leaves a log line about every trigger of the list, and once the
    trigger lookup has answered [datasetVersionProcessor] returns
    normally. *)
Theorem trigger_failure_does_not_stop_the_loop :
  (forall trigger w e w',
      processTrigger env event trigger w = (Throw e, w') ->
      triggerIteration env event trigger w
      = (Ok tt,
         World.emit
           (Logged LevelError (msgErrorProcessingTrigger event trigger e)) w'))
  /\ (forall trigger w, outcome (triggerIteration env event trigger) w = Ok tt)
  /\ (forall before trigger rest w,
        forTriggers env event (before ++ trigger :: rest) w
        = forTriggers env event rest
            (after (triggerIteration env event trigger)
               (after (forTriggers env event before) w)))
  /\ (forall triggers w, outcome (forTriggers env event triggers) w = Ok tt)
  /\ (forall triggers w,
        exists delta,
          World.effects (after (forTriggers env event triggers) w)
            = World.effects w ++ delta
          /\ forall trigger,
               trigger ∈ triggers ->
               exists level message,
                 iterationLog event trigger message
                 /\ Logged level message ∈ delta)
  /\ (forall triggers w,
        Env.getTriggerConfigurations env
          (World.emit (Logged LevelInfo (msgProcessing event)) w)
          (DatasetChangeEvent.projectId event) EventSourceDataset ACTIVE
        = Ok triggers ->
        outcome (datasetVersionProcessor env event) w = Ok tt).
Proof.
  split; [exact triggerIteration_caught|].
  split; [exact triggerIteration_ok|].
  split; [|split; [exact forTriggers_ok|split; [exact forTriggers_visits_all|]]].
  - intros before trigger rest w.
    by rewrite forTriggers_app, forTriggers_cons.
  - intros triggers w Hq.
    unfold outcome, datasetVersionProcessor. unfold_run. cbn.
    unfold World.emit in Hq. rewrite Hq. cbn.
    match goal with
    | |- context [forTriggers env event triggers ?w0] =>
        pose proof (forTriggers_ok triggers w0) as Hok;
        unfold outcome in Hok;
        destruct (forTriggers env event triggers w0) as [r w1]
    end.
    simpl in Hok. by rewrite Hok.
Qed.

End TriggerLoop.

Lemma misconfigured_trigger_is_logged_and_skipped_witness :
  forTriggers Scenario.healthy Scenario.event
    [Scenario.twoActions; Scenario.onUpdate] World.initial
  = forTriggers Scenario.healthy Scenario.event [Scenario.onUpdate]
      {| World.effects :=
           [ Logged LevelDebug (msgMatches Scenario.twoActions);
             Logged LevelDebug (msgMultipleOrNoActions Scenario.twoActions);
             Logged LevelError
               (msgErrorProcessingTrigger Scenario.event Scenario.twoActions
                  (InternalServerError
                     (msgMultipleOrNoActions Scenario.twoActions))) ];
         World.uuids := 0 |}.
Proof.
  apply (misconfigured_trigger_is_logged_and_skipped Scenario.healthy
           Scenario.event Scenario.twoActions [Scenario.onUpdate]
           World.initial).
  - reflexivity.
  - simpl. lia.
Defined.

Lemma trigger_failure_does_not_stop_the_loop_witness :
  triggerIteration Scenario.healthy Scenario.event Scenario.twoActions
    World.initial
  = (Ok tt,
     World.emit
       (Logged LevelError
          (msgErrorProcessingTrigger Scenario.event Scenario.twoActions
             (InternalServerError
                (msgMultipleOrNoActions Scenario.twoActions))))
       {| World.effects :=
            [ Logged LevelDebug (msgMatches Scenario.twoActions);
              Logged LevelDebug (msgMultipleOrNoActions Scenario.twoActions) ];
          World.uuids := 0 |}).
Proof.
  apply (proj1 (trigger_failure_does_not_stop_the_loop Scenario.healthy
                  Scenario.event)).
  reflexivity.
Defined.

(* ================================================================== *)
(** ** Every dispatch is recorded before it is queued *)
(* ================================================================== *)

Section Dispatch.

Import Run.

Variable env : Env.t.
Variable event : DatasetChangeEvent.t.

Lemma appends_anything_triggerIteration trigger w :
  exists delta,
    World.effects (after (triggerIteration env event trigger) w)
      = World.effects w ++ delta
    /\ World.uuids w <= World.uuids (after (triggerIteration env event trigger) w).
Proof.
  destruct (appends_triggerIteration env anything
              ltac:(done) ltac:(done) ltac:(done)
              event (anything_record env event) trigger w)
    as (delta & E & L & _).
  by exists delta.
Qed.

Lemma appends_anything_forTriggers triggers w :
  exists delta,
    World.effects (after (forTriggers env event triggers) w)
      = World.effects w ++ delta
    /\ World.uuids w <= World.uuids (after (forTriggers env event triggers) w).
Proof.
  destruct (appends_forTriggers env anything
              ltac:(done) ltac:(done) ltac:(done)
              event (anything_record env event) triggers w)
    as (delta & E & L & _).
  by exists delta.
Qed.

(** The iteration of a dispatching trigger: the match, the two lookups,
    the record under the next identifier and the line about it, and then,
    if the queue takes it, the job naming the record. *)
Lemma triggerIteration_dispatch trigger actionId automation w :
  Trace.dispatches env event trigger actionId automation ->
  exists tail,
    World.effects (after (triggerIteration env event trigger) w)
    = World.effects w
        ++ Trace.recordedPrefix env event trigger actionId automation w
        ++ tail
    /\ World.uuids w < World.uuids (after (triggerIteration env event trigger) w)
    /\ (Trace.queueAccepts env event ->
        exists job,
          tail = [WebhookJobAdded job]
          /\ jobExecutionId job
             = Some (JStr (Env.v4 env (World.uuids w)))).
Proof.
  intros (Hmatch & Hone & Haction & Hauto & Hcreate).
  destruct w as [effects n].
  unfold after, triggerIteration, processTrigger, runAction,
    enqueueAutomationAction, recordAndEnqueue, Trace.recordedPrefix,
    Trace.createdLine.
  unfold_run.
  rewrite Hmatch, Hone. cbn.
  match goal with
  | |- context [Env.getActionById env ?w0 _ _] =>
      destruct (Haction w0) as [actionConfig ->]
  end.
  cbn. rewrite Hauto. cbn. rewrite Hcreate. cbn.
  repeat case_answer;
    (eexists; split; [rewrite <- ?app_assoc; cbn; reflexivity|];
     split; [cbn; lia|];
     intros (Hi & [v1 H1] & [v2 H2] & [v3 H3] & Ha);
     try congruence).
  eexists. split; reflexivity.
Qed.

(** The loop reaches every dispatching trigger of its list. *)
Lemma forTriggers_dispatch trigger actionId automation triggers :
  Trace.dispatches env event trigger actionId automation ->
  trigger ∈ triggers ->
  forall w, exists pre post k,
    World.effects (after (forTriggers env event triggers) w)
    = World.effects w
        ++ pre
        ++ [ ExecutionCreated
               (executionData (DatasetChangeEvent.dataset event) automation
                  (Env.v4 env k) (TriggerConfiguration.id trigger) actionId
                  (DatasetChangeEvent.projectId event));
             Logged LevelDebug
               (Trace.createdLine (DatasetChangeEvent.projectId event)
                  actionId (Env.v4 env k)) ]
        ++ post
    /\ World.uuids w <= k < World.uuids (after (forTriggers env event triggers) w)
    /\ (Trace.queueAccepts env event ->
        exists job rest,
          post = WebhookJobAdded job :: rest
          /\ jobExecutionId job = Some (JStr (Env.v4 env k))).
Proof.
  intros Hd. induction triggers as [|t rest IH]; intros Hin w;
    [by apply elem_of_nil in Hin|].
  unfold after in *. rewrite forTriggers_cons. unfold after.
  apply elem_of_cons in Hin as [<-|Hin].
  - destruct (triggerIteration_dispatch trigger actionId automation w Hd)
      as (tail & E1 & L1 & Hq).
    destruct (appends_anything_forTriggers rest
                ((triggerIteration env event trigger w).2))
      as (d2 & E2 & L2).
    unfold after in *.
    exists [ Logged LevelDebug (msgMatches trigger);
             Queried (QActionById (DatasetChangeEvent.projectId event)
                                  actionId);
             Queried (QAutomations (DatasetChangeEvent.projectId event)
                                   actionId) ],
           (tail ++ d2), (World.uuids w).
    split; [|split; [lia|]].
    + rewrite E2, E1. unfold Trace.recordedPrefix.
      by rewrite <- !app_assoc.
    + intros Hacc. destruct (Hq Hacc) as (job & -> & Hjob).
      by exists job, d2.
  - destruct (appends_anything_triggerIteration t w) as (d1 & E1 & L1).
    destruct (IH Hin ((triggerIteration env event t w).2))
      as (pre & post & k & E2 & L2 & Hq).
    unfold after in *.
    exists (d1 ++ pre), post, k.
    split; [|split; [lia|exact Hq]].
    rewrite E2, E1. by rewrite <- !app_assoc.
Qed.

(** The effects of a run whose trigger lookup answered. *)
Lemma datasetVersionProcessor_loaded triggers w :
  Env.getTriggerConfigurations env
    (World.emit (Logged LevelInfo (msgProcessing event)) w)
    (DatasetChangeEvent.projectId event) EventSourceDataset ACTIVE
  = Ok triggers ->
  exists w0,
    World.effects w0
    = World.effects w
        ++ [ Logged LevelInfo (msgProcessing event);
             Queried (QTriggerConfigurations
                        (DatasetChangeEvent.projectId event)
                        EventSourceDataset ACTIVE);
             Logged LevelDebug
               ("Found " +:+ Js.show_nat (length triggers)
                  +:+ " active dataset triggers") ]
    /\ World.uuids w0 = World.uuids w
    /\ after (datasetVersionProcessor env event) w
       = after (forTriggers env event triggers) w0.
Proof.
  intros Hq. unfold after, datasetVersionProcessor. unfold_run. cbn.
  unfold World.emit in Hq. rewrite Hq. cbn.
  eexists. split; [|split]; cycle 2.
  - match goal with
    | |- context [forTriggers env event triggers ?w0] =>
        pose proof (forTriggers_ok env event triggers w0) as Hok;
        unfold outcome in Hok;
        destruct (forTriggers env event triggers w0) as [r w1] eqn:Hrun
    end.
    simpl in Hok. rewrite Hok. cbn. rewrite Hrun. reflexivity.
  - cbn. by rewrite <- !app_assoc.
  - reflexivity.
Qed.

(** C1.  In every run of the change event processor, whatever the
    collaborators answer:

    - every dispatch creates its execution record: for each loaded
      trigger that matches the event, has one action that exists and one
      automation, and whose record the store accepts, the run creates an
      execution record with status PENDING for that trigger, action and
      automation, under an identifier drawn from the generator during
      the run; and if the queue takes the job, the webhook job naming
      that identifier is queued after the record (two effects later,
      behind the line about the creation);
    - each webhook job queued is preceded by the creation of an
      execution record with status PENDING whose identifier is the job's
      [executionId];
    - the records created carry identifiers of pairwise different draws
      of the generator, all made during the run; so if the generator
      never repeats itself, the identifiers are pairwise distinct and
      none was handed out before the run. *)
Theorem execution_recorded_before_webhook_job w :
  exists delta,
    World.effects (after (datasetVersionProcessor env event) w)
      = World.effects w ++ delta
    /\ (forall triggers trigger actionId automation,
          Env.getTriggerConfigurations env
            (World.emit (Logged LevelInfo (msgProcessing event)) w)
            (DatasetChangeEvent.projectId event) EventSourceDataset ACTIVE
          = Ok triggers ->
          trigger ∈ triggers ->
          Trace.dispatches env event trigger actionId automation ->
          exists m k data,
            delta !! m = Some (ExecutionCreated data)
            /\ World.uuids w <= k
               < World.uuids (after (datasetVersionProcessor env event) w)
            /\ AutomationExecution.id data = Env.v4 env k
            /\ AutomationExecution.status data = PENDING
            /\ AutomationExecution.triggerId data
               = TriggerConfiguration.id trigger
            /\ AutomationExecution.actionId data = actionId
            /\ AutomationExecution.automationId data
               = AutomationDomain.id automation
            /\ AutomationExecution.projectId data
               = DatasetChangeEvent.projectId event
            /\ (Trace.queueAccepts env event ->
                exists job,
                  delta !! (m + 2) = Some (WebhookJobAdded job)
                  /\ jobExecutionId job
                     = Some (JStr (AutomationExecution.id data))))
    /\ (forall n job,
          delta !! n = Some (WebhookJobAdded job) ->
          exists m data,
            m < n
            /\ delta !! m = Some (ExecutionCreated data)
            /\ jobExecutionId job = Some (JStr (AutomationExecution.id data))
            /\ AutomationExecution.status data = PENDING)
    /\ (exists ks,
          createdIds delta = map (Env.v4 env) ks
          /\ NoDup ks
          /\ Forall (fun k =>
                       World.uuids w <= k
                       < World.uuids
                           (after (datasetVersionProcessor env event) w)) ks)
    /\ ((forall j k, Env.v4 env j = Env.v4 env k -> j = k) ->
        NoDup (createdIds delta)
        /\ (forall id k, id ∈ createdIds delta -> k < World.uuids w ->
                         id <> Env.v4 env k)).
Proof.
  destruct (recorded_datasetVersionProcessor env event w)
    as (delta & E & L & Hfirst & ks & Hks & Hnd & Hrange).
  exists delta. split; [exact E|]. split; [|split; [exact Hfirst|split]].
  - intros triggers trigger actionId automation Hq Hin Hd.
    destruct (datasetVersionProcessor_loaded triggers w Hq)
      as (w0 & E0 & U0 & Hrun).
    destruct (forTriggers_dispatch trigger actionId automation triggers
                Hd Hin w0) as (pre & post & k & E1 & L1 & Hacc).
    rewrite <- Hrun in E1, L1. rewrite E1, E0, <- app_assoc in E.
    apply app_inv_head in E. subst delta.
    eexists _, k, _. split.
    { rewrite app_assoc. apply list_lookup_middle. reflexivity. }
    split; [lia|]. repeat (split; [reflexivity|]).
    intros Hq'. destruct (Hacc Hq') as (job & rest & -> & Hjob).
    exists job. split; [|exact Hjob].
    rewrite (app_assoc _ pre), (app_assoc _ [_; _]).
    apply list_lookup_middle. by rewrite (length_app _ [_; _]).
  - exists ks. split; [exact Hks|]. split; [exact Hnd|].
    eapply Forall_impl; [exact Hrange|]. simpl. lia.
  - intros Hinj. split.
    + rewrite Hks. apply NoDup_fmap_2; [|done].
      intros j k. apply Hinj.
    + intros id k Hid Hk ->. rewrite Hks in Hid.
      apply list_elem_of_fmap in Hid as (j & Hjk & Hj).
      apply Hinj in Hjk as ->.
      rewrite Forall_forall in Hrange. specialize (Hrange _ Hj). lia.
Qed.

End Dispatch.

Lemma execution_recorded_before_webhook_job_witness :
  exists delta m data job,
    World.effects (Run.after (datasetVersionProcessor Scenario.healthy
                                Scenario.event) World.initial)
      = World.effects World.initial ++ delta
    /\ delta !! m = Some (ExecutionCreated data)
    /\ AutomationExecution.status data = PENDING
    /\ AutomationExecution.triggerId data = "trigger-1"
    /\ AutomationExecution.actionId data = "action-1"
    /\ AutomationExecution.automationId data = "automation-1"
    /\ delta !! (m + 2) = Some (WebhookJobAdded job)
    /\ Run.jobExecutionId job = Some (JStr (AutomationExecution.id data))
    /\ NoDup (Run.createdIds delta).
Proof.
  destruct (execution_recorded_before_webhook_job Scenario.healthy
              Scenario.event World.initial)
    as (delta & E & Hdispatch & _ & _ & Hunique).
  assert (Trace.dispatches Scenario.healthy Scenario.event Scenario.onUpdate
            "action-1" FormSamples.automation) as Hd.
  { split; [reflexivity|]. split; [reflexivity|].
    split; [intros w; eexists; reflexivity|].
    split; intros; reflexivity. }
  assert (Trace.queueAccepts Scenario.healthy Scenario.event) as Hq.
  { split; [intros w; reflexivity|].
    split; [eexists; reflexivity|].
    split; [eexists; reflexivity|].
    split; [eexists; reflexivity|].
    intros w job. reflexivity. }
  destruct (Hdispatch [Scenario.twoActions; Scenario.onUpdate]
              Scenario.onUpdate "action-1" FormSamples.automation eq_refl
              ltac:(right; left) Hd)
    as (m & k & data & Hm & _ & _ & Hst & Htr & Hac & Hau & _ & Hjob).
  destruct (Hjob Hq) as (job & Hj & Hex).
  exists delta, m, data, job.
  split; [exact E|]. split; [exact Hm|]. split; [exact Hst|].
  split; [exact Htr|]. split; [exact Hac|]. split; [exact Hau|].
  split; [exact Hj|]. split; [exact Hex|].
  apply Hunique. intros i j. apply Scenario_v4_inj.
Defined.

(* ================================================================== *)
(** ** The change publisher *)
(* ================================================================== *)

Section Publisher.

Import Run.

Variable env : Env.t.

(** C10.  With a null dataset [datasetChangeEventSourcing] returns
    normally at once, for every action kind: no dataset version is
    read, nothing is queued or logged, no identifier is drawn, and the
    world is the one it started in. *)
Theorem datasetChangeEventSourcing_null_is_noop action w :
  datasetChangeEventSourcing env None action w = (Ok tt, w).
Proof. reflexivity. Qed.

Lemma datasetChangeEventSourcing_built datasetData action w event w1 :
  buildChangeEvent env datasetData action w = (Ok event, w1) ->
  datasetChangeEventSourcing env (Some datasetData) action w
  = queueChangeEvent env datasetData action event w1.
Proof. intros H. simpl. unfold bind. by rewrite H. Qed.

Lemma datasetChangeEventSourcing_not_built datasetData action w e w1 :
  buildChangeEvent env datasetData action w = (Throw e, w1) ->
  datasetChangeEventSourcing env (Some datasetData) action w = (Throw e, w1).
Proof. intros H. simpl. unfold bind. by rewrite H. Qed.

(** A failing [add] is logged at error level and thrown again. *)
Lemma queueChangeEvent_add_fails datasetData action event w e :
  Env.entityChangeQueueInstance env w = true ->
  Env.entityChangeQueueAdd env w event = Throw e ->
  queueChangeEvent env datasetData action event w
  = (Throw e,
     World.emit (Logged LevelError (msgFailedToQueue datasetData e)) w).
Proof.
  intros Hi Ha. unfold queueChangeEvent. unfold_run. cbn.
  rewrite Hi. cbn. by rewrite Ha.
Qed.

(** Whenever the [try] block fails, the last effect is its error log. *)
Lemma queueChangeEvent_failure_logged datasetData action event w e :
  outcome (queueChangeEvent env datasetData action event) w = Throw e ->
  last (World.effects (after (queueChangeEvent env datasetData action event) w))
  = Some (Logged LevelError (msgFailedToQueue datasetData e)).
Proof.
  unfold outcome, after, queueChangeEvent. unfold_run. cbn.
  repeat case_answer; try discriminate;
    intros [= ->]; apply last_snoc.
Qed.

(** A failing dataset version lookup leaves the function before the
    [try]: only the read is on record. *)
Lemma buildChangeEvent_lookup_fails datasetData action w e :
  Env.listDatasetVersions env w (DatasetDomain.projectId datasetData)
    (DatasetDomain.id datasetData) = Throw e ->
  buildChangeEvent env datasetData action w
  = (Throw e,
     World.emit (Queried (QDatasetVersions
                            (DatasetDomain.projectId datasetData)
                            (DatasetDomain.id datasetData))) w).
Proof. intros H. unfold buildChangeEvent. unfold_run. by rewrite H. Qed.

End Publisher.

Section Processor_failures.

Import Run.

Variable env : Env.t.
Variable event : DatasetChangeEvent.t.

(** A failing trigger lookup is logged at error level and thrown again. *)
Lemma datasetVersionProcessor_lookup_fails w e :
  Env.getTriggerConfigurations env
    (World.emit (Logged LevelInfo (msgProcessing event)) w)
    (DatasetChangeEvent.projectId event) EventSourceDataset ACTIVE
  = Throw e ->
  datasetVersionProcessor env event w
  = (Throw e,
     {| World.effects :=
          World.effects w
            ++ [ Logged LevelInfo (msgProcessing event);
                 Queried (QTriggerConfigurations
                            (DatasetChangeEvent.projectId event)
                            EventSourceDataset ACTIVE);
                 Logged LevelError (msgFailedToProcess event e) ];
        World.uuids := World.uuids w |}).
Proof.
  intros H. unfold datasetVersionProcessor. unfold_run. cbn.
  rewrite H. cbn. by rewrite <- !app_assoc.
Qed.

(** Whenever the processor fails, the last effect is its error log. *)
Lemma datasetVersionProcessor_failure_logged w e :
  outcome (datasetVersionProcessor env event) w = Throw e ->
  last (World.effects (after (datasetVersionProcessor env event) w))
  = Some (Logged LevelError (msgFailedToProcess event e)).
Proof.
  unfold outcome, after, datasetVersionProcessor, tryCatch.
  match goal with
  | |- context [match ?body w with _ => _ end] =>
      destruct (body w) as [[[]|e0] w1]
  end; [discriminate|].
  unfold_run. cbn. intros [= ->]. apply last_snoc.
Qed.

End Processor_failures.

(* ================================================================== *)
(** ** Which failures are logged, which are thrown again *)
(* ================================================================== *)

Section FailurePolicy.

Import Run.

Variable env : Env.t.

Lemma buildChangeEvent_effects datasetData action w :
  World.effects (after (buildChangeEvent env datasetData action) w)
  = World.effects w
      ++ [Queried (QDatasetVersions (DatasetDomain.projectId datasetData)
                                    (DatasetDomain.id datasetData))].
Proof.
  unfold after, buildChangeEvent. unfold_run. cbn.
  repeat case_answer; reflexivity.
Qed.

(** C8, amended.  A failing trigger lookup of the change event
    processor and a failing [add] of the change publisher are each
    logged at error level and thrown again to the caller; a failure
    inside one trigger's iteration is caught, logged at error level and
    not thrown on.  Every failing run of the processor, and every
    failure inside the publisher's [try] block, ends with an error log
    entry.  A failure of the publisher before its [try] block (the
    dataset version lookup, the normalisation of the snapshot) is
    thrown to the caller with the read as its only trace. *)
Theorem failures_are_logged_where_caught :
  (forall event w e,
      Env.getTriggerConfigurations env
        (World.emit (Logged LevelInfo (msgProcessing event)) w)
        (DatasetChangeEvent.projectId event) EventSourceDataset ACTIVE
      = Throw e ->
      datasetVersionProcessor env event w
      = (Throw e,
         {| World.effects :=
              World.effects w
                ++ [ Logged LevelInfo (msgProcessing event);
                     Queried (QTriggerConfigurations
                                (DatasetChangeEvent.projectId event)
                                EventSourceDataset ACTIVE);
                     Logged LevelError (msgFailedToProcess event e) ];
            World.uuids := World.uuids w |}))
  /\ (forall datasetData action w event w1 e,
        buildChangeEvent env datasetData action w = (Ok event, w1) ->
        Env.entityChangeQueueInstance env w1 = true ->
        Env.entityChangeQueueAdd env w1 event = Throw e ->
        datasetChangeEventSourcing env (Some datasetData) action w
        = (Throw e,
           World.emit (Logged LevelError (msgFailedToQueue datasetData e))
                      w1))
  /\ (forall event trigger w e w',
        processTrigger env event trigger w = (Throw e, w') ->
        triggerIteration env event trigger w
        = (Ok tt,
           World.emit
             (Logged LevelError (msgErrorProcessingTrigger event trigger e))
             w'))
  /\ (forall event w e,
        outcome (datasetVersionProcessor env event) w = Throw e ->
        last (World.effects (after (datasetVersionProcessor env event) w))
        = Some (Logged LevelError (msgFailedToProcess event e)))
  /\ (forall datasetData action event w e,
        outcome (queueChangeEvent env datasetData action event) w = Throw e ->
        last (World.effects
                (after (queueChangeEvent env datasetData action event) w))
        = Some (Logged LevelError (msgFailedToQueue datasetData e)))
  /\ (forall datasetData action w e w1,
        buildChangeEvent env datasetData action w = (Throw e, w1) ->
        datasetChangeEventSourcing env (Some datasetData) action w
        = (Throw e, w1)
        /\ World.effects w1
           = World.effects w
               ++ [Queried (QDatasetVersions
                              (DatasetDomain.projectId datasetData)
                              (DatasetDomain.id datasetData))]).
Proof.
  repeat apply conj.
  - intros event. apply datasetVersionProcessor_lookup_fails.
  - intros d action w event w1 e Hb Hi Ha.
    rewrite (datasetChangeEventSourcing_built _ _ _ _ _ _ Hb).
    by apply queueChangeEvent_add_fails.
  - intros event. apply triggerIteration_caught.
  - intros event. apply datasetVersionProcessor_failure_logged.
  - apply queueChangeEvent_failure_logged.
  - intros d action w e w1 Hb. split.
    + by apply datasetChangeEventSourcing_not_built.
    + pose proof (buildChangeEvent_effects d action w) as E.
      unfold after in E. by rewrite Hb in E.
Qed.

End FailurePolicy.

Lemma failures_are_logged_where_caught_witness :
  datasetVersionProcessor Scenario.triggersDown Scenario.event World.initial
  = (Throw Scenario.unavailable,
     {| World.effects :=
          [ Logged LevelInfo (msgProcessing Scenario.event);
            Queried (QTriggerConfigurations "project-1" EventSourceDataset
                                            ACTIVE);
            Logged LevelError
              (msgFailedToProcess Scenario.event Scenario.unavailable) ];
        World.uuids := 0 |})
  /\ fst (datasetChangeEventSourcing Scenario.queuesDown
            (Some Scenario.dataset) updated World.initial)
     = Throw Scenario.unavailable.
Proof.
  split.
  - apply (proj1 (failures_are_logged_where_caught Scenario.triggersDown)
             Scenario.event World.initial Scenario.unavailable).
    reflexivity.
  - assert (exists event w1,
               buildChangeEvent Scenario.queuesDown Scenario.dataset updated
                 World.initial = (Ok event, w1)) as (event & w1 & Hb)
      by (eexists _, _; vm_compute; reflexivity).
    rewrite (proj1 (proj2 (failures_are_logged_where_caught
                             Scenario.queuesDown))
               Scenario.dataset updated World.initial event w1
               Scenario.unavailable Hb eq_refl eq_refl).
    reflexivity.
Defined.

(** C8 as stated fails on the publisher: when the dataset version lookup
    throws, the error reaches the caller and no log entry is written. *)
Lemma dataset_version_failure_leaves_no_log :
  datasetChangeEventSourcing Scenario.versionsDown (Some Scenario.dataset)
    updated World.initial
  = (Throw Scenario.unavailable,
     {| World.effects := [Queried (QDatasetVersions "project-1" "dataset-1")];
        World.uuids := 0 |})
  /\ Forall (fun e => ~ Run.isLog e)
            (World.effects
               (Run.after (datasetChangeEventSourcing Scenario.versionsDown
                             (Some Scenario.dataset) updated)
                          World.initial)).
Proof.
  split; [reflexivity|].
  repeat constructor. simpl. tauto.
Qed.

(* ================================================================== *)
(** ** The shape of a webhook delivery job *)
(* ================================================================== *)

Section JobShape.

Import Run.

Variable env : Env.t.
Variable event : DatasetChangeEvent.t.

Lemma jobsShaped_nil lo hi : lo <= hi -> jobsShaped env event lo [] hi.
Proof. intros _ job Hjob. by apply elem_of_nil in Hjob. Qed.

Lemma jobsShaped_app lo mid hi d1 d2 :
  lo <= mid -> mid <= hi ->
  jobsShaped env event lo d1 mid -> jobsShaped env event mid d2 hi ->
  jobsShaped env event lo (d1 ++ d2) hi.
Proof. intros _ _ H1 H2 job [Hjob|Hjob]%elem_of_app; auto. Qed.

Lemma jobsShaped_silent lo e : silent e -> jobsShaped env event lo [e] lo.
Proof.
  intros He job Hjob. apply list_elem_of_singleton in Hjob as <-.
  destruct He.
Qed.

Lemma jobsShaped_recordAndEnqueue automation triggerId actionId :
  appends (jobsShaped env event)
          (recordAndEnqueue env (DatasetChangeEvent.dataset event) automation
             (TriggerEventAction_str (DatasetChangeEvent.action event))
             triggerId actionId (DatasetChangeEvent.projectId event)).
Proof.
  intros [effects n]. unfold recordAndEnqueue. unfold_run. cbn.
  case_answer.
  2:{ exists []. rewrite app_nil_r.
      split; [done|]. split; [lia|]. apply jobsShaped_nil. lia. }
  repeat case_answer;
    try (eexists [_; _];
         split; [by rewrite <- app_assoc|];
         split; [lia|];
         intros job Hjob;
         repeat (apply elem_of_cons in Hjob as [Hjob|Hjob];
                 [discriminate|]);
         by apply elem_of_nil in Hjob).
  eexists [_; _; _].
  split; [by rewrite <- !app_assoc|].
  split; [lia|].
  intros job Hjob.
  repeat (apply elem_of_cons in Hjob as [Hjob|Hjob]; try discriminate).
  - injection Hjob as ->. unfold jobShape. eauto 10.
  - by apply elem_of_nil in Hjob.
Qed.

Lemma jobShape_keys job :
  jobShape env event job ->
  Obj.keys job = ["timestamp"; "id"; "payload"; "name"]
  /\ exists payload snapshot,
       Obj.get "payload" job = Some payload
       /\ Obj.keys payload
          = ["projectId"; "automationId"; "executionId"; "payload"]
       /\ Obj.get "projectId" payload
          = Some (JStr (DatasetChangeEvent.projectId event))
       /\ Obj.get "payload" payload
          = Some (JObj [ ("action",
                           JStr (TriggerEventAction_str
                                   (DatasetChangeEvent.action event)));
                         ("type", JStr "dataset");
                         ("dataset", JObj snapshot) ])
       /\ map fst snapshot
          = map fst (DatasetDomain.entries (DatasetChangeEvent.dataset event)).
Proof.
  intros (ts & id & aid & eid & md & ins & eos & ->).
  split; [reflexivity|].
  eexists _, _. repeat split; reflexivity.
Qed.

(** C4, amended.  Every webhook delivery job the processor queues has
    the shape [{ timestamp, id, payload: { projectId, automationId,
    executionId, payload }, name }], where the inner payload consists of
    exactly the action kind of the event, the entity-type discriminator
    [type: "dataset"] and the entity snapshot under [dataset] (with the
    properties of the dataset); it has no [apiVersion] property. *)
Theorem webhook_job_shape w :
  exists delta,
    World.effects (after (datasetVersionProcessor env event) w)
      = World.effects w ++ delta
    /\ forall job,
         WebhookJobAdded job ∈ delta ->
         Obj.keys job = ["timestamp"; "id"; "payload"; "name"]
         /\ exists payload inner snapshot,
              Obj.get "payload" job = Some payload
              /\ Obj.keys payload
                 = ["projectId"; "automationId"; "executionId"; "payload"]
              /\ Obj.get "projectId" payload
                 = Some (JStr (DatasetChangeEvent.projectId event))
              /\ jobInnerPayload job = Some inner
              /\ inner
                 = JObj [ ("action",
                            JStr (TriggerEventAction_str
                                    (DatasetChangeEvent.action event)));
                          ("type", JStr "dataset");
                          ("dataset", JObj snapshot) ]
              /\ map fst snapshot
                 = map fst (DatasetDomain.entries
                              (DatasetChangeEvent.dataset event))
              /\ Obj.get "apiVersion" inner = None.
Proof.
  destruct (appends_datasetVersionProcessor env (jobsShaped env event)
              jobsShaped_nil jobsShaped_app jobsShaped_silent
              event jobsShaped_recordAndEnqueue w)
    as (delta & E & _ & Hshape).
  exists delta. split; [exact E|].
  intros job Hjob.
  destruct (jobShape_keys job (Hshape job Hjob))
    as (Hkeys & payload & snapshot & Hp & Hpk & Hpid & Hinner & Hsnap).
  split; [exact Hkeys|].
  eexists payload, _, snapshot. repeat split; try done.
  unfold jobInnerPayload. rewrite Hp. exact Hinner.
Qed.

End JobShape.

(** C4 as stated fails on the job of the sample run: its inner payload
    has the properties [action], [type] and [dataset] and no
    [apiVersion]. *)
Lemma queued_job_has_no_apiVersion :
  last (World.effects
          (Run.after (datasetVersionProcessor Scenario.healthy Scenario.event)
                     World.initial))
  = Some (WebhookJobAdded Scenario.queuedJob)
  /\ (Run.jobInnerPayload Scenario.queuedJob ≫= Obj.get "apiVersion") = None
  /\ (Obj.keys <$> Run.jobInnerPayload Scenario.queuedJob)
     = Some ["action"; "type"; "dataset"].
Proof. repeat split. Qed.

(* ================================================================== *)
(** ** Filterable columns *)
(* ================================================================== *)

Section Columns.

Lemma fieldMapper_other data column :
  column <> "action" -> column <> "Name" -> fieldMapper data column = None.
Proof.
  intros Ha Hn. unfold fieldMapper.
  apply String.eqb_neq in Ha, Hn. by rewrite Ha, Hn.
Qed.

(** C9.  The field mapper of the dataset change event processor answers
    for the columns ["action"] and ["Name"] and for no other: for every
    event data object and every other column string it returns
    undefined.  That includes ["name"], the id of the only column
    [datasetActionFilterOptions] advertises.  With the filter service as
    the specification describes it, a filter holding a condition on such
    a column matches nothing. *)
Theorem fieldMapper_knows_action_and_Name_only :
  (forall data, fieldMapper data "action" = Some (EventData.action data))
  /\ (forall data, fieldMapper data "Name" = Some (EventData.name data))
  /\ (forall data column,
        column <> "action" -> column <> "Name" ->
        fieldMapper data column = None)
  /\ map ColumnDefinition.id datasetActionFilterOptions = ["name"]
  /\ (forall data, fieldMapper data "name" = None)
  /\ (forall data filter c,
        c ∈ filter ->
        FilterCondition.column c <> "action" ->
        FilterCondition.column c <> "Name" ->
        InMemoryFilterService.evaluateFilter data filter fieldMapper = false).
Proof.
  repeat apply conj; try reflexivity.
  - apply fieldMapper_other.
  - intros data filter c Hc Ha Hn.
    unfold InMemoryFilterService.evaluateFilter.
    apply not_true_is_false. intros Hall.
    rewrite forallb_forall in Hall.
    apply list_elem_of_In in Hc. specialize (Hall c Hc).
    unfold InMemoryFilterService.evaluateCondition in Hall.
    by rewrite (fieldMapper_other _ _ Ha Hn) in Hall.
Qed.

Lemma fieldMapper_knows_action_and_Name_only_witness :
  InMemoryFilterService.evaluateFilter (eventData Scenario.event)
    (TriggerConfiguration.filter Scenario.onName) fieldMapper = false.
Proof.
  apply (proj2 (proj2 (proj2 (proj2 (proj2
           fieldMapper_knows_action_and_Name_only))))
           (eventData Scenario.event)
           (TriggerConfiguration.filter Scenario.onName)
           {| FilterCondition.column := "name";
              FilterCondition.operator := OpEquals;
              FilterCondition.value := "eval-set" |}).
  - simpl. left.
  - simpl. discriminate.
  - simpl. discriminate.
Defined.

End Columns.

(* ================================================================== *)
(** ** Sample runs *)
(* ================================================================== *)

(** An update of ["eval-set"] with a misconfigured and a valid trigger:
    one execution record, then one job naming it. *)
Example healthy_run_records_then_queues :
  Run.outcome (datasetVersionProcessor Scenario.healthy Scenario.event)
              World.initial = Ok tt
  /\ Run.createdIds
       (World.effects
          (Run.after (datasetVersionProcessor Scenario.healthy Scenario.event)
                     World.initial)) = ["uuid-0"]
  /\ Run.jobExecutionId Scenario.queuedJob = Some (JStr "uuid-0").
Proof. repeat split. Qed.

(** A trigger filtering on the column id ["name"] never fires. *)
Example name_filter_never_fires :
  processTrigger Scenario.healthy Scenario.event Scenario.onName World.initial
  = (Ok tt,
     {| World.effects := [Logged LevelDebug (msgNoMatch Scenario.onName)];
        World.uuids := 0 |}).
Proof. reflexivity. Qed.

(** All violations of a submission are collected. *)
Example validateFormData_collects_all :
  WebhookActionHandler.validateFormData (engine := AsciiText.engine)
    FormSamples.defaultHeaderKeys
    (FormSamples.form ""
       [ FormSamples.blankRow; FormSamples.madePublic;
         FormSamples.upper; FormSamples.lower ])
  = {| ValidationResult.isValid := false;
       ValidationResult.errors :=
         Some [ "Webhook URL is required";
                "Header 2: Value cannot be empty";
                "Header 2: A value must be provided when making a header public";
                "Duplicate header names are not allowed (case-insensitive)" ] |}.
Proof. reflexivity. Qed.

(* ================================================================== *)
(** ** More on the validation of the webhook form *)
(* ================================================================== *)

Section ValidateMore.

Context {engine : Js.Strings}.

Import WebhookActionHandler Violation Validity.

Variable keys : list string.

Lemma truthy_true s : Js.truthy s = true <-> s <> "".
Proof. by destruct s. Qed.

Lemma truthy_false s : Js.truthy s = false <-> s = "".
Proof. by destruct s. Qed.

Lemma occurrences_count message errors :
  occurrences message errors = count (fun e => e = message) errors.
Proof. reflexivity. Qed.

Lemma occurrences_app message l1 l2 :
  occurrences message (l1 ++ l2)
  = occurrences message l1 + occurrences message l2.
Proof. unfold occurrences. by rewrite filter_app, length_app. Qed.

Lemma occurrences_none message l :
  message ∉ l -> occurrences message l = 0.
Proof.
  intros Hm. rewrite occurrences_count. apply count_none.
  intros e He ->. by apply Hm.
Qed.

Lemma occurrences_cons_ne message e l :
  e <> message -> occurrences message (e :: l) = occurrences message l.
Proof. intros Hne. unfold occurrences. by rewrite filter_cons_False. Qed.

Lemma occurrences_cons_eq message l :
  occurrences message (message :: l) = S (occurrences message l).
Proof. unfold occurrences. by rewrite filter_cons_True. Qed.

(** The checks of a header pass exactly when the row is a placeholder or
    a well-formed header. *)
Lemma checkHeader_nil_iff h i :
  checkHeader keys [] h i = [] <-> (inUse h -> headerOk keys h).
Proof.
  unfold checkHeader, push, inUse, headerOk, Js.includes.
  destruct (Js.trim (HeaderPair.name h)) as [|c n] eqn:En;
    destruct (Js.trim (HeaderPair.value h)) as [|c' v] eqn:Ev;
    destruct (HeaderPair.isSecret h), (HeaderPair.wasSecret h);
    simpl; try case_bool_decide; simpl;
    split; intros Hx; try discriminate Hx; try reflexivity;
    solve [ intuition congruence
          | exfalso; destruct Hx as (? & [?|[? ?]] & ?);
            [by left|..]; congruence ].
Qed.

Lemma forEachHeader_nil_iff headers : forall k,
  forEachHeader keys [] k headers = []
  <-> (forall h, h ∈ headers -> inUse h -> headerOk keys h).
Proof.
  induction headers as [|h rest IH]; intros k.
  - split; [by intros _ ? ?%elem_of_nil | done].
  - rewrite forEachHeader_cons. split.
    + intros [Hh Hrest]%app_eq_nil h' [->|Hin]%elem_of_cons.
      * by apply (checkHeader_nil_iff h k).
      * by apply (IH (S k)).
    + intros Hall. rewrite (proj2 (checkHeader_nil_iff h k)).
      * apply (IH (S k)). intros h' Hin. apply Hall. by right.
      * apply Hall. by left.
Qed.

(** X1.  A submission with a header list is valid exactly when the URL
    is not the empty string, every row that is in use is a well-formed
    header (non-blank name; a non-blank value, or secret and saved as
    secret; name not among the default header keys after trimming and
    lower-casing), and the folded names of the named rows are pairwise
    different. *)
Theorem validateFormData_valid_iff formData w headers :
  FormData.webhook formData = Some w ->
  WebhookForm.headers w = Some headers ->
  ValidationResult.isValid (validateFormData keys formData) = true
  <-> (WebhookForm.url w <> ""
       /\ (forall h, h ∈ headers -> inUse h -> headerOk keys h)
       /\ NoDup (headerNames headers)).
Proof.
  intros Hw Hh. unfold validateFormData. simpl.
  rewrite Nat.eqb_eq, length_zero_iff_nil.
  rewrite (collectErrors_headers keys _ _ _ Hw Hh).
  rewrite <- forEachHeader_nil_iff with (k := 0).
  split.
  - intros [Hurl [Hfor Hdup]%app_eq_nil]%app_eq_nil.
    repeat split; [|done|].
    + apply truthy_true. by destruct (Js.truthy (WebhookForm.url w)).
    + destruct (decide (NoDup (headerNames headers))) as [|Hn]; [done|].
      apply set_size_lt, Nat.ltb_lt in Hn. by rewrite Hn in Hdup.
  - intros (Hurl & Hfor & Hnd).
    apply truthy_true in Hurl. rewrite Hurl, Hfor.
    by rewrite (set_size_NoDup _ Hnd), Nat.ltb_irrefl.
Qed.

End ValidateMore.

Section ValidateMoreSamples.

#[local] Existing Instance AsciiText.engine.

Import WebhookActionHandler Violation Validity.

Lemma validateFormData_valid_iff_witness :
  ValidationResult.isValid
    (validateFormData FormSamples.defaultHeaderKeys
       (FormSamples.form "https://example.com/hook"
          [FormSamples.upper; FormSamples.blankRow])) = true.
Proof.
  apply (validateFormData_valid_iff FormSamples.defaultHeaderKeys
           (FormSamples.form "https://example.com/hook"
              [FormSamples.upper; FormSamples.blankRow])
           _ _ eq_refl eq_refl).
  split; [discriminate|]. split.
  - intros h Hin Huse.
    apply elem_of_cons in Hin as [->|Hin].
    + repeat split; [vm_compute; discriminate | left; vm_compute; discriminate|].
      vm_compute. intros Hk.
      repeat (apply elem_of_cons in Hk as [Hk|Hk]; [discriminate|]).
      by apply elem_of_nil in Hk.
    + apply list_elem_of_singleton in Hin as ->.
      destruct Huse as [Hu|Hu]; exfalso; apply Hu; reflexivity.
  - vm_compute. apply NoDup_singleton.
Defined.

End ValidateMoreSamples.

(* ------------------------------------------------------------------ *)
(** *** Which violation is reported for which header, and how often *)

Section Occurrences.

Context {engine : Js.Strings}.

Import WebhookActionHandler Violation Validity.

Variable keys : list string.

Lemma headerMsg_not_urlRequired i text : headerMsg i text <> msgUrlRequired.
Proof. discriminate. Qed.

Lemma headerMsg_not_msgDuplicate i text : headerMsg i text <> msgDuplicate.
Proof. discriminate. Qed.

(** The messages of the other headers never count for header [i]. *)
Lemma occurrences_forEachHeader headers : forall k n text,
  occurrences (headerMsg (k + n) text) (forEachHeader keys [] k headers)
  = match headers !! n with
    | Some h => occurrences (headerMsg (k + n) text)
                            (checkHeader keys [] h (k + n))
    | None => 0
    end.
Proof.
  induction headers as [|h0 rest IH]; intros k n text; [by destruct n|].
  rewrite forEachHeader_cons, occurrences_app.
  destruct n as [|n]; simpl.
  - rewrite Nat.add_0_r.
    rewrite (occurrences_none _ (forEachHeader _ _ _ _)); [lia|].
    intros (j & t & Hj & E)%forEachHeader_elems.
    apply headerMsg_inj in E as [-> _]. lia.
  - rewrite (occurrences_none _ (checkHeader _ _ _ _)).
    + replace (k + S n) with (S k + n) by lia. apply IH.
    + intros [t E]%checkHeader_elems.
      apply headerMsg_inj in E as [E _]. lia.
Qed.

Lemma occurrences_collectErrors formData w headers i text :
  FormData.webhook formData = Some w ->
  WebhookForm.headers w = Some headers ->
  occurrences (headerMsg i text) (collectErrors keys formData)
  = match headers !! i with
    | Some h => occurrences (headerMsg i text) (checkHeader keys [] h i)
    | None => 0
    end.
Proof.
  intros Hw Hh. rewrite (collectErrors_headers keys _ _ _ Hw Hh).
  rewrite !occurrences_app.
  rewrite (occurrences_none _ (if Js.truthy _ then _ else _)).
  - rewrite (occurrences_none _ (if (_ <? _)%nat then _ else _)).
    + rewrite Nat.add_0_r. apply (occurrences_forEachHeader headers 0 i).
    + destruct (_ <? _)%nat; [|by intros ?%elem_of_nil].
      intros E%list_elem_of_singleton. by apply headerMsg_not_msgDuplicate in E.
  - destruct (Js.truthy _); [by intros ?%elem_of_nil|].
    intros E%list_elem_of_singleton. by apply headerMsg_not_urlRequired in E.
Qed.

(** The four kinds of header message differ pairwise. *)
Lemma msgKinds_differ i name b :
  msgNameEmpty i <> msgValueEmpty i
  /\ msgNameEmpty i <> msgValueRequired i b
  /\ msgNameEmpty i <> msgReserved i name
  /\ msgValueEmpty i <> msgValueRequired i b
  /\ msgValueEmpty i <> msgReserved i name
  /\ msgValueRequired i b <> msgReserved i name.
Proof.
  rewrite msgNameEmpty_header, msgValueEmpty_header,
    msgValueRequired_header, msgReserved_header.
  repeat split; intros [_ E]%headerMsg_inj; destruct b; discriminate E.
Qed.

(** Count one kind of message in what one header's checks produce. *)
Ltac count_in_checks :=
  unfold checkHeader, push, Js.includes;
  repeat match goal with
         | |- context [Js.truthy ?s] => destruct (Js.truthy s) eqn:?
         | |- context [HeaderPair.isSecret ?h] =>
             destruct (HeaderPair.isSecret h) eqn:?
         | |- context [HeaderPair.wasSecret ?h] =>
             destruct (HeaderPair.wasSecret h) eqn:?
         | |- context [bool_decide ?P] => destruct (bool_decide P) eqn:?
         end; simpl.

Lemma occurrences_nameEmpty_checks h i :
  occurrences (msgNameEmpty i) (checkHeader keys [] h i)
  = if Js.truthy (Js.trim (HeaderPair.value h))
       && negb (Js.truthy (Js.trim (HeaderPair.name h)))
    then 1 else 0.
Proof.
  destruct (msgKinds_differ i (HeaderPair.name h) (HeaderPair.wasSecret h))
    as (N1 & N2 & N3 & _).
  count_in_checks;
    repeat first
      [ rewrite occurrences_cons_eq
      | rewrite (occurrences_cons_ne _ _ _ (not_eq_sym N1))
      | rewrite (occurrences_cons_ne _ _ _ (not_eq_sym N2))
      | rewrite (occurrences_cons_ne _ _ _ (not_eq_sym N3))
      ];
    try reflexivity.
Qed.

Lemma occurrences_valueEmpty_checks h i :
  occurrences (msgValueEmpty i) (checkHeader keys [] h i)
  = if Js.truthy (Js.trim (HeaderPair.name h))
       && negb (Js.truthy (Js.trim (HeaderPair.value h)))
       && negb (HeaderPair.isSecret h)
    then 1 else 0.
Proof.
  destruct (msgKinds_differ i (HeaderPair.name h) (HeaderPair.wasSecret h))
    as (N1 & _ & _ & N4 & N5 & _).
  count_in_checks;
    repeat first
      [ rewrite occurrences_cons_eq
      | rewrite (occurrences_cons_ne _ _ _ N1)
      | rewrite (occurrences_cons_ne _ _ _ (not_eq_sym N4))
      | rewrite (occurrences_cons_ne _ _ _ (not_eq_sym N5))
      ];
    try reflexivity.
Qed.

Lemma occurrences_reserved_checks h i :
  occurrences (msgReserved i (HeaderPair.name h)) (checkHeader keys [] h i)
  = if Js.truthy (Js.trim (HeaderPair.name h))
       && Js.includes keys (Js.toLowerCase (Js.trim (HeaderPair.name h)))
    then 1 else 0.
Proof.
  destruct (msgKinds_differ i (HeaderPair.name h) (HeaderPair.wasSecret h))
    as (_ & _ & N3 & _ & N5 & N6).
  count_in_checks;
    repeat first
      [ rewrite occurrences_cons_eq
      | rewrite (occurrences_cons_ne _ _ _ N3)
      | rewrite (occurrences_cons_ne _ _ _ N5)
      | rewrite (occurrences_cons_ne _ _ _ N6)
      ];
    try reflexivity.
Qed.

(** X2.  For the header at position [i] of a submitted list, "Name
    cannot be empty" is reported once if its name is blank and its value
    is not, and not at all otherwise; "Value cannot be empty" is reported
    once if its value is blank, its name is not and it is not marked
    secret, and not at all otherwise. *)
Theorem validateFormData_emptiness_reported_once formData w headers i h :
  FormData.webhook formData = Some w ->
  WebhookForm.headers w = Some headers ->
  headers !! i = Some h ->
  occurrences (msgNameEmpty i) (reported (validateFormData keys formData))
  = (if Js.truthy (Js.trim (HeaderPair.value h))
        && negb (Js.truthy (Js.trim (HeaderPair.name h)))
     then 1 else 0)
  /\ occurrences (msgValueEmpty i) (reported (validateFormData keys formData))
     = (if Js.truthy (Js.trim (HeaderPair.name h))
           && negb (Js.truthy (Js.trim (HeaderPair.value h)))
           && negb (HeaderPair.isSecret h)
        then 1 else 0).
Proof.
  intros Hw Hh Hi. rewrite reported_validateFormData.
  rewrite msgNameEmpty_header, msgValueEmpty_header.
  rewrite !(occurrences_collectErrors _ _ _ _ _ Hw Hh), Hi.
  rewrite <- msgNameEmpty_header, <- msgValueEmpty_header.
  split; [apply occurrences_nameEmpty_checks | apply occurrences_valueEmpty_checks].
Qed.

(** X3.  For the header at position [i], the violation that its name
    "is automatically added by Langfuse and cannot be customized" is
    reported once if the name, trimmed and lower-cased, is one of the
    default header keys, and not at all otherwise; the comparison is
    against the keys as they are spelled in the table. *)
Theorem validateFormData_reserved_reported_once formData w headers i h :
  FormData.webhook formData = Some w ->
  WebhookForm.headers w = Some headers ->
  headers !! i = Some h ->
  occurrences (msgReserved i (HeaderPair.name h))
              (reported (validateFormData keys formData))
  = if Js.truthy (Js.trim (HeaderPair.name h))
       && Js.includes keys (Js.toLowerCase (Js.trim (HeaderPair.name h)))
    then 1 else 0.
Proof.
  intros Hw Hh Hi. rewrite reported_validateFormData.
  rewrite msgReserved_header.
  rewrite (occurrences_collectErrors _ _ _ _ _ Hw Hh), Hi.
  rewrite <- msgReserved_header.
  apply occurrences_reserved_checks.
Qed.

End Occurrences.

Section OccurrencesSamples.

#[local] Existing Instance AsciiText.engine.

Import WebhookActionHandler Violation Validity.

Lemma validateFormData_emptiness_reported_once_witness :
  occurrences (msgNameEmpty 1)
    (reported (validateFormData FormSamples.defaultHeaderKeys
                 (FormSamples.form "https://example.com/hook"
                    [FormSamples.upper; FormSamples.madePublic]))) = 0
  /\ occurrences (msgValueEmpty 1)
       (reported (validateFormData FormSamples.defaultHeaderKeys
                    (FormSamples.form "https://example.com/hook"
                       [FormSamples.upper; FormSamples.madePublic]))) = 1.
Proof.
  exact (validateFormData_emptiness_reported_once
           FormSamples.defaultHeaderKeys
           (FormSamples.form "https://example.com/hook"
              [FormSamples.upper; FormSamples.madePublic])
           _ _ 1 FormSamples.madePublic eq_refl eq_refl eq_refl).
Defined.

Lemma validateFormData_reserved_reported_once_witness :
  occurrences (msgReserved 0 " Content-Type")
    (reported (validateFormData FormSamples.defaultHeaderKeys
                 (FormSamples.form "https://example.com/hook"
                    [MoreSamples.reservedRow]))) = 1.
Proof.
  exact (validateFormData_reserved_reported_once
           FormSamples.defaultHeaderKeys
           (FormSamples.form "https://example.com/hook" [MoreSamples.reservedRow])
           _ _ 0 MoreSamples.reservedRow eq_refl eq_refl eq_refl).
Defined.

End OccurrencesSamples.

(* ------------------------------------------------------------------ *)
(** *** The URL check, the size of the report, and what is not read *)

Section ReportShape.

Context {engine : Js.Strings}.

Import WebhookActionHandler Violation Validity.

Variable keys : list string.

Lemma collectErrors_no_webhook formData :
  FormData.webhook formData = None ->
  collectErrors keys formData = [msgUrlRequired].
Proof. intros Hw. unfold collectErrors. by rewrite Hw. Qed.

Lemma collectErrors_no_headers formData w :
  FormData.webhook formData = Some w ->
  WebhookForm.headers w = None ->
  collectErrors keys formData
  = if Js.truthy (WebhookForm.url w) then [] else [msgUrlRequired].
Proof.
  intros Hw Hh. unfold collectErrors, push. rewrite Hw, Hh.
  by destruct (Js.truthy _).
Qed.

Lemma urlRequired_not_in_headers k headers :
  msgUrlRequired ∉ forEachHeader keys [] k headers.
Proof.
  intros (j & text & _ & E)%forEachHeader_elems.
  symmetry in E. by apply headerMsg_not_urlRequired in E.
Qed.

(** X4.  "Webhook URL is required" is reported exactly when the form
    has no webhook part or its URL is the empty string, and then it is
    the first entry of the report and occurs once; a URL made of white
    space only is not objected to by this check. *)
Theorem validateFormData_url_required formData :
  match FormData.webhook formData with
  | None => reported (validateFormData keys formData) = [msgUrlRequired]
  | Some w =>
      if Js.truthy (WebhookForm.url w)
      then msgUrlRequired ∉ reported (validateFormData keys formData)
      else exists rest,
          reported (validateFormData keys formData) = msgUrlRequired :: rest
          /\ msgUrlRequired ∉ rest
  end.
Proof.
  rewrite reported_validateFormData.
  destruct (FormData.webhook formData) as [w|] eqn:Hw;
    [|by apply collectErrors_no_webhook].
  destruct (WebhookForm.headers w) as [headers|] eqn:Hh.
  - rewrite (collectErrors_headers keys _ _ _ Hw Hh).
    assert (msgUrlRequired ∉ forEachHeader keys [] 0 headers
              ++ (if (Js.set_size (headerNames headers)
                      <? length (headerNames headers))%nat
                  then [msgDuplicate] else [])) as Hrest.
    { intros [Hin|Hin]%elem_of_app.
      - by apply urlRequired_not_in_headers in Hin.
      - destruct (_ <? _)%nat; [|by apply elem_of_nil in Hin].
        by apply list_elem_of_singleton in Hin. }
    destruct (Js.truthy (WebhookForm.url w)); [exact Hrest|].
    eexists. split; [reflexivity|exact Hrest].
  - rewrite (collectErrors_no_headers _ _ Hw Hh).
    destruct (Js.truthy (WebhookForm.url w)).
    + by intros ?%elem_of_nil.
    + exists []. split; [done|]. by intros ?%elem_of_nil.
Qed.

Lemma checkHeader_length h i : length (checkHeader keys [] h i) <= 3.
Proof.
  unfold checkHeader, push.
  destruct (Js.truthy (Js.trim (HeaderPair.name h))),
           (Js.truthy (Js.trim (HeaderPair.value h)));
    simpl;
    repeat match goal with
           | |- context [if ?b then _ else _] => destruct b
           end; simpl; lia.
Qed.

Lemma forEachHeader_length headers : forall k,
  length (forEachHeader keys [] k headers) <= 3 * length headers.
Proof.
  induction headers as [|h rest IH]; intros k; [simpl; lia|].
  rewrite forEachHeader_cons, length_app, length_cons.
  pose proof (checkHeader_length h k). specialize (IH (S k)). lia.
Qed.

(** X5.  The report has at most three entries per submitted header, plus
    one for the URL and one for duplicates. *)
Theorem validateFormData_report_bounded formData w headers :
  FormData.webhook formData = Some w ->
  WebhookForm.headers w = Some headers ->
  length (reported (validateFormData keys formData)) <= 3 * length headers + 2.
Proof.
  intros Hw Hh.
  rewrite reported_validateFormData, (collectErrors_headers keys _ _ _ Hw Hh).
  rewrite !length_app.
  pose proof (forEachHeader_length headers 0).
  destruct (Js.truthy _), (_ <? _)%nat; simpl; lia.
Qed.

Lemma checkHeader_essential errors h h' i :
  HeaderPair.name h = HeaderPair.name h' ->
  HeaderPair.value h = HeaderPair.value h' ->
  HeaderPair.isSecret h = HeaderPair.isSecret h' ->
  HeaderPair.wasSecret h = HeaderPair.wasSecret h' ->
  checkHeader keys errors h i = checkHeader keys errors h' i.
Proof.
  intros Hn Hv Hs Hw. unfold checkHeader. by rewrite Hn, Hv, Hs, Hw.
Qed.

Lemma forEachHeader_essential headers : forall headers' errors k,
  map essential headers = map essential headers' ->
  forEachHeader keys errors k headers = forEachHeader keys errors k headers'.
Proof.
  induction headers as [|h rest IH]; intros [|h' rest'] errors k E;
    try discriminate E; [done|].
  injection E as Hn Hv Hs Hw Erest. simpl.
  rewrite (checkHeader_essential errors h h' k Hn Hv Hs Hw). by apply IH.
Qed.

Lemma headerNames_essential headers : forall headers',
  map essential headers = map essential headers' ->
  headerNames headers = headerNames headers'.
Proof.
  unfold headerNames.
  induction headers as [|h rest IH]; intros [|h' rest'] E;
    try discriminate E; [done|].
  injection E as Hn _ _ _ Erest. specialize (IH rest' Erest).
  rewrite !filter_cons, Hn.
  destruct (decide _); simpl; [|exact IH].
  rewrite Hn. f_equal. exact IH.
Qed.

(** X6.  The verdict and the report depend on the URL and on the name,
    the value and the two secret flags of each header only: two
    submissions that agree on these get the same result, whatever their
    display values, API versions and event sources. *)
Theorem validateFormData_ignores_display formData formData' w w' :
  FormData.webhook formData = Some w ->
  FormData.webhook formData' = Some w' ->
  WebhookForm.url w = WebhookForm.url w' ->
  map essential <$> WebhookForm.headers w
    = map essential <$> WebhookForm.headers w' ->
  validateFormData keys formData = validateFormData keys formData'.
Proof.
  intros Hw Hw' Hurl Hh. unfold validateFormData.
  assert (collectErrors keys formData = collectErrors keys formData') as ->;
    [|done].
  unfold collectErrors. rewrite Hw, Hw', Hurl.
  destruct (WebhookForm.headers w) as [hs|],
           (WebhookForm.headers w') as [hs'|];
    try discriminate Hh; [|done].
  injection Hh as Hh.
  by rewrite (forEachHeader_essential hs hs' _ 0 Hh),
             (headerNames_essential hs hs' Hh).
Qed.

End ReportShape.

Section ReportShapeSamples.

#[local] Existing Instance AsciiText.engine.

Import WebhookActionHandler Violation Validity.

Lemma validateFormData_report_bounded_witness :
  length (reported (validateFormData FormSamples.defaultHeaderKeys
                      (FormSamples.form ""
                         [FormSamples.madePublic; FormSamples.upper])))
  <= 3 * 2 + 2.
Proof.
  exact (validateFormData_report_bounded FormSamples.defaultHeaderKeys
           (FormSamples.form "" [FormSamples.madePublic; FormSamples.upper])
           _ _ eq_refl eq_refl).
Defined.

Lemma validateFormData_ignores_display_witness :
  validateFormData FormSamples.defaultHeaderKeys
    (FormSamples.form "" [FormSamples.madePublic])
  = validateFormData FormSamples.defaultHeaderKeys MoreSamples.unmaskedForm.
Proof.
  apply (validateFormData_ignores_display FormSamples.defaultHeaderKeys
           (FormSamples.form "" [FormSamples.madePublic])
           MoreSamples.unmaskedForm _ _ eq_refl eq_refl);
    reflexivity.
Defined.

End ReportShapeSamples.

(* ================================================================== *)
(** ** Loading a saved configuration into the form *)
(* ================================================================== *)

Section Loading.

Context {engine : Js.Strings}.

Import WebhookActionHandler Violation Validity WebhookActionDefaults.

Lemma parseHeader_essential e1 e2 :
  sameUpToSecrets e1 e2 ->
  essential (parseHeader e1) = essential (parseHeader e2).
Proof.
  destruct e1 as [n1 [s1 v1]], e2 as [n2 [s2 v2]].
  unfold sameUpToSecrets, essential. simpl.
  intros (-> & -> & Hv). destruct s2; [done|]. by rewrite Hv.
Qed.

(** X7.  The editable fields of the header pairs [parseHeaders] returns
    (name, value and both secret flags) do not depend on the stored
    values of the secret headers: two webhook configurations whose
    header entries agree on names, secret flags and the values of the
    headers that are not secret yield the same editable fields. *)
Theorem parseHeaders_independent_of_secret_values
        a1 a2 action1 action2 url1 url2 headers1 headers2 api1 api2 :
  AutomationDomain.action a1 = Some action1 ->
  ActionDomain.type action1 = WEBHOOK ->
  ActionDomain.config action1 = Some (WebhookConfig url1 (Some headers1) api1) ->
  AutomationDomain.action a2 = Some action2 ->
  ActionDomain.type action2 = WEBHOOK ->
  ActionDomain.config action2 = Some (WebhookConfig url2 (Some headers2) api2) ->
  Forall2 sameUpToSecrets headers1 headers2 ->
  map essential (parseHeaders (Some a1))
  = map essential (parseHeaders (Some a2)).
Proof.
  intros A1 T1 C1 A2 T2 C2 Hsame.
  rewrite (parseHeaders_webhook _ _ _ _ _ A1 T1 C1),
          (parseHeaders_webhook _ _ _ _ _ A2 T2 C2).
  clear A1 T1 C1 A2 T2 C2.
  induction Hsame as [|e1 e2 l1 l2 He _ IH]; [done|].
  simpl. by rewrite (parseHeader_essential e1 e2 He), IH.
Qed.

(** Every pair [parseHeaders] returns has equal secret flags. *)
Lemma parseHeaders_flags_agree automation h :
  h ∈ parseHeaders automation ->
  HeaderPair.wasSecret h = HeaderPair.isSecret h.
Proof. by intros [[name obj] ->]%parseHeaders_elems. Qed.

Section WithKeys.

Variable keys : list string.

Lemma checkHeader_no_transition h j i e :
  HeaderPair.wasSecret h = HeaderPair.isSecret h ->
  e ∈ checkHeader keys [] h j -> ~ valueRequired i e.
Proof.
  intros Hflags. unfold checkHeader, push. rewrite Hflags, Bool.eqb_reflx.
  simpl.
  repeat match goal with
         | |- context [if ?b then _ else _] => destruct b
         end; simpl; intros He;
    repeat match goal with
           | H : _ ∈ _ :: _ |- _ => apply elem_of_cons in H as [->|H]
           | H : _ ∈ [] |- _ => by apply elem_of_nil in H
           end;
    rewrite ?msgNameEmpty_header, ?msgValueEmpty_header, ?msgReserved_header;
    intros [_ [b Hb]]%valueRequired_headerMsg; by destruct b.
Qed.

Lemma forEachHeader_no_transition headers : forall k i e,
  (forall h, h ∈ headers -> HeaderPair.wasSecret h = HeaderPair.isSecret h) ->
  e ∈ forEachHeader keys [] k headers -> ~ valueRequired i e.
Proof.
  induction headers as [|h rest IH]; intros k i e Hall He.
  - by apply elem_of_nil in He.
  - rewrite forEachHeader_cons in He. apply elem_of_app in He as [He|He].
    + apply (checkHeader_no_transition h k i e); [|done]. apply Hall. by left.
    + apply (IH (S k) i e); [|done]. intros h' Hin. apply Hall. by right.
Qed.

(** X8.  Validating the headers [parseHeaders] produced for a saved
    automation, under any URL, never reports a "value must be provided"
    violation, for any position: a freshly loaded form contains no
    secret/public transition. *)
Theorem loaded_headers_have_no_transition automation formData w i :
  FormData.webhook formData = Some w ->
  WebhookForm.headers w = Some (parseHeaders automation) ->
  count (valueRequired i) (reported (validateFormData keys formData)) = 0.
Proof.
  intros Hw Hh. rewrite reported_validateFormData.
  rewrite (collectErrors_headers keys _ _ _ Hw Hh).
  apply count_none. intros e He.
  apply elem_of_app in He as [He|He];
    [|apply elem_of_app in He as [He|He]].
  - destruct (Js.truthy _); [by apply elem_of_nil in He|].
    apply list_elem_of_singleton in He as ->.
    apply urlRequired_not_valueRequired.
  - apply (forEachHeader_no_transition _ 0 i e) in He; [done|].
    apply parseHeaders_flags_agree.
  - destruct (_ <? _)%nat; [|by apply elem_of_nil in He].
    apply list_elem_of_singleton in He as ->.
    apply duplicate_not_valueRequired.
Qed.

End WithKeys.

Variable eventSourceValue : TriggerEventSource -> string.
Variable inheritedKey : string -> option string.

Lemma lookup_unmapped source :
  unmapped eventSourceValue inheritedKey source ->
  EVENT_SOURCE_TO_API_VERSION_KEY eventSourceValue inheritedKey source
  = Undefined.
Proof.
  intros (_ & Hp & Hd & Hi). unfold EVENT_SOURCE_TO_API_VERSION_KEY.
  apply String.eqb_neq in Hp, Hd. by rewrite Hp, Hd, Hi.
Qed.

Lemma lookup_prompt :
  EVENT_SOURCE_TO_API_VERSION_KEY eventSourceValue inheritedKey
    (eventSourceValue EventSourcePrompt)
  = Own "prompt".
Proof.
  unfold EVENT_SOURCE_TO_API_VERSION_KEY. by rewrite String.eqb_refl.
Qed.

Lemma lookup_own source value :
  EVENT_SOURCE_TO_API_VERSION_KEY eventSourceValue inheritedKey source
  = Own value ->
  (value = "prompt" /\ source = eventSourceValue EventSourcePrompt)
  \/ (value = "dataset" /\ source = eventSourceValue EventSourceDataset
      /\ source <> eventSourceValue EventSourcePrompt).
Proof.
  unfold EVENT_SOURCE_TO_API_VERSION_KEY.
  destruct (String.eqb_spec source (eventSourceValue EventSourcePrompt));
    [intros [= <-]; by left|].
  destruct (String.eqb_spec source (eventSourceValue EventSourceDataset));
    [intros [= <-]; by right|].
  by destruct (inheritedKey source).
Qed.

Lemma lookup_inherited source key :
  EVENT_SOURCE_TO_API_VERSION_KEY eventSourceValue inheritedKey source
  = Inherited key ->
  source <> eventSourceValue EventSourcePrompt
  /\ source <> eventSourceValue EventSourceDataset
  /\ inheritedKey source = Some key.
Proof.
  unfold EVENT_SOURCE_TO_API_VERSION_KEY.
  destruct (String.eqb_spec source (eventSourceValue EventSourcePrompt));
    [done|].
  destruct (String.eqb_spec source (eventSourceValue EventSourceDataset));
    [done|].
  destruct (inheritedKey source); [by intros [= <-]|done].
Qed.

Lemma lookup_undefined source :
  EVENT_SOURCE_TO_API_VERSION_KEY eventSourceValue inheritedKey source
  = Undefined ->
  source <> eventSourceValue EventSourcePrompt
  /\ source <> eventSourceValue EventSourceDataset
  /\ inheritedKey source = None.
Proof.
  unfold EVENT_SOURCE_TO_API_VERSION_KEY.
  destruct (String.eqb_spec source (eventSourceValue EventSourcePrompt));
    [done|].
  destruct (String.eqb_spec source (eventSourceValue EventSourceDataset));
    [done|].
  by destruct (inheritedKey source).
Qed.

(** X9.  [getDefaultValues] throws exactly for a saved automation that
    has no stored API version and whose trigger's event source is a
    non-empty string that is neither a key of
    EVENT_SOURCE_TO_API_VERSION_KEY nor the name of an inherited member;
    the error is "No apiVersion mapping found for eventSource: ..." with
    that string.  In every other case it returns a form with the headers
    of [parseHeaders]; the form's API version is the stored one when there
    is one, [{ prompt: "v1" }] when the automation or its event source is
    missing, empty or the prompt source, and [{ dataset: "v1" }] when it
    is the dataset source. *)
Theorem getDefaultValues_throws_only_on_unmapped_source automation :
  (forall source,
      storedApiVersion automation = None ->
      automation ≫= AutomationDomain.triggerEventSource = Some source ->
      unmapped eventSourceValue inheritedKey source ->
      getDefaultValues eventSourceValue inheritedKey automation
      = Throw {| Error.name := "Error";
                 Error.message :=
                   "No apiVersion mapping found for eventSource: "
                     +:+ source |})
  /\ (forall e,
        getDefaultValues eventSourceValue inheritedKey automation = Throw e ->
        storedApiVersion automation = None
        /\ exists source,
             automation ≫= AutomationDomain.triggerEventSource = Some source
             /\ unmapped eventSourceValue inheritedKey source)
  /\ (forall formData,
        getDefaultValues eventSourceValue inheritedKey automation = Ok formData ->
        exists w,
          formData = {| FormData.webhook := Some w;
                        FormData.eventSource := None |}
          /\ WebhookForm.headers w = Some (parseHeaders automation)
          /\ (forall apiVersion,
                storedApiVersion automation = Some apiVersion ->
                WebhookForm.apiVersion w = apiVersion)
          /\ (storedApiVersion automation = None ->
              match automation ≫= AutomationDomain.triggerEventSource with
              | None => WebhookForm.apiVersion w = [("prompt", "v1")]
              | Some source =>
                  (source = "" \/ source = eventSourceValue EventSourcePrompt ->
                   WebhookForm.apiVersion w = [("prompt", "v1")])
                  /\ (source <> "" ->
                      source = eventSourceValue EventSourceDataset ->
                      source <> eventSourceValue EventSourcePrompt ->
                      WebhookForm.apiVersion w = [("dataset", "v1")])
              end)).
Proof.
  unfold getDefaultValues.
  destruct (storedApiVersion automation) as [v|] eqn:Hv.
  { split; [done|]. split; [done|].
    intros formData [= <-]. eexists. split; [reflexivity|].
    split; [done|]. split; [by intros ? [= <-]|done]. }
  unfold eventSourceOrPrompt.
  destruct (automation ≫= AutomationDomain.triggerEventSource)
    as [[|c source]|] eqn:Hs; cbn [Js.truthy].
  - (* the empty string is falsy *)
    rewrite lookup_prompt. cbn.
    split; [by intros source _ [= <-] []|].
    split; [done|].
    intros formData [= <-]. eexists. split; [reflexivity|].
    split; [done|]. split; [done|]. intros _. split; [done|]. by intros [].
  - set (src := String c source).
    destruct (EVENT_SOURCE_TO_API_VERSION_KEY eventSourceValue inheritedKey src)
      as [value|key|] eqn:Hl.
    + apply lookup_own in Hl as [[-> Hsrc]|(-> & Hsrc & Hne)]; cbn.
      * split; [intros s0 _ [= <-] (_ & Hp & _); by destruct Hp|].
        split; [done|].
        intros formData [= <-]. eexists. split; [reflexivity|].
        split; [done|]. split; [done|]. intros _. split; [done|].
        intros _ _ Hp. by destruct Hp.
      * split; [intros s0 _ [= <-] (_ & _ & Hd & _); by destruct Hd|].
        split; [done|].
        intros formData [= <-]. eexists. split; [reflexivity|].
        split; [done|]. split; [done|]. intros _. split; [|done].
        intros [?|?]; [done|]. by destruct Hne.
    + cbn.
      split.
      { intros s0 _ [= <-] Hu. apply lookup_unmapped in Hu.
        fold src in Hu. congruence. }
      split; [done|].
      intros formData [= <-]. eexists. split; [reflexivity|].
      split; [done|]. split; [done|]. intros _.
      apply lookup_inherited in Hl as (Hp & Hd & _).
      split; [intros [?|?]; [done|by destruct Hp]|].
      intros _ ? _. by destruct Hd.
    + cbn. apply lookup_undefined in Hl as (Hp & Hd & Hi).
      split; [by intros s0 _ [= <-] _|].
      split; [|done].
      intros e _. split; [done|]. exists src. by repeat split.
  - rewrite lookup_prompt. cbn.
    split; [done|]. split; [done|].
    intros formData [= <-]. eexists. split; [reflexivity|].
    split; [done|]. by split.
Qed.

End Loading.

Section LoadingSamples.

#[local] Existing Instance AsciiText.engine.

Import WebhookActionHandler Violation Validity WebhookActionDefaults.

Lemma parseHeaders_independent_of_secret_values_witness :
  map essential (parseHeaders (Some FormSamples.automation))
  = map essential (parseHeaders (Some MoreSamples.otherAutomation)).
Proof.
  apply (parseHeaders_independent_of_secret_values
           FormSamples.automation MoreSamples.otherAutomation
           _ _ _ _ _ _ _ _ eq_refl eq_refl eq_refl eq_refl eq_refl eq_refl).
  repeat constructor; simpl; done.
Defined.

Lemma loaded_headers_have_no_transition_witness :
  count (valueRequired 1)
        (reported (validateFormData FormSamples.defaultHeaderKeys
                     (FormSamples.form ""
                        (parseHeaders (Some FormSamples.automation))))) = 0.
Proof.
  exact (loaded_headers_have_no_transition FormSamples.defaultHeaderKeys
           (Some FormSamples.automation)
           (FormSamples.form "" (parseHeaders (Some FormSamples.automation)))
           _ 1 eq_refl eq_refl).
Defined.

Lemma getDefaultValues_throws_only_on_unmapped_source_witness :
  getDefaultValues MoreSamples.eventSourceValue MoreSamples.inheritedKey
    (Some MoreSamples.traceAutomation)
  = Throw {| Error.name := "Error";
             Error.message :=
               "No apiVersion mapping found for eventSource: trace" |}.
Proof.
  apply (proj1 (getDefaultValues_throws_only_on_unmapped_source
                  MoreSamples.eventSourceValue MoreSamples.inheritedKey
                  (Some MoreSamples.traceAutomation))
               "trace" eq_refl eq_refl).
  repeat split; discriminate.
Defined.

End LoadingSamples.

(* ================================================================== *)
(** ** The paths of one trigger through the processor *)
(* ================================================================== *)

Section TriggerPaths.

Import Run.

Variable env : Env.t.
Variable event : DatasetChangeEvent.t.

Abbreviation projectId := (DatasetChangeEvent.projectId event).

Lemma triggerIteration_no_match trigger w :
  Env.evaluateFilter env (eventData event)
    (TriggerConfiguration.filter trigger) fieldMapper = Ok false ->
  triggerIteration env event trigger w
  = (Ok tt, World.emit (Logged LevelDebug (msgNoMatch trigger)) w).
Proof.
  intros Hno. unfold triggerIteration, processTrigger. unfold_run.
  by rewrite Hno.
Qed.

Lemma forTriggers_no_match triggers : forall w,
  (forall t, t ∈ triggers ->
             Env.evaluateFilter env (eventData event)
               (TriggerConfiguration.filter t) fieldMapper = Ok false) ->
  forTriggers env event triggers w
  = (Ok tt,
     {| World.effects :=
          World.effects w
            ++ map (fun t => Logged LevelDebug (msgNoMatch t)) triggers;
        World.uuids := World.uuids w |}).
Proof.
  induction triggers as [|t rest IH]; intros [effects n] Hall.
  - simpl. by rewrite app_nil_r.
  - rewrite forTriggers_cons. unfold after.
    rewrite triggerIteration_no_match by (apply Hall; by left).
    rewrite IH by (intros t' Hin; apply Hall; by right).
    unfold World.emit. simpl. by rewrite <- app_assoc.
Qed.

(** X10.  When the filter service answers "no match" for every loaded
    trigger, the run returns normally and leaves exactly the start line,
    the trigger lookup, the count line and one "doesn't match" line per
    trigger, in the order of the list: no action or automation is looked
    up, no identifier is drawn, no execution record is created and no
    webhook job is queued. *)
Theorem no_trigger_matches_nothing_dispatched triggers w :
  Env.getTriggerConfigurations env
    (World.emit (Logged LevelInfo (msgProcessing event)) w)
    projectId EventSourceDataset ACTIVE = Ok triggers ->
  (forall t, t ∈ triggers ->
             Env.evaluateFilter env (eventData event)
               (TriggerConfiguration.filter t) fieldMapper = Ok false) ->
  datasetVersionProcessor env event w
  = (Ok tt,
     {| World.effects :=
          World.effects w
            ++ [ Logged LevelInfo (msgProcessing event);
                 Queried (QTriggerConfigurations projectId
                                                 EventSourceDataset ACTIVE);
                 Logged LevelDebug
                   ("Found " +:+ Js.show_nat (length triggers)
                      +:+ " active dataset triggers") ]
            ++ map (fun t => Logged LevelDebug (msgNoMatch t)) triggers;
        World.uuids := World.uuids w |}).
Proof.
  intros Hq Hall. unfold datasetVersionProcessor. unfold_run. cbn.
  rewrite Hq. cbn. rewrite (forTriggers_no_match triggers _ Hall). cbn.
  by rewrite <- !app_assoc.
Qed.

Section OneAction.

Variable trigger : TriggerConfiguration.t.
Variable actionId : string.

Hypothesis matches :
  Env.evaluateFilter env (eventData event)
    (TriggerConfiguration.filter trigger) fieldMapper = Ok true.
Hypothesis oneAction : TriggerConfiguration.actionIds trigger = [actionId].

Abbreviation triggerId := (TriggerConfiguration.id trigger).
Abbreviation datasetData := (DatasetChangeEvent.dataset event).
Abbreviation action :=
  (TriggerEventAction_str (DatasetChangeEvent.action event)).

(** X11.  A matched trigger whose action no longer exists: the
    processor looks the action up, logs "Action ... not found" at error
    level and goes on; nothing is thrown inside the iteration, no
    automation is looked up, no record is created and no job is queued. *)
Theorem stale_action_is_logged_and_skipped w :
  (forall w', Env.getActionById env w' projectId actionId = Ok None) ->
  triggerIteration env event trigger w
  = (Ok tt,
     {| World.effects :=
          World.effects w
            ++ [ Logged LevelDebug (msgMatches trigger);
                 Queried (QActionById projectId actionId);
                 Logged LevelError ("Action " +:+ actionId +:+ " not found") ];
        World.uuids := World.uuids w |}).
Proof.
  intros Hnone.
  unfold triggerIteration, processTrigger, runAction. unfold_run.
  rewrite matches, oneAction. cbn. rewrite Hnone. cbn.
  by rewrite <- !app_assoc.
Qed.

Variable actionConfig : ActionDomain.t.
Hypothesis actionFound :
  forall w', Env.getActionById env w' projectId actionId = Ok (Some actionConfig).

(** X12.  A matched trigger whose action has no automation, or more
    than one: the iteration throws "Expected 1 automation for action
    ..., got n" before any identifier is drawn; the error is caught and
    logged at error level, no record is created and no job is queued. *)
Theorem automation_count_error_is_caught automations w :
  (forall w', Env.getAutomations env w' projectId actionId = Ok automations) ->
  length automations <> 1 ->
  triggerIteration env event trigger w
  = (Ok tt,
     {| World.effects :=
          World.effects w
            ++ [ Logged LevelDebug (msgMatches trigger);
                 Queried (QActionById projectId actionId);
                 Queried (QAutomations projectId actionId);
                 Logged LevelError
                   (msgErrorProcessingTrigger event trigger
                      (InternalServerError
                         ("Expected 1 automation for action " +:+ actionId
                            +:+ ", got "
                            +:+ Js.show_nat (length automations)))) ];
        World.uuids := World.uuids w |}).
Proof.
  intros Hauto Hlen.
  unfold triggerIteration, processTrigger, runAction,
    enqueueAutomationAction. unfold_run.
  rewrite matches, oneAction. cbn. rewrite actionFound. cbn.
  rewrite Hauto.
  destruct automations as [|a [|b rest]]; [|done|]; cbn;
    by rewrite <- !app_assoc.
Qed.

Variable automation : AutomationDomain.t.
Hypothesis oneAutomation :
  forall w', Env.getAutomations env w' projectId actionId = Ok [automation].
Hypothesis created :
  forall w' data, Env.createAutomationExecution env w' data = Ok tt.

(** X13.  Without a queue instance the optional call does nothing: the
    pending execution record is created and logged, and the iteration
    returns normally with no job queued and no line at error level. *)
Theorem no_queue_instance_leaves_record_without_job w :
  (forall w', Env.webhookQueueInstance env w' = false) ->
  triggerIteration env event trigger w
  = (Ok tt,
     {| World.effects :=
          World.effects w
            ++ Trace.recordedPrefix env event trigger actionId automation w;
        World.uuids := S (World.uuids w) |}).
Proof.
  intros Hnone.
  unfold triggerIteration, processTrigger, runAction,
    enqueueAutomationAction, recordAndEnqueue, Trace.recordedPrefix,
    Trace.createdLine.
  unfold_run.
  rewrite matches, oneAction. cbn. rewrite actionFound. cbn.
  rewrite oneAutomation. cbn. rewrite created. cbn. rewrite Hnone. cbn.
  by rewrite <- !app_assoc.
Qed.

Hypothesis instance : forall w', Env.webhookQueueInstance env w' = true.

Variables metadata inputSchema expectedOutputSchema : JValue.
Hypothesis parsedMetadata :
  Env.parseJsonNullable env (DatasetDomain.metadata datasetData)
  = Ok metadata.
Hypothesis parsedInputSchema :
  Env.parseJsonNullable env (DatasetDomain.inputSchema datasetData)
  = Ok inputSchema.
Hypothesis parsedExpectedOutputSchema :
  Env.parseJsonNullable env (DatasetDomain.expectedOutputSchema datasetData)
  = Ok expectedOutputSchema.

(** X14.  When every collaborator succeeds, a matched trigger with one
    action and one automation yields exactly one pending execution record
    and then exactly one webhook job: the record carries the first
    identifier drawn, the job the second, and the job names the record's
    identifier, its automation and the event's project, action kind and
    normalised dataset. *)
Theorem matched_trigger_records_and_queues_once w :
  (forall w' job, Env.webhookQueueAdd env w' job = Ok tt) ->
  exists timestamp,
    triggerIteration env event trigger w
    = (Ok tt,
       {| World.effects :=
            World.effects w
              ++ Trace.recordedPrefix env event trigger actionId automation w
              ++ [WebhookJobAdded
                    (Trace.builtJob env event automation metadata inputSchema
                       expectedOutputSchema w timestamp)];
          World.uuids := S (S (World.uuids w)) |}).
Proof.
  intros Hadd. eexists.
  unfold triggerIteration, processTrigger, runAction,
    enqueueAutomationAction, recordAndEnqueue, Trace.recordedPrefix,
    Trace.createdLine, Trace.builtJob.
  unfold_run.
  rewrite matches, oneAction. cbn. rewrite actionFound. cbn.
  rewrite oneAutomation. cbn. rewrite created. cbn. rewrite instance. cbn.
  rewrite parsedMetadata, parsedInputSchema, parsedExpectedOutputSchema.
  cbn. rewrite Hadd. cbn.
  rewrite <- !app_assoc. reflexivity.
Qed.

(** X15.  When the queue rejects the job, the pending execution record
    stays behind without a job: the rejection is caught by the iteration
    and logged at error level, and the iteration returns normally. *)
Theorem rejected_job_leaves_record_and_error_line w e :
  (forall w' job, Env.webhookQueueAdd env w' job = Throw e) ->
  triggerIteration env event trigger w
  = (Ok tt,
     {| World.effects :=
          World.effects w
            ++ Trace.recordedPrefix env event trigger actionId automation w
            ++ [Logged LevelError (msgErrorProcessingTrigger event trigger e)];
        World.uuids := S (S (World.uuids w)) |}).
Proof.
  intros Hadd.
  unfold triggerIteration, processTrigger, runAction,
    enqueueAutomationAction, recordAndEnqueue, Trace.recordedPrefix,
    Trace.createdLine.
  unfold_run.
  rewrite matches, oneAction. cbn. rewrite actionFound. cbn.
  rewrite oneAutomation. cbn. rewrite created. cbn. rewrite instance. cbn.
  rewrite parsedMetadata, parsedInputSchema, parsedExpectedOutputSchema.
  cbn. rewrite Hadd. cbn.
  by rewrite <- !app_assoc.
Qed.

End OneAction.

End TriggerPaths.

Section TriggerPathsSamples.

Lemma no_trigger_matches_nothing_dispatched_witness :
  datasetVersionProcessor MoreSamples.filtered MoreSamples.deletedEvent
    World.initial
  = (Ok tt,
     {| World.effects :=
          [ Logged LevelInfo (msgProcessing MoreSamples.deletedEvent);
            Queried (QTriggerConfigurations "project-1" EventSourceDataset
                                            ACTIVE);
            Logged LevelDebug "Found 2 active dataset triggers";
            Logged LevelDebug (msgNoMatch Scenario.onUpdate);
            Logged LevelDebug (msgNoMatch Scenario.onName) ];
        World.uuids := 0 |}).
Proof.
  apply (no_trigger_matches_nothing_dispatched MoreSamples.filtered
           MoreSamples.deletedEvent [Scenario.onUpdate; Scenario.onName]
           World.initial eq_refl).
  intros t Ht.
  apply elem_of_cons in Ht as [->|Ht]; [reflexivity|].
  apply list_elem_of_singleton in Ht as ->. reflexivity.
Defined.

Lemma stale_action_is_logged_and_skipped_witness :
  triggerIteration MoreSamples.actionsGone Scenario.event Scenario.onUpdate
    World.initial
  = (Ok tt,
     {| World.effects :=
          [ Logged LevelDebug (msgMatches Scenario.onUpdate);
            Queried (QActionById "project-1" "action-1");
            Logged LevelError "Action action-1 not found" ];
        World.uuids := 0 |}).
Proof.
  apply (stale_action_is_logged_and_skipped MoreSamples.actionsGone
           Scenario.event Scenario.onUpdate "action-1" eq_refl eq_refl
           World.initial).
  intros w'. reflexivity.
Defined.

Lemma automation_count_error_is_caught_witness :
  triggerIteration MoreSamples.noAutomation Scenario.event Scenario.onUpdate
    World.initial
  = (Ok tt,
     {| World.effects :=
          [ Logged LevelDebug (msgMatches Scenario.onUpdate);
            Queried (QActionById "project-1" "action-1");
            Queried (QAutomations "project-1" "action-1");
            Logged LevelError
              (msgErrorProcessingTrigger Scenario.event Scenario.onUpdate
                 (InternalServerError
                    "Expected 1 automation for action action-1, got 0")) ];
        World.uuids := 0 |}).
Proof.
  apply (automation_count_error_is_caught MoreSamples.noAutomation
           Scenario.event Scenario.onUpdate "action-1" eq_refl eq_refl
           MoreSamples.someAction (fun _ => eq_refl) [] World.initial
           (fun _ => eq_refl)).
  simpl. lia.
Defined.

Lemma no_queue_instance_leaves_record_without_job_witness :
  triggerIteration MoreSamples.noQueue Scenario.event Scenario.onUpdate
    World.initial
  = (Ok tt,
     {| World.effects :=
          Trace.recordedPrefix MoreSamples.noQueue Scenario.event
            Scenario.onUpdate "action-1" FormSamples.automation World.initial;
        World.uuids := 1 |}).
Proof.
  apply (no_queue_instance_leaves_record_without_job MoreSamples.noQueue
           Scenario.event Scenario.onUpdate "action-1" eq_refl eq_refl
           MoreSamples.someAction (fun _ => eq_refl)
           FormSamples.automation (fun _ => eq_refl)
           (fun _ _ => eq_refl) World.initial).
  intros w'. reflexivity.
Defined.

Lemma matched_trigger_records_and_queues_once_witness :
  exists timestamp,
    triggerIteration Scenario.healthy Scenario.event Scenario.onUpdate
      World.initial
    = (Ok tt,
       {| World.effects :=
            Trace.recordedPrefix Scenario.healthy Scenario.event
              Scenario.onUpdate "action-1" FormSamples.automation
              World.initial
              ++ [WebhookJobAdded
                    (Trace.builtJob Scenario.healthy Scenario.event
                       FormSamples.automation JNull JNull JNull
                       World.initial timestamp)];
          World.uuids := 2 |}).
Proof.
  apply (matched_trigger_records_and_queues_once Scenario.healthy
           Scenario.event Scenario.onUpdate "action-1" eq_refl eq_refl
           {| ActionDomain.id := "action-1"; ActionDomain.type := WEBHOOK;
              ActionDomain.config := None |}
           (fun _ => eq_refl)
           FormSamples.automation (fun _ => eq_refl)
           (fun _ _ => eq_refl) (fun _ => eq_refl)
           JNull JNull JNull eq_refl eq_refl eq_refl World.initial).
  intros w' job. reflexivity.
Defined.

Lemma rejected_job_leaves_record_and_error_line_witness :
  triggerIteration Scenario.queuesDown Scenario.event Scenario.onUpdate
    World.initial
  = (Ok tt,
     {| World.effects :=
          Trace.recordedPrefix Scenario.queuesDown Scenario.event
            Scenario.onUpdate "action-1" FormSamples.automation World.initial
            ++ [Logged LevelError
                  (msgErrorProcessingTrigger Scenario.event Scenario.onUpdate
                     Scenario.unavailable)];
        World.uuids := 2 |}).
Proof.
  apply (rejected_job_leaves_record_and_error_line Scenario.queuesDown
           Scenario.event Scenario.onUpdate "action-1" eq_refl eq_refl
           {| ActionDomain.id := "action-1"; ActionDomain.type := WEBHOOK;
              ActionDomain.config := None |}
           (fun _ => eq_refl)
           FormSamples.automation (fun _ => eq_refl)
           (fun _ _ => eq_refl) (fun _ => eq_refl)
           JNull JNull JNull eq_refl eq_refl eq_refl World.initial
           Scenario.unavailable).
  intros w' job. reflexivity.
Defined.

End TriggerPathsSamples.

(* ================================================================== *)
(** ** What every run of the processor keeps *)
(* ================================================================== *)

Section RunInvariants.

Import Run.

Variable env : Env.t.

(** The three outcomes of [recordAndEnqueue]. *)
Lemma recordAndEnqueue_outcome datasetData automation action
      triggerId actionId projectId :
  appends (Trace.recordOutcome env datasetData automation action
             triggerId actionId projectId)
          (recordAndEnqueue env datasetData automation action
             triggerId actionId projectId).
Proof.
  intros [effects n]. unfold recordAndEnqueue, Trace.recordOutcome.
  unfold_run. cbn.
  case_answer.
  2:{ exists []. rewrite app_nil_r. split; [done|]. split; [lia|by left]. }
  repeat case_answer;
    try (eexists [_; _];
         split; [by rewrite <- app_assoc|];
         split; [lia|]; right; by left).
  eexists [_; _; _].
  split; [by rewrite <- !app_assoc|].
  split; [lia|].
  right; right. eauto 10.
Qed.

(** An invariant of the appended effects holds of every run of the
    processor as soon as it is closed under concatenation, holds of
    silent effects, and follows from the outcomes of [recordAndEnqueue]. *)
Lemma processor_keeps (I : nat -> list Effect -> nat -> Prop) event :
  (forall lo hi, lo <= hi -> I lo [] hi) ->
  (forall lo mid hi d1 d2,
      lo <= mid -> mid <= hi -> I lo d1 mid -> I mid d2 hi ->
      I lo (d1 ++ d2) hi) ->
  (forall lo e, silent e -> I lo [e] lo) ->
  (forall automation triggerId actionId lo delta hi,
      Trace.recordOutcome env (DatasetChangeEvent.dataset event) automation
        (TriggerEventAction_str (DatasetChangeEvent.action event))
        triggerId actionId (DatasetChangeEvent.projectId event) lo delta hi ->
      I lo delta hi) ->
  appends I (datasetVersionProcessor env event).
Proof.
  intros Hnil Happ Hsilent Hrecord.
  apply appends_datasetVersionProcessor; try done.
  intros automation triggerId actionId.
  eapply appends_weaken; [apply recordAndEnqueue_outcome|].
  apply Hrecord.
Qed.

Variable event : DatasetChangeEvent.t.

(** X16.  In every run of the processor, each execution record created
    has status PENDING, belongs to the event's project, has the event's
    dataset as its source, and carries as audit input the dataset's name
    and id, the record's own automation id and the type ["dataset"]. *)
Theorem every_record_is_pending_audit_of_the_event w :
  exists delta,
    World.effects (after (datasetVersionProcessor env event) w)
      = World.effects w ++ delta
    /\ forall data,
         ExecutionCreated data ∈ delta ->
         AutomationExecution.status data = PENDING
         /\ AutomationExecution.projectId data
            = DatasetChangeEvent.projectId event
         /\ AutomationExecution.sourceId data
            = DatasetDomain.id (DatasetChangeEvent.dataset event)
         /\ AutomationExecution.input data
            = JObj [ ("datasetName",
                       JStr (DatasetDomain.name
                               (DatasetChangeEvent.dataset event)));
                     ("datasetId",
                       JStr (DatasetDomain.id
                               (DatasetChangeEvent.dataset event)));
                     ("automationId",
                       JStr (AutomationExecution.automationId data));
                     ("type", JStr "dataset") ].
Proof.
  destruct (processor_keeps (Trace.recordsShaped event) event) with (w := w)
    as (delta & E & _ & Hshape).
  - by intros lo hi _ data ?%elem_of_nil.
  - intros lo mid hi d1 d2 _ _ H1 H2 data [?|?]%elem_of_app; auto.
  - intros lo e He data <-%list_elem_of_singleton. destruct He.
  - intros automation triggerId actionId lo delta hi Hout data Hin.
    destruct Hout as [->|[->|(ts & md & ins & eos & _ & _ & _ & ->)]].
    + by apply elem_of_nil in Hin.
    + repeat (apply elem_of_cons in Hin as [Hin|Hin]; try discriminate Hin);
        [|by apply elem_of_nil in Hin].
      injection Hin as ->. by repeat split.
    + repeat (apply elem_of_cons in Hin as [Hin|Hin]; try discriminate Hin);
        [|by apply elem_of_nil in Hin].
      injection Hin as ->. by repeat split.
  - exists delta. split; [exact E|]. exact Hshape.
Qed.


Lemma lookup_set_ne key key' v fields :
  key <> key' ->
  Obj.lookup key (Obj.set key' v fields) = Obj.lookup key fields.
Proof.
  intros Hne. induction fields as [|[k v0] rest IH]; simpl.
  - apply not_eq_sym, String.eqb_neq in Hne. by rewrite Hne.
  - destruct (String.eqb k key') eqn:Ek; simpl.
    + apply String.eqb_eq in Ek as ->.
      apply not_eq_sym, String.eqb_neq in Hne. by rewrite Hne.
    + by rewrite IH.
Qed.

Lemma normalizedSnapshot_other datasetData metadata inputSchema
      expectedOutputSchema key :
  Trace.normalized key = false ->
  Obj.lookup key (normalizedSnapshot datasetData metadata inputSchema
                    expectedOutputSchema)
  = Obj.lookup key (DatasetDomain.entries datasetData).
Proof.
  unfold Trace.normalized. intros Hn.
  apply orb_false_elim in Hn as [Hn H3].
  apply orb_false_elim in Hn as [H1 H2].
  apply String.eqb_neq in H1, H2, H3.
  unfold normalizedSnapshot. by rewrite !lookup_set_ne.
Qed.

(** X18.  In every run of the processor, the dataset snapshot of a queued
    webhook job has, for every property other than [metadata],
    [inputSchema] and [expectedOutputSchema], the value the event's
    dataset has, and for these three the value the schema parser returned
    for the dataset's field. *)
Theorem job_snapshot_is_the_normalised_dataset w :
  exists delta,
    World.effects (after (datasetVersionProcessor env event) w)
      = World.effects w ++ delta
    /\ forall job,
         WebhookJobAdded job ∈ delta ->
         (forall key,
             Trace.normalized key = false ->
             Trace.webhookSnapshotField key job
             = Obj.lookup key
                 (DatasetDomain.entries (DatasetChangeEvent.dataset event)))
         /\ (exists v,
               Trace.webhookSnapshotField "metadata" job = Some v
               /\ Env.parseJsonNullable env
                    (DatasetDomain.metadata (DatasetChangeEvent.dataset event))
                  = Ok v)
         /\ (exists v,
               Trace.webhookSnapshotField "inputSchema" job = Some v
               /\ Env.parseJsonNullable env
                    (DatasetDomain.inputSchema
                       (DatasetChangeEvent.dataset event))
                  = Ok v)
         /\ (exists v,
               Trace.webhookSnapshotField "expectedOutputSchema" job = Some v
               /\ Env.parseJsonNullable env
                    (DatasetDomain.expectedOutputSchema
                       (DatasetChangeEvent.dataset event))
                  = Ok v).
Proof.
  destruct (processor_keeps (Trace.snapshotsFaithful env event) event)
    with (w := w) as (delta & E & _ & Hfaithful).
  - by intros lo hi _ job ?%elem_of_nil.
  - intros lo mid hi d1 d2 _ _ H1 H2 job [?|?]%elem_of_app; auto.
  - intros lo e He job <-%list_elem_of_singleton. destruct He.
  - intros automation triggerId actionId lo delta hi Hout job Hin.
    destruct Hout as [->|[->|(ts & md & ins & eos & Hmd & Hins & Heos & ->)]].
    + by apply elem_of_nil in Hin.
    + repeat (apply elem_of_cons in Hin as [Hin|Hin]; try discriminate Hin).
      by apply elem_of_nil in Hin.
    + repeat (apply elem_of_cons in Hin as [Hin|Hin]; try discriminate Hin);
        [|by apply elem_of_nil in Hin].
      injection Hin as ->. repeat split.
      * intros key Hkey. by apply normalizedSnapshot_other.
      * by exists md.
      * by exists ins.
      * by exists eos.
  - exists delta. split; [exact E|]. exact Hfaithful.
Qed.

(** X19.  No run of the processor queues an entity change event: the
    processor consumes change events and produces none. *)
Theorem processor_queues_no_change_event w :
  exists delta,
    World.effects (after (datasetVersionProcessor env event) w)
      = World.effects w ++ delta
    /\ Trace.entityChangeJobs delta = [].
Proof.
  destruct (processor_keeps Trace.noEntityChangeJobs event) with (w := w)
    as (delta & E & _ & Hnone).
  - done.
  - intros lo mid hi d1 d2 _ _ H1 H2.
    unfold Trace.noEntityChangeJobs, Trace.entityChangeJobs in *.
    by rewrite omap_app, H1, H2.
  - intros lo e He. by destruct e.
  - intros automation triggerId actionId lo delta hi Hout.
    by destruct Hout as [->|[->|(ts & md & ins & eos & _ & _ & _ & ->)]].
  - by exists delta.
Qed.

End RunInvariants.

(* ------------------------------------------------------------------ *)
(** *** At most one record and one job per trigger *)

Section Counting.

Import Run.

Variable env : Env.t.
Variable event : DatasetChangeEvent.t.




End Counting.

Section CountingSamples.


End CountingSamples.

(* ================================================================== *)
(** ** More on the change publisher *)
(* ================================================================== *)

Section PublisherPaths.

Import Run.

Variable env : Env.t.
Variable datasetData : DatasetDomain.t.
Variable action : TriggerEventAction.

Abbreviation versionsRead :=
  (Queried (QDatasetVersions (DatasetDomain.projectId datasetData)
                             (DatasetDomain.id datasetData))).

(** X21.  Whatever the collaborators answer, a call of the publisher on
    a dataset reads the dataset versions once and then leaves one of
    four traces: nothing more and an error thrown (the read or the
    normalisation failed); the "Queued" line alone, returning normally
    (no queue instance); the queued event followed by the "Queued" line,
    returning normally; or the "Failed to queue" line and the error
    thrown again.  It never creates an execution record, never queues a
    webhook job and never queues more than one event. *)
Theorem publisher_traces w :
  exists delta,
    World.effects (after (datasetChangeEventSourcing env (Some datasetData)
                            action) w)
      = World.effects w ++ versionsRead :: delta
    /\ ((outcome (datasetChangeEventSourcing env (Some datasetData) action) w
         = Ok tt
         /\ (delta = [Logged LevelInfo (msgQueued datasetData action)]
             \/ exists job,
                 delta = [ EntityChangeJobAdded job;
                           Logged LevelInfo (msgQueued datasetData action) ]))
        \/ exists e,
            outcome (datasetChangeEventSourcing env (Some datasetData) action) w
            = Throw e
            /\ (delta = []
                \/ delta = [Logged LevelError (msgFailedToQueue datasetData e)])).
Proof.
  destruct w as [effects n].
  unfold after, outcome, datasetChangeEventSourcing, buildChangeEvent,
    queueChangeEvent.
  unfold_run. cbn.
  repeat case_answer;
    (eexists; split; [rewrite <- ?app_assoc; reflexivity|]; eauto 10).
Qed.

Variable versions : list Date.
Variables metadata inputSchema expectedOutputSchema : JValue.

Hypothesis versionsFound :
  forall w', Env.listDatasetVersions env w'
               (DatasetDomain.projectId datasetData)
               (DatasetDomain.id datasetData) = Ok versions.
Hypothesis parsedMetadata :
  Env.parseJsonNullable env (DatasetDomain.metadata datasetData)
  = Ok metadata.
Hypothesis parsedInputSchema :
  Env.parseJsonNullable env (DatasetDomain.inputSchema datasetData)
  = Ok inputSchema.
Hypothesis parsedExpectedOutputSchema :
  Env.parseJsonNullable env (DatasetDomain.expectedOutputSchema datasetData)
  = Ok expectedOutputSchema.

(** X22.  Without a queue instance the publisher queues nothing, and yet
    returns normally and logs that the event was queued. *)
Theorem publisher_without_queue_reports_success w :
  (forall w', Env.entityChangeQueueInstance env w' = false) ->
  datasetChangeEventSourcing env (Some datasetData) action w
  = (Ok tt,
     {| World.effects :=
          World.effects w
            ++ [ versionsRead;
                 Logged LevelInfo (msgQueued datasetData action) ];
        World.uuids := S (World.uuids w) |}).
Proof.
  intros Hnone.
  unfold datasetChangeEventSourcing, buildChangeEvent, queueChangeEvent.
  unfold_run. cbn. rewrite versionsFound. cbn.
  rewrite parsedMetadata, parsedInputSchema, parsedExpectedOutputSchema. cbn.
  rewrite Hnone. cbn. by rewrite <- !app_assoc.
Qed.

(** X23.  When every collaborator succeeds, the publisher queues exactly
    one event and then logs it.  The event carries the next identifier,
    the entity type ["dataset"], the dataset's project and id and the
    action kind; its snapshot has [itemsUpdatedAt] set to the first of
    the dataset versions read (null when there is none) whatever the
    dataset itself says, the three schema fields as parsed, and every
    other property of the dataset unchanged. *)
Theorem publisher_queues_one_event w :
  (forall w', Env.entityChangeQueueInstance env w' = true) ->
  (forall w' job, Env.entityChangeQueueAdd env w' job = Ok tt) ->
  exists job,
    datasetChangeEventSourcing env (Some datasetData) action w
    = (Ok tt,
       {| World.effects :=
            World.effects w
              ++ [ versionsRead;
                   EntityChangeJobAdded job;
                   Logged LevelInfo (msgQueued datasetData action) ];
          World.uuids := S (World.uuids w) |})
    /\ Obj.get "id" job = Some (JStr (Env.v4 env (World.uuids w)))
    /\ Trace.payloadField "entityType" job = Some (JStr "dataset")
    /\ Trace.payloadField "projectId" job
       = Some (JStr (DatasetDomain.projectId datasetData))
    /\ Trace.payloadField "datasetId" job
       = Some (JStr (DatasetDomain.id datasetData))
    /\ Trace.payloadField "action" job
       = Some (JStr (TriggerEventAction_str action))
    /\ Trace.entitySnapshotField "itemsUpdatedAt" job
       = Some (match versions with
               | latest :: _ => JDate latest
               | [] => JNull
               end)
    /\ Trace.entitySnapshotField "metadata" job = Some metadata
    /\ Trace.entitySnapshotField "inputSchema" job = Some inputSchema
    /\ Trace.entitySnapshotField "expectedOutputSchema" job
       = Some expectedOutputSchema
    /\ forall key,
         Trace.normalized key = false -> key <> "itemsUpdatedAt" ->
         Trace.entitySnapshotField key job
         = Obj.lookup key (DatasetDomain.entries datasetData).
Proof.
  intros Hinst Hadd.
  exists (entityChangeJob env (Env.now env (World.emit versionsRead w))
            (Env.v4 env (World.uuids w)) datasetData action
            (Obj.set "expectedOutputSchema" expectedOutputSchema
               (Obj.set "inputSchema" inputSchema
                  (Obj.set "metadata" metadata
                     (Obj.set "itemsUpdatedAt"
                        (match versions with
                         | latest :: _ => JDate latest
                         | [] => JNull
                         end)
                        (DatasetDomain.entries datasetData)))))).
  split.
  - unfold datasetChangeEventSourcing, buildChangeEvent, queueChangeEvent.
    unfold_run. cbn. rewrite versionsFound. cbn.
    rewrite parsedMetadata, parsedInputSchema, parsedExpectedOutputSchema.
    cbn. rewrite Hinst. cbn. rewrite Hadd. cbn.
    rewrite <- !app_assoc. reflexivity.
  - repeat split; try reflexivity.
    intros key Hkey Hitems. unfold Trace.normalized in Hkey.
    apply orb_false_elim in Hkey as [Hkey H3].
    apply orb_false_elim in Hkey as [H1 H2].
    apply String.eqb_neq in H1, H2, H3.
    unfold Trace.entitySnapshotField, entityChangeJob.
    cbn -[Obj.set DatasetDomain.entries].
    by rewrite !lookup_set_ne.
Qed.

End PublisherPaths.

Section PublisherSamples.

Lemma publisher_without_queue_reports_success_witness :
  datasetChangeEventSourcing MoreSamples.noQueue (Some Scenario.dataset)
    updated World.initial
  = (Ok tt,
     {| World.effects :=
          [ Queried (QDatasetVersions "project-1" "dataset-1");
            Logged LevelInfo (msgQueued Scenario.dataset updated) ];
        World.uuids := 1 |}).
Proof.
  apply (publisher_without_queue_reports_success MoreSamples.noQueue
           Scenario.dataset updated [2500%Z] JNull JNull JNull
           (fun _ => eq_refl) eq_refl eq_refl eq_refl World.initial).
  intros w'. reflexivity.
Defined.

Lemma publisher_queues_one_event_witness :
  exists job,
    datasetChangeEventSourcing Scenario.healthy (Some Scenario.dataset)
      deleted World.initial
    = (Ok tt,
       {| World.effects :=
            [ Queried (QDatasetVersions "project-1" "dataset-1");
              EntityChangeJobAdded job;
              Logged LevelInfo (msgQueued Scenario.dataset deleted) ];
          World.uuids := 1 |})
    /\ Trace.entitySnapshotField "itemsUpdatedAt" job = Some (JDate 2500%Z).
Proof.
  destruct (publisher_queues_one_event Scenario.healthy Scenario.dataset
              deleted [2500%Z] JNull JNull JNull
              (fun _ => eq_refl) eq_refl eq_refl eq_refl World.initial
              (fun _ => eq_refl) (fun _ _ => eq_refl))
    as (job & Hrun & _ & _ & _ & _ & _ & Hitems & _).
  exists job. split; [exact Hrun | exact Hitems].
Defined.

End PublisherSamples.

(* ================================================================== *)
(** ** More sample runs *)
(* ================================================================== *)

(** The form of a new automation. *)
Example getDefaultValues_of_new_automation :
  WebhookActionDefaults.getDefaultValues MoreSamples.eventSourceValue
    MoreSamples.inheritedKey None
  = Ok {| FormData.webhook :=
            Some {| WebhookForm.url := "";
                    WebhookForm.headers := Some [];
                    WebhookForm.apiVersion := [("prompt", "v1")] |};
          FormData.eventSource := None |}.
Proof. reflexivity. Qed.

(** The form of a saved webhook automation: the secret is not in [value]. *)
Example getDefaultValues_of_saved_automation :
  WebhookActionDefaults.getDefaultValues MoreSamples.eventSourceValue
    MoreSamples.inheritedKey
    (Some FormSamples.automation)
  = Ok {| FormData.webhook :=
            Some {| WebhookForm.url := "https://example.com/hook";
                    WebhookForm.headers :=
                      Some [ {| HeaderPair.name := "X-Trace";
                                HeaderPair.value := "1";
                                HeaderPair.displayValue := "1";
                                HeaderPair.isSecret := false;
                                HeaderPair.wasSecret := false |};
                             {| HeaderPair.name := "Authorization";
                                HeaderPair.value := "";
                                HeaderPair.displayValue := "Bear...oken";
                                HeaderPair.isSecret := true;
                                HeaderPair.wasSecret := true |} ];
                    WebhookForm.apiVersion := [("dataset", "v1")] |};
          FormData.eventSource := None |}.
Proof. reflexivity. Qed.

(** An automation of another action type on a dataset trigger. *)
Example getDefaultValues_of_other_action :
  WebhookActionDefaults.getDefaultValues MoreSamples.eventSourceValue
    MoreSamples.inheritedKey
    (Some MoreSamples.slackAutomation)
  = Ok {| FormData.webhook :=
            Some {| WebhookForm.url := "";
                    WebhookForm.headers := Some [];
                    WebhookForm.apiVersion := [("dataset", "v1")] |};
          FormData.eventSource := None |}.
Proof. reflexivity. Qed.

(** An event source named like a member every object inherits finds that
    member: nothing is thrown, and the member's text becomes the key. *)
Example getDefaultValues_of_inherited_name :
  WebhookActionDefaults.getDefaultValues MoreSamples.eventSourceValue
    MoreSamples.inheritedKey (Some (MoreSamples.withSource "toString"))
  = Ok {| FormData.webhook :=
            Some {| WebhookForm.url := "https://example.com/trace";
                    WebhookForm.headers := Some [];
                    WebhookForm.apiVersion :=
                      [("function toString() { [native code] }", "v1")] |};
          FormData.eventSource := None |}.
Proof. reflexivity. Qed.
